(** * MF-Rename-Tool: the file-resolution and fallback-conversion engine

    A shallow embedding of [image_copy_tool_qt.py]: the filename sanitizer,
    the path index builder, the resolver, the output path allocator, the
    per-row batch engine with its finalisation, and the tail of the main
    window constructor that runs the update check.

    Conventions.
    - A Python [str] is a [string] whose characters are read as the code
      points U+0000..U+00FF; [str.lower], [str.strip] and the regular
      expression class of the sanitizer are written out on that range.
    - A [pathlib.Path] is the string it renders to, with POSIX separators;
      [Path(text)], [dir / name], [name], [stem] and [suffix] follow
      [pathlib.PurePosixPath]: a path is parsed into its root and its
      components and rendered from them.
    - The file system is a finite map from rendered paths to nodes:
      distinct renderings name distinct files (no links, no resolution of
      [..], no folding of case), and a write is not checked against the
      folder above it.  The process log is kept apart from the file system,
      as a sequence of structured entries.
    - The image library and the spreadsheet library are parameters of the
      engine, with the behaviour that differs between their versions left
      open.
    - A Python exception is a value of [exn]; code that can raise returns a
      [result]. *)

From Stdlib Require Import Ascii String.
From stdpp Require Import base option list strings gmap pretty sorting.

(** ** Python strings *)

Module Py.

Definition chars (s : string) : list ascii := list_ascii_of_string s.
Definition str (l : list ascii) : string := string_of_list_ascii l.

(** [str.isspace] on one character, for code points below 256. *)
Definition is_space (c : ascii) : bool :=
  let n := nat_of_ascii c in
  ((9 <=? n) && (n <=? 13)) || ((28 <=? n) && (n <=? 32))
  || (n =? 133) || (n =? 160).

(** [str.lower] on one character, for code points below 256: the letters
    A..Z and the Latin-1 capitals (U+00D7, the multiplication sign, is not
    one of them). *)
Definition lower_char (c : ascii) : ascii :=
  let n := nat_of_ascii c in
  if ((65 <=? n) && (n <=? 90))
     || ((192 <=? n) && (n <=? 222) && negb (n =? 215))
  then ascii_of_nat (n + 32) else c.

Definition lower (s : string) : string := str (lower_char <$> chars s).

(** [str.lstrip()], [str.rstrip()] and [str.strip()] without argument. *)
Fixpoint lstrip_chars (l : list ascii) : list ascii :=
  match l with
  | [] => []
  | c :: l' => if is_space c then lstrip_chars l' else l
  end.

Definition rstrip_chars (l : list ascii) : list ascii :=
  reverse (lstrip_chars (reverse l)).

Definition strip_chars (l : list ascii) : list ascii :=
  rstrip_chars (lstrip_chars l).

Definition strip (s : string) : string := str (strip_chars (chars s)).

(** Truthiness of a [str]: only the empty string is false. *)
Definition truthy (s : string) : bool :=
  match s with EmptyString => false | String _ _ => true end.

(** [re.sub(cls, '', s)] for a character class given as a predicate:
    every character of the class is deleted. *)
Definition re_sub_class (cls : ascii → bool) (s : string) : string :=
  str (filter (λ c, cls c = false) (chars s)).

(** [s.rfind(c)]; [None] stands for Python's -1. *)
Fixpoint rfind (c : ascii) (l : list ascii) : option nat :=
  match l with
  | [] => None
  | a :: l' =>
      match rfind c l' with
      | Some i => Some (S i)
      | None => if decide (a = c) then Some 0 else None
      end
  end.

(** [s.split(sep)] for a one-character separator. *)
Fixpoint split_chars (sep : ascii) (l : list ascii) : list (list ascii) :=
  match l with
  | [] => [[]]
  | c :: l' =>
      if decide (c = sep) then [] :: split_chars sep l'
      else match split_chars sep l' with
           | [] => [[c]]
           | w :: ws => (c :: w) :: ws
           end
  end.

End Py.

(** ** Filename Sanitizer *)

(** The class of the regular expression: the nine characters
    less-than, greater-than, colon, double quote (code 34), slash, backslash,
    bar, question mark and star. *)
Definition illegal_chars : list ascii :=
  ["<"; ">"; ":"; "034"; "/"; "\"; "|"; "?"; "*"]%char.

Definition is_illegal (c : ascii) : bool := bool_decide (c ∈ illegal_chars).

Definition sanitize_filename (name : string) : string :=
  Py.strip (Py.re_sub_class is_illegal name).

(** ** Paths and the file system *)

Abbreviation Path := string.

(** The components of a path: empty components and [.] are dropped, as
    [pathlib] does when it parses. *)
Definition path_parts (p : Path) : list (list ascii) :=
  filter (λ w, w ≠ [] ∧ w ≠ ["."%char]) (Py.split_chars "/" (Py.chars p)).

(** The root [pathlib] parses off a text: [/] for one leading slash or for
    three and more, [//] for exactly two, none otherwise. *)
Definition path_root (p : string) : string :=
  match Py.chars p with
  | c1 :: rest1 =>
      if decide (c1 = "/"%char) then
        match rest1 with
        | c2 :: rest2 =>
            if decide (c2 = "/"%char) then
              match rest2 with
              | c3 :: _ => if decide (c3 = "/"%char) then "/" else "//"
              | [] => "//"
              end
            else "/"
        | [] => "/"
        end
      else ""
  | [] => ""
  end.

(** [str(path)]: the root, then the components joined by slashes; a path
    without root and components is [.]. *)
Fixpoint join_parts (cs : list string) : string :=
  match cs with
  | [] => ""
  | [c] => c
  | c :: cs' => c +:+ "/" +:+ join_parts cs'
  end.

Definition render_path (root : string) (cs : list string) : Path :=
  match cs with
  | [] => if Py.truthy root then root else "."
  | _ :: _ => root +:+ join_parts cs
  end.

(** [Path(text)] *)
Definition path_of (text : string) : Path :=
  render_path (path_root text) (Py.str <$> path_parts text).

(** [Path.name]: the last component, or the empty string. *)
Definition path_name (p : Path) : string :=
  Py.str (List.last (path_parts p) []).

(** [Path.suffix] and [Path.stem]: split the name at its last dot, unless
    that dot is the first or the last character of the name. *)
Definition path_suffix (p : Path) : string :=
  let name := Py.chars (path_name p) in
  match Py.rfind "." name with
  | Some i => if (0 <? i) && (i <? length name - 1)
              then Py.str (drop i name) else ""
  | None => ""
  end.

Definition path_stem (p : Path) : string :=
  let name := Py.chars (path_name p) in
  match Py.rfind "." name with
  | Some i => if (0 <? i) && (i <? length name - 1)
              then Py.str (take i name) else Py.str name
  | None => Py.str name
  end.

(** [dir / name]: a [name] with a root replaces [dir]; otherwise its
    components follow those of [dir]. *)
Definition path_join (dir : Path) (name : string) : Path :=
  if Py.truthy (path_root name) then path_of name
  else render_path (path_root dir)
         (Py.str <$> (path_parts dir ++ path_parts name)).

Inductive node :=
  | File (content : list Byte.byte)
  | Dir (size : nat).

Abbreviation FS := (gmap string node).

Definition path_exists (fs : FS) (p : Path) : bool :=
  bool_decide (is_Some (fs !! p)).

Definition is_file (fs : FS) (p : Path) : bool :=
  match fs !! p with Some (File _) => true | _ => false end.

Inductive exn :=
  | FileNotFoundError (p : Path)
  | FileExistsError (p : Path)
  | IsADirectoryError (p : Path)
  | KeyError (k : string)
  | UnboundLocalError (v : string)
  | ConversionError (p : Path).
(** [ConversionError] stands for the exceptions of the image library. *)

Inductive result (A : Type) :=
  | Ok (a : A)
  | Raise (e : exn).
Arguments Ok {A} a.
Arguments Raise {A} e.

Global Instance result_bind : MBind result := λ A B k r,
  match r with Ok a => k a | Raise e => Raise e end.

Global Instance result_ret : MRet result := λ A a, Ok a.

Fixpoint mapR {A B} (f : A → result B) (l : list A) : result (list B) :=
  match l with
  | [] => Ok []
  | a :: l' => b ← f a; bs ← mapR f l'; Ok (b :: bs)
  end.

(** [p.stat().st_size] *)
Definition st_size (fs : FS) (p : Path) : result nat :=
  match fs !! p with
  | Some (File c) => Ok (length c)
  | Some (Dir n) => Ok n
  | None => Raise (FileNotFoundError p)
  end.

(** [shutil.copy2(src, dst)] onto a destination that is not a directory. *)
Definition copy2 (fs : FS) (src dst : Path) : result FS :=
  match fs !! src with
  | Some (File bytes) => Ok (<[dst := File bytes]> fs)
  | Some (Dir _) => Raise (IsADirectoryError src)
  | None => Raise (FileNotFoundError src)
  end.

(** [sorted(items, key=..., reverse=True)], on items paired with their key
    (the key function is called once per item, in order).  The sort is
    stable; with [reverse=True] the list is reversed, sorted in ascending
    order and reversed again, so that items of equal key keep their order. *)
Fixpoint insert_by_key {A} (x : nat * A) (l : list (nat * A)) : list (nat * A) :=
  match l with
  | [] => [x]
  | y :: l' => if x.1 <=? y.1 then x :: y :: l' else y :: insert_by_key x l'
  end.

Definition stable_sort {A} (l : list (nat * A)) : list (nat * A) :=
  foldr insert_by_key [] l.

Definition sorted_reverse {A} (l : list (nat * A)) : list (nat * A) :=
  reverse (stable_sort (reverse l)).

(** ** Path Index Builder: the loop of [build_image_index] *)

Abbreviation Index := (gmap string (list Path)).

(** [self.image_index.setdefault(stem, []).append(file)] for a regular file. *)
Definition index_add (fs : FS) (idx : Index) (file : Path) : Index :=
  if is_file fs file then
    let stem := Py.lower (path_stem file) in
    <[stem := default [] (idx !! stem) ++ [file]]> idx
  else idx.

Definition index_files (fs : FS) (listing : list Path) : Index :=
  foldl (index_add fs) ∅ listing.

(** ** Resolver *)

Definition is_preferred (preferred_ext : string) (p : Path) : bool :=
  bool_decide (Py.lower (path_suffix p) = preferred_ext).

Definition find_image_file (fs : FS) (image_index : Index)
    (preferred_ext : string) (stem : string)
    : result (option Path * option bool) :=
  let stem := Py.lower stem in
  match image_index !! stem with
  | None => Ok (None, None)
  | Some candidates =>
      match List.find (is_preferred preferred_ext) candidates with
      | Some p => Ok (Some p, Some false)
      | None =>
          keyed ← mapR (λ x, n ← st_size fs x; Ok (n, x)) candidates;
          match sorted_reverse keyed with
          | (_, p) :: _ => Ok (Some p, Some true)
          | [] => Ok (None, None)
          end
      end
  end.

(** ** Output Path Allocator *)

(** The [while True] loop, with a bound on its iterations; [None] when the
    bound is reached. *)
Fixpoint resolve_output_path_loop (fuel : nat) (fs : FS) (out_dir : Path)
    (base_name ext : string) (i : nat) : option Path :=
  match fuel with
  | 0 => None
  | S fuel' =>
      let candidate :=
        path_join out_dir (base_name +:+ "_" +:+ pretty i +:+ ext) in
      if negb (path_exists fs candidate) then Some candidate
      else resolve_output_path_loop fuel' fs out_dir base_name ext (S i)
  end.

(** One iteration more than the file system has entries always suffices
    (see [resolve_output_path_total]). *)
Definition resolve_output_path (fs : FS) (out_dir : Path)
    (base_name ext : string) : option Path :=
  let base_name := sanitize_filename base_name in
  let candidate := path_join out_dir (base_name +:+ ext) in
  if negb (path_exists fs candidate) then Some candidate
  else resolve_output_path_loop (S (size fs)) fs out_dir base_name ext 1.

(** ** Spreadsheet rows *)

(** A cell is missing ([NaN], what an empty spreadsheet cell loads as) or
    holds a value; [Val s] is a value that [str] renders as [s]. *)
Inductive cell :=
  | NaN
  | Val (s : string).

Definition isna (c : cell) : bool :=
  match c with NaN => true | Val _ => false end.

(** [str(value)] on the value of a cell ([str] of the float NaN is
    [nan]). *)
Definition cell_str (c : cell) : string :=
  match c with NaN => "nan" | Val s => s end.

Abbreviation Row := (gmap string cell).

(** [row[col]] *)
Definition row_get (row : Row) (col : string) : result cell :=
  match row !! col with
  | Some c => Ok c
  | None => Raise (KeyError col)
  end.

(** The spreadsheet library, as far as the engine depends on it: the writer
    of the report, [DataFrame(rows).to_excel(path, index=False)], and what
    [Series.astype(str)] makes of a missing cell: the text [nan] before
    pandas 3, and from pandas 3 on a cell that is still missing and equal
    to no string. *)
Record Pandas := {
  to_excel : list Row → list Byte.byte;
  astype_str_na : option string
}.

(** [series.astype(str)] on one cell; [None] is a missing value. *)
Definition astype_str (pd : Pandas) (c : cell) : option string :=
  match c with
  | NaN => astype_str_na pd
  | Val s => Some s
  end.

(** ** Conversion Executor *)

(** What [Image.save] does with an image: it writes the file; or it raises
    before the destination is opened (a suffix that names no format); or it
    raises once the destination is open (a mode the format cannot hold, as
    LA, I or F for JPEG; a failure while encoding), with [partial] written
    by then. *)
Inductive save_result :=
  | Saved (bytes : list Byte.byte)
  | SaveRefused
  | SaveFailed (partial : list Byte.byte).

(** The image library, as far as [convert_image] uses it: [Image.open] on
    the bytes of a file, [img.mode], [img.convert], and the two calls of
    [img.save], [pil_save_jpeg] for
    [save(dst, format="JPEG", quality=95, subsampling=0)] and [pil_save]
    for [save(dst)].  [pil_removes_failed] tells whether the library
    deletes a file that a failed [save] has created, as its later versions
    do.  Any exception of the library is a [ConversionError]. *)
Record Pillow := {
  image : Type;
  pil_open : list Byte.byte → option image;
  pil_mode : image → string;
  pil_convert : image → string → option image;
  pil_save_jpeg : image → save_result;
  pil_save : image → Path → save_result;
  pil_removes_failed : bool
}.

(** [img.save(dst, ...)] onto a destination that is not a directory: the
    file system after the call, and the exception if it raised. *)
Definition image_save (pil : Pillow) (fs : FS) (dst : Path) (r : save_result)
    : FS * option exn :=
  match r with
  | Saved bytes => (<[dst := File bytes]> fs, None)
  | SaveRefused => (fs, Some (ConversionError dst))
  | SaveFailed partial =>
      (if pil_removes_failed pil && negb (path_exists fs dst) then fs
       else <[dst := File partial]> fs,
       Some (ConversionError dst))
  end.

(** The file system after the call, and the exception if it raised. *)
Definition convert_image (pil : Pillow) (fs : FS) (src dst : Path)
    : FS * option exn :=
  match fs !! src with
  | Some (File bytes) =>
      match pil_open pil bytes with
      | None => (fs, Some (ConversionError src))
      | Some img =>
          if bool_decide (Py.lower (path_suffix dst) ∈ [".jpg"; ".jpeg"]) then
            if bool_decide (pil_mode pil img ∈ ["RGBA"; "P"]) then
              match pil_convert pil img "RGB" with
              | Some img => image_save pil fs dst (pil_save_jpeg pil img)
              | None => (fs, Some (ConversionError src))
              end
            else image_save pil fs dst (pil_save_jpeg pil img)
          else image_save pil fs dst (pil_save pil img dst)
      end
  | Some (Dir _) => (fs, Some (IsADirectoryError src))
  | None => (fs, Some (FileNotFoundError src))
  end.

(** ** Batch Run Engine *)

(** What [run] reads from the widgets and attributes of the window. *)
Record config := {
  image_col : string;
  newname_col : string;
  vendor_col : string;
  vendor_value : string;
  base_edit : string;
  out_edit : string;
  preferred_ext : string;
  fallback_mode : string;
  preview_toggle : string
}.

(** The entries of the process log and the dialogs shown, in order; the
    trace also marks each call of the resolver.  Progress-bar updates are
    left out. *)
Inductive event :=
  | LogRunStart (total : nat) (pref : string) (rename_enabled : bool)
      (mode : string)
  | LogEmptyPath
  | CallResolver (stem : string)
  | LogCopyPreferred (src dst : Path)
  | LogFallbackFound (src : Path)
  | ShowConversionDialog (src dst : Path) (rename_enabled : bool)
  | LogCancelled
  | LogSkipped
  | LogConvertAll
  | LogConvertFallback (src dst : Path)
  | LogCopyFallback (src dst : Path)
  | LogNotFound (filename : string)
  | WriteReport (missing_path : Path) (rows : list Row)
  | LogSummary (total co cr vo vr nf : nat)
  | ShowCompleted (total co cr vo vr nf : nat) (exported : bool).

Record run_state := {
  copied_original : nat;
  copied_renamed : nat;
  converted_original : nat;
  converted_renamed : nat;
  not_found_rows : list Row;
  convert_all_mode : bool;
  fs : FS;
  trace : list event
}.

Definition initial_state (fs0 : FS) : run_state :=
  {| copied_original := 0; copied_renamed := 0;
     converted_original := 0; converted_renamed := 0;
     not_found_rows := []; convert_all_mode := false;
     fs := fs0; trace := [] |}.

Definition log (e : event) (st : run_state) : run_state :=
  {| copied_original := copied_original st;
     copied_renamed := copied_renamed st;
     converted_original := converted_original st;
     converted_renamed := converted_renamed st;
     not_found_rows := not_found_rows st;
     convert_all_mode := convert_all_mode st;
     fs := fs st; trace := trace st ++ [e] |}.

Definition set_fs (fs' : FS) (st : run_state) : run_state :=
  {| copied_original := copied_original st;
     copied_renamed := copied_renamed st;
     converted_original := converted_original st;
     converted_renamed := converted_renamed st;
     not_found_rows := not_found_rows st;
     convert_all_mode := convert_all_mode st;
     fs := fs'; trace := trace st |}.

Definition set_convert_all (st : run_state) : run_state :=
  {| copied_original := copied_original st;
     copied_renamed := copied_renamed st;
     converted_original := converted_original st;
     converted_renamed := converted_renamed st;
     not_found_rows := not_found_rows st;
     convert_all_mode := true;
     fs := fs st; trace := trace st |}.

(** [not_found_rows.append(row)] *)
Definition mark_not_found (row : Row) (st : run_state) : run_state :=
  {| copied_original := copied_original st;
     copied_renamed := copied_renamed st;
     converted_original := converted_original st;
     converted_renamed := converted_renamed st;
     not_found_rows := not_found_rows st ++ [row];
     convert_all_mode := convert_all_mode st;
     fs := fs st; trace := trace st |}.

(** [if rename_enabled: copied_renamed += 1 else: copied_original += 1] *)
Definition count_copied (rename_enabled : bool) (st : run_state) : run_state :=
  {| copied_original :=
       if rename_enabled then copied_original st else copied_original st + 1;
     copied_renamed :=
       if rename_enabled then copied_renamed st + 1 else copied_renamed st;
     converted_original := converted_original st;
     converted_renamed := converted_renamed st;
     not_found_rows := not_found_rows st;
     convert_all_mode := convert_all_mode st;
     fs := fs st; trace := trace st |}.

(** [if rename_enabled: converted_renamed += 1 else: converted_original += 1] *)
Definition count_converted (rename_enabled : bool) (st : run_state) : run_state :=
  {| copied_original := copied_original st;
     copied_renamed := copied_renamed st;
     converted_original :=
       if rename_enabled then converted_original st
       else converted_original st + 1;
     converted_renamed :=
       if rename_enabled then converted_renamed st + 1
       else converted_renamed st;
     not_found_rows := not_found_rows st;
     convert_all_mode := convert_all_mode st;
     fs := fs st; trace := trace st |}.

(** How the body of the row loop ends: it falls through or continues
    ([Next]), returns from [run] ([Return]), raises ([Raised]), or the
    allocator loop reaches its bound ([Hung]). *)
Inductive flow :=
  | Next (st : run_state)
  | Return (st : run_state)
  | Raised (e : exn) (st : run_state)
  | Hung (st : run_state).

(** [rename_enabled = bool(rename_col and rename_col.strip())] *)
Definition rename_enabled_of (rename_col : string) : bool :=
  Py.truthy rename_col && Py.truthy (Py.strip rename_col).

(** [pd.notna(new_value) and str(new_value).strip()] *)
Definition rename_supplied (new_value : cell) : bool :=
  negb (isna new_value) && Py.truthy (Py.strip (cell_str new_value)).

(** [not was_fallback], for the flag the resolver returns. *)
Definition py_not (b : option bool) : bool :=
  match b with Some true => false | _ => true end.

(** [out_dir.mkdir(parents=True, exist_ok=True)] *)
Definition mkdir (fs : FS) (p : Path) : result FS :=
  match fs !! p with
  | None => Ok (<[p := Dir 0]> fs)
  | Some (Dir _) => Ok fs
  | Some (File _) => Raise (FileExistsError p)
  end.

(** The outcome of the conversion dialog for one row. *)
Inductive decision :=
  | Proceed (st : run_state)
  | SkipRow (st : run_state)
  | CancelAll (st : run_state).

(** How a call of [run] ends. *)
Inductive outcome :=
  | Rejected (msg : string)
  | Cancelled (st : run_state)
  | Finished (st : run_state)
  | Failed (e : exn) (st : run_state)
  | Diverged (st : run_state).

Section Engine.

(** The collaborators of the engine: the image library, the answer the
    user gives in the conversion dialog of row [i] ([None] when the dialog
    is closed without a button), the directory walk [base.rglob] and the
    spreadsheet library. *)
Variable pil : Pillow.
Variable ask : nat → Path → Path → option Z.
Variable rglob : FS → Path → list Path.
Variable pd : Pandas.

Variable cfg : config.

Definition build_image_index (fs0 : FS) : string + Index :=
  let base_path := Py.strip (base_edit cfg) in
  if negb (Py.truthy base_path) then inl "Base image folder is required."
  else
    let base := path_of base_path in
    if negb (path_exists fs0 base)
    then inl "Base image folder does not exist."
    else inr (index_files fs0 (rglob fs0 base)).

Section Rows.

Variable image_index : Index.
Variable out_dir : Path.

Let rename_enabled : bool := rename_enabled_of (newname_col cfg).

(** "Determine output stem" *)
Definition output_stem_of (row : Row) (original_stem : string) : result string :=
  if rename_enabled then
    new_value ← row_get row (newname_col cfg);
    if rename_supplied new_value
    then Ok (sanitize_filename (Py.strip (cell_str new_value)))
    else Ok original_stem
  else Ok original_stem.

Definition conversion_dialog (i : nat) (src_path dest_path : Path)
    (st : run_state) : decision :=
  if bool_decide (fallback_mode cfg ∈ ["convert"; "copy"])
     && bool_decide (fallback_mode cfg = "convert")
     && negb (convert_all_mode st)
     && bool_decide (preview_toggle cfg = "Show preview before overwriting")
  then
    let st := log (ShowConversionDialog src_path dest_path rename_enabled) st in
    match ask i src_path dest_path with
    | Some (-1)%Z => CancelAll (log LogCancelled st)
    | Some 0%Z => SkipRow (log LogSkipped st)
    | Some 2%Z => Proceed (set_convert_all (log LogConvertAll st))
    | _ => Proceed st
    end
  else Proceed st.

Definition fallback_action (row : Row) (filename : string)
    (src_path dest_path : Path) (st : run_state) : flow :=
  if bool_decide (fallback_mode cfg = "convert") then
    let st := log (LogConvertFallback src_path dest_path) st in
    match convert_image pil (fs st) src_path dest_path with
    | (fs', None) => Next (count_converted rename_enabled (set_fs fs' st))
    | (fs', Some e) => Raised e (set_fs fs' st)
    end
  else if bool_decide (fallback_mode cfg = "copy") then
    let st := log (LogCopyFallback src_path dest_path) st in
    match copy2 (fs st) src_path dest_path with
    | Ok fs' => Next (count_copied rename_enabled (set_fs fs' st))
    | Raise e => Raised e st
    end
  else Next (mark_not_found row (log (LogNotFound filename) st)).

(** The body of the loop over the rows. *)
Definition run_row (i : nat) (row : Row) (st : run_state) : flow :=
  match row_get row (image_col cfg) with
  | Raise e => Raised e st
  | Ok raw_path =>
      if isna raw_path then Next (mark_not_found row (log LogEmptyPath st))
      else
        let filename := path_name (cell_str raw_path) in
        let original_stem := Py.lower (path_stem filename) in
        match output_stem_of row original_stem with
        | Raise e => Raised e st
        | Ok output_stem =>
            let st := log (CallResolver original_stem) st in
            match find_image_file (fs st) image_index (preferred_ext cfg)
                    original_stem with
            | Raise e => Raised e st
            | Ok (Some src_path, was_fallback) =>
                match resolve_output_path (fs st) out_dir output_stem
                        (preferred_ext cfg) with
                | None => Hung st
                | Some dest_path =>
                    if py_not was_fallback then
                      let st := log (LogCopyPreferred src_path dest_path) st in
                      match copy2 (fs st) src_path dest_path with
                      | Ok fs' =>
                          Next (count_copied rename_enabled (set_fs fs' st))
                      | Raise e => Raised e st
                      end
                    else
                      let st := log (LogFallbackFound src_path) st in
                      match conversion_dialog i src_path dest_path st with
                      | CancelAll st => Return st
                      | SkipRow st => Next st
                      | Proceed st =>
                          fallback_action row filename src_path dest_path st
                      end
                end
            | Ok (None, _) =>
                Next (mark_not_found row (log (LogNotFound filename) st))
            end
        end
  end.

(** [for i, (_, row) in enumerate(rows.iterrows(), start=1)] *)
Fixpoint run_rows (i : nat) (rows : list Row) (st : run_state) : flow :=
  match rows with
  | [] => Next st
  | row :: rest =>
      match run_row i row st with
      | Next st' => run_rows (S i) rest st'
      | other => other
      end
  end.

(** The code after the loop. *)
Definition finalize (total : nat) (st : run_state) : run_state :=
  match not_found_rows st with
  | [] => st
  | _ :: _ =>
      let missing_path := path_join out_dir "not_found_images.xlsx" in
      let st :=
        set_fs
          (<[missing_path := File (to_excel pd (not_found_rows st))]> (fs st))
          (log (WriteReport missing_path (not_found_rows st)) st) in
      let st :=
        log (LogSummary total (copied_original st) (copied_renamed st)
               (converted_original st) (converted_renamed st)
               (length (not_found_rows st))) st in
      log (ShowCompleted total (copied_original st) (copied_renamed st)
             (converted_original st) (converted_renamed st)
             (length (not_found_rows st))
             (bool_decide (not_found_rows st ≠ []))) st
  end.

End Rows.

(** [astype(str).str.strip() == selected_vendor] on one cell of the vendor
    column; a value that is missing after [astype(str)] stays missing under
    [str.strip] and equals nothing. *)
Definition vendor_equal (c : cell) : bool :=
  match astype_str pd c with
  | Some s => bool_decide (Py.strip s = vendor_value cfg)
  | None => false
  end.

(** The vendor filter:
    [rows[rows[vendor_col].astype(str).str.strip() == selected_vendor]] *)
Fixpoint vendor_select (rows : list Row) : result (list Row) :=
  match rows with
  | [] => Ok []
  | row :: rest =>
      c ← row_get row (vendor_col cfg);
      rest' ← vendor_select rest;
      Ok (if vendor_equal c then row :: rest' else rest')
  end.

Definition vendor_filter (rows : list Row) : result (list Row) :=
  if Py.truthy (vendor_col cfg)
     && bool_decide (vendor_value cfg ≠ "All Vendors")
  then vendor_select rows
  else Ok rows.

Definition run (df : option (list Row)) (fs0 : FS) : outcome :=
  match df with
  | None => Rejected "Please load an Excel file."
  | Some all_rows =>
      if negb (Py.truthy (image_col cfg))
      then Rejected "Image Path Column is required."
      else if negb (Py.truthy (Py.strip (out_edit cfg)))
      then Rejected "Please select an Output Folder."
      else
        match build_image_index fs0 with
        | inl msg => Rejected msg
        | inr image_index =>
            let out_dir := path_of (out_edit cfg) in
            match mkdir fs0 out_dir with
            | Raise e => Failed e (initial_state fs0)
            | Ok fs1 =>
                match vendor_filter all_rows with
                | Raise e => Failed e (initial_state fs1)
                | Ok rows =>
                    let total := length rows in
                    let st :=
                      log (LogRunStart total (preferred_ext cfg)
                             (rename_enabled_of (newname_col cfg))
                             (fallback_mode cfg))
                        (initial_state fs1) in
                    match run_rows image_index out_dir 1 rows st with
                    | Next st => Finished (finalize out_dir total st)
                    | Return st => Cancelled st
                    | Raised e st => Failed e st
                    | Hung st => Diverged st
                    end
                end
            end
        end
  end.

End Engine.

(** ** The update check and the end of the window constructor *)

Definition APP_VERSION : string := "1.0.0".

(** What [requests.get] followed by [raise_for_status] gives: the text of
    the response, or an exception (no network, time-out, HTTP error). *)
Inductive http_response :=
  | HttpOk (text : string)
  | HttpException.

Definition check_for_updates (r : http_response) : option string :=
  match r with
  | HttpOk text =>
      let latest_version := Py.strip text in
      if bool_decide (latest_version ≠ APP_VERSION)
      then Some latest_version else None
  | HttpException => None
  end.

Inductive button := Yes | No.

(** [if latest:] on what [check_for_updates] returns. *)
Definition latest_truthy (latest : option string) : bool :=
  match latest with Some v => Py.truthy v | None => false end.

(** The end of [ImageTool.__init__], from [latest = check_for_updates()] on.
    The local variable [reply] is bound only by the assignment under
    [if latest:]; [reply_local] is [None] while it is unbound.  The result
    tells whether the browser was opened; [answer] is the button the user
    presses in the question box. *)
Definition init_update_check (r : http_response) (answer : button)
    : result bool :=
  let latest := check_for_updates r in
  let reply_local : option button :=
    if latest_truthy latest then Some answer else None in
  match reply_local with
  | None => Raise (UnboundLocalError "reply")
  | Some reply => Ok (match reply with Yes => true | No => false end)
  end.

(** ** Vocabulary of the statements *)

(** The preferred output types the settings tab offers. *)
Definition preferred_types : list string := [".jpg"; ".png"; ".gif"].

(** The extension of [p] equals [preferred_ext] up to the case of letters. *)
Definition matches_preferred (preferred_ext : string) (p : Path) : Prop :=
  Py.lower (path_suffix p) = Py.lower preferred_ext.

(** The size [stat] reports for a path that exists. *)
Definition size_of (fs : FS) (p : Path) : nat :=
  match fs !! p with
  | Some (File c) => length c
  | Some (Dir n) => n
  | None => 0
  end.

(** What the builder guarantees of an index: no key has an empty list, and
    every listed path is a regular file. *)
Definition index_ok (fs : FS) (idx : Index) : Prop :=
  ∀ stem cands, idx !! stem = Some cands →
    cands ≠ [] ∧ Forall (λ q, is_file fs q = true) cands.

(** A component of a parsed path: not empty, not [.], without a slash. *)
Definition is_component (w : list ascii) : Prop :=
  w ≠ [] ∧ w ≠ ["."%char] ∧ "/"%char ∉ w.

(** The names the allocator tries: [name.ext] first, then [name_k.ext]
    for k = 1, 2, ... *)
Definition candidate_path (out_dir : Path) (name ext : string) (k : nat) : Path :=
  match k with
  | 0 => path_join out_dir (name +:+ ext)
  | S _ => path_join out_dir (name +:+ "_" +:+ pretty k +:+ ext)
  end.

(** The four counters of a run: copied original, copied renamed, converted
    original, converted renamed. *)
Definition counters (st : run_state) : nat * nat * nat * nat :=
  (copied_original st, copied_renamed st,
   converted_original st, converted_renamed st).


(** ** Sample data *)

(** An image library that reads and writes the bytes as they are. *)
Definition plain_pil : Pillow :=
  {| image := list Byte.byte;
     pil_open := λ bytes, Some bytes;
     pil_mode := λ _, "RGB";
     pil_convert := λ img _, Some img;
     pil_save_jpeg := λ img, Saved img;
     pil_save := λ img _, Saved img;
     pil_removes_failed := true |}.

(** A user who closes every conversion dialog without pressing a button. *)
Definition no_answer : nat → Path → Path → option Z := λ _ _ _, None.

(** A directory walk: the paths of the file system below [base]. *)
Definition walk : FS → Path → list Path :=
  λ fs base,
    filter (λ p, String.prefix (base +:+ "/") p = true) (elements (dom fs)).

(** A spreadsheet library of before pandas 3 whose writer writes an empty
    file. *)
Definition no_excel : Pandas :=
  {| to_excel := λ _, []; astype_str_na := Some "nan" |}.

Definition sample_cfg : config :=
  {| image_col := "Image"; newname_col := "NewName"; vendor_col := "";
     vendor_value := "All Vendors"; base_edit := "img"; out_edit := "out";
     preferred_ext := ".jpg"; fallback_mode := "convert";
     preview_toggle := "Do not show preview" |}.

Definition sample_cfg_none : config :=
  {| image_col := "Image"; newname_col := "NewName"; vendor_col := "";
     vendor_value := "All Vendors"; base_edit := "img"; out_edit := "out";
     preferred_ext := ".jpg"; fallback_mode := "none";
     preview_toggle := "Do not show preview" |}.

Definition sample_fs : FS :=
  {[ "img" := Dir 0;
     "img/sku123.png" := File [Byte.x01; Byte.x02];
     "img/widget.jpg" := File [Byte.x03];
     "img/   .jpg" := File [Byte.x04] ]}.

Definition sample_index : Index :=
  {[ "sku123" := ["img/sku123.png"];
     "widget" := ["img/widget.jpg"];
     "   " := ["img/   .jpg"] ]}.

(** A row with a path and an empty rename cell. *)
Definition row_widget : Row :=
  {[ "Image" := Val "C:/photos/widget.jpg"; "NewName" := NaN ]}.

(** A row with a path and a rename value. *)
Definition row_sku : Row :=
  {[ "Image" := Val "SKU123.tif"; "NewName" := Val " new:name " ]}.

(** A row with an empty path cell. *)
Definition row_missing : Row :=
  {[ "Image" := NaN; "NewName" := Val "x" ]}.


(** ** Further code of the file *)

(** *** [get_safe_dest_path] *)

(** [p.parent / name] for a [name] that is one component: the root and
    the components of [p] but the last, then [name]. *)
Definition sibling_path (p : Path) (name : string) : Path :=
  render_path (path_root p)
    (removelast (Py.str <$> path_parts p) ++ [name]).

(** The [while True] loop, with a bound on its iterations. *)
Fixpoint get_safe_dest_path_loop (fuel : nat) (fs : FS) (dest_path : Path)
    (i : nat) : option Path :=
  match fuel with
  | 0 => None
  | S fuel' =>
      let candidate :=
        sibling_path dest_path
          (path_stem dest_path +:+ "_" +:+ pretty i +:+ path_suffix dest_path) in
      if negb (path_exists fs candidate) then Some candidate
      else get_safe_dest_path_loop fuel' fs dest_path (S i)
  end.

(** As for the allocator, one iteration more than the file system has
    entries always suffices. *)
Definition get_safe_dest_path (fs : FS) (dest_path : Path) : option Path :=
  if negb (path_exists fs dest_path) then Some dest_path
  else get_safe_dest_path_loop (S (size fs)) fs dest_path 1.

(** The names [get_safe_dest_path] tries after [dest_path] itself. *)
Definition safe_candidate (dest_path : Path) (k : nat) : Path :=
  match k with
  | 0 => dest_path
  | S _ =>
      sibling_path dest_path
        (path_stem dest_path +:+ "_" +:+ pretty k +:+ path_suffix dest_path)
  end.

(** *** [update_fallback_mode] and the fallback box *)

(** [text.startswith(prefix)] *)
Definition startswith (text prefix : string) : bool := String.prefix prefix text.

(** The items of the fallback box, as [_build_ui] adds them. *)
Definition fallback_items : list string :=
  ["Do nothing (mark not found)";
   "Copy fallback as-is";
   "Convert fallback to preferred type"].

Definition update_fallback_mode (text : string) : string :=
  if startswith text "Do nothing" then "none"
  else if startswith text "Copy" then "copy"
  else "convert".

(** The index [load_settings] selects in the fallback box for a stored mode. *)
Definition fallback_box_index (fallback_mode : string) : nat :=
  if bool_decide (fallback_mode = "none") then 0
  else if bool_decide (fallback_mode = "copy") then 1
  else 2.

(** *** [update_vendor_list] *)

(** [Series.unique()]: the values in order of first appearance. *)
Fixpoint unique_from (seen : list string) (l : list string) : list string :=
  match l with
  | [] => []
  | x :: l' =>
      if bool_decide (x ∈ seen) then unique_from seen l'
      else x :: unique_from (x :: seen) l'
  end.

Definition unique (l : list string) : list string := unique_from [] l.

(** [sorted(vendors)]: strings in code point order. *)
Definition sorted_strings (l : list string) : list string :=
  merge_sort String.le l.

(** [df[col].dropna().astype(str).str.strip()] *)
Fixpoint column_values (rows : list Row) (col : string) : result (list string) :=
  match rows with
  | [] => Ok []
  | row :: rest =>
      c ← row_get row col;
      vs ← column_values rest col;
      Ok (if isna c then vs else Py.strip (cell_str c) :: vs)
  end.

(** The items of the vendor box after [update_vendor_list], and whether the
    box is enabled. *)
Definition update_vendor_list (df : option (list Row)) (vendor_col : string)
    : result (bool * list string) :=
  let enabled := Py.truthy vendor_col in
  match df with
  | None => Ok (enabled, ["All Vendors"])
  | Some rows =>
      if negb (Py.truthy vendor_col) then Ok (enabled, ["All Vendors"])
      else
        vendors ← column_values rows vendor_col;
        Ok (enabled, "All Vendors" :: sorted_strings (unique vendors))
  end.

(** *** [ConversionDialog] *)

Inductive dialog_button :=
  | ConvertButton
  | ConvertAllButton
  | SkipButton
  | CancelButton.

(** [ConversionDialog.exec]: the code of the button pressed, [None] when the
    dialog is closed without one. *)
Definition dialog_exec (pressed : option dialog_button) : option Z :=
  match pressed with
  | Some ConvertButton => Some 1%Z
  | Some ConvertAllButton => Some 2%Z
  | Some SkipButton => Some 0%Z
  | Some CancelButton => Some (-1)%Z
  | None => None
  end.

(** *** Vocabulary *)

(** The rows a run has accounted for: files copied or converted, and rows
    recorded as not found. *)
Definition accounted (st : run_state) : nat :=
  copied_original st + copied_renamed st
  + converted_original st + converted_renamed st
  + length (not_found_rows st).

(** Whether the conversion dialog can be shown in a run with this
    configuration. *)
Definition preview_on (cfg : config) : bool :=
  bool_decide (fallback_mode cfg = "convert")
  && bool_decide (preview_toggle cfg = "Show preview before overwriting").

(** The state a step of the loop ends in, however it ends. *)
Definition flow_state (f : flow) : run_state :=
  match f with
  | Next st | Return st | Raised _ st | Hung st => st
  end.

(** A step that leaves files, counters and not-found rows as they were. *)
Definition quiet (st st' : run_state) : Prop :=
  fs st' = fs st ∧ counters st' = counters st
  ∧ not_found_rows st' = not_found_rows st.

(** A step that leaves counters and not-found rows as they were and keeps
    every file and folder there was. *)
Definition calm (st st' : run_state) : Prop :=
  fs st ⊆ fs st' ∧ counters st' = counters st
  ∧ not_found_rows st' = not_found_rows st.

(** What a completed step of the loop has done with its row: recorded it as
    not found, skipped it on the user's request (where the dialog can be
    shown, [skippable]), copied a file or converted one.  A file is written
    at a path that did not exist; [re] tells which bucket counts it. *)
Inductive row_outcome (pil : Pillow) (re skippable : bool) (row : Row)
    (st st' : run_state) : Prop :=
  | RowNotFound :
      fs st' = fs st → counters st' = counters st →
      not_found_rows st' = not_found_rows st ++ [row] →
      row_outcome pil re skippable row st st'
  | RowSkipped :
      quiet st st' → skippable = true →
      row_outcome pil re skippable row st st'
  | RowCopied (src dst : Path) (content : list Byte.byte) :
      fs st !! src = Some (File content) → fs st !! dst = None →
      fs st' = <[dst := File content]> (fs st) →
      counters st' =
        (if re then copied_original st else copied_original st + 1,
         if re then copied_renamed st + 1 else copied_renamed st,
         converted_original st, converted_renamed st) →
      not_found_rows st' = not_found_rows st →
      row_outcome pil re skippable row st st'
  | RowConverted (src dst : Path) :
      fs st !! dst = None →
      convert_image pil (fs st) src dst = (fs st', None) →
      counters st' =
        (copied_original st, copied_renamed st,
         if re then converted_original st else converted_original st + 1,
         if re then converted_renamed st + 1 else converted_renamed st) →
      not_found_rows st' = not_found_rows st →
      row_outcome pil re skippable row st st'.

(** Two states that differ in their traces only. *)
Definition same_data (st0 st : run_state) : Prop :=
  fs st = fs st0 ∧ counters st = counters st0
  ∧ not_found_rows st = not_found_rows st0
  ∧ convert_all_mode st = convert_all_mode st0.

(** Whether the vendor filter keeps a row. *)
Definition vendor_matches (pd : Pandas) (cfg : config) (row : Row) : bool :=
  match row !! vendor_col cfg with
  | Some c => vendor_equal pd cfg c
  | None => false
  end.

(** *** More sample data *)

Definition sample_cfg_preview : config :=
  {| image_col := "Image"; newname_col := "NewName"; vendor_col := "";
     vendor_value := "All Vendors"; base_edit := "img"; out_edit := "out";
     preferred_ext := ".jpg"; fallback_mode := "convert";
     preview_toggle := "Show preview before overwriting" |}.

Definition sample_cfg_copy : config :=
  {| image_col := "Image"; newname_col := ""; vendor_col := "Vendor";
     vendor_value := "Acme"; base_edit := "img"; out_edit := "out";
     preferred_ext := ".jpg"; fallback_mode := "copy";
     preview_toggle := "Show preview before overwriting" |}.

(** Users who always press the same button. *)
Definition always_press (b : dialog_button) : nat → Path → Path → option Z :=
  λ _ _ _, dialog_exec (Some b).

(** An image library that cannot read anything. *)
Definition blind_pil : Pillow :=
  {| image := list Byte.byte;
     pil_open := λ _, None;
     pil_mode := λ _, "RGB";
     pil_convert := λ img _, Some img;
     pil_save_jpeg := λ img, Saved img;
     pil_save := λ img _, Saved img;
     pil_removes_failed := true |}.

(** An image library that reads every file as an image of mode LA, which
    it cannot write as JPEG, and that leaves the file it has opened for
    writing behind, empty. *)
Definition grey_pil : Pillow :=
  {| image := list Byte.byte;
     pil_open := λ bytes, Some bytes;
     pil_mode := λ _, "LA";
     pil_convert := λ img _, Some img;
     pil_save_jpeg := λ _, SaveFailed [];
     pil_save := λ img _, Saved img;
     pil_removes_failed := false |}.

(** The sample configuration with the folders as a user may type them. *)
Definition sample_cfg_typed : config :=
  {| image_col := "Image"; newname_col := "NewName"; vendor_col := "";
     vendor_value := "All Vendors"; base_edit := " ./img/ ";
     out_edit := "out//"; preferred_ext := ".jpg"; fallback_mode := "convert";
     preview_toggle := "Do not show preview" |}.

(** A spreadsheet library of pandas 3 whose writer writes one byte for
    each row. *)
Definition tally_excel : Pandas :=
  {| to_excel := λ rows, replicate (length rows) Byte.x2a;
     astype_str_na := None |}.

Definition row_vendor (image vendor : string) : Row :=
  {[ "Image" := Val image; "Vendor" := Val vendor ]}.

(** The state a run ends in, where it got as far as having one. *)
Definition outcome_state (o : outcome) : option run_state :=
  match o with
  | Rejected _ => None
  | Cancelled st | Finished st | Failed _ st | Diverged st => Some st
  end.

(** The three fallback policies. *)
Definition fallback_modes : list string := ["none"; "copy"; "convert"].

(** * Properties *)

(** ** Python strings *)

Lemma chars_str l : Py.chars (Py.str l) = l.
Proof. apply list_ascii_of_string_of_list_ascii. Qed.

Lemma str_chars s : Py.str (Py.chars s) = s.
Proof. apply string_of_list_ascii_of_string. Qed.

Lemma chars_app s t : Py.chars (s +:+ t) = Py.chars s ++ Py.chars t.
Proof. induction s as [|a s IH]; simpl; [done | by rewrite IH]. Qed.

Lemma chars_inj s t : Py.chars s = Py.chars t → s = t.
Proof. intros H. by rewrite <- (str_chars s), <- (str_chars t), H. Qed.

Lemma string_app_inv_tail s t e : s +:+ e = t +:+ e → s = t.
Proof.
  intros H. apply chars_inj.
  apply (f_equal Py.chars) in H. rewrite !chars_app in H.
  by apply app_inv_tail in H.
Qed.

Lemma lstrip_split l :
  ∃ ws, l = ws ++ Py.lstrip_chars l ∧ Forall (λ c, Py.is_space c = true) ws.
Proof.
  induction l as [|c l (ws & Hl & Hws)]; simpl.
  - by exists [].
  - destruct (Py.is_space c) eqn:Hc.
    + exists (c :: ws). split; [by rewrite Hl at 1 | by constructor].
    + by exists [].
Qed.

Lemma lstrip_head l c :
  head (Py.lstrip_chars l) = Some c → Py.is_space c = false.
Proof.
  induction l as [|a l IH]; simpl; [done|].
  destruct (Py.is_space a) eqn:Ha; [done|]. simpl. by intros [= <-].
Qed.

Lemma lstrip_fixed l :
  (∀ c, head l = Some c → Py.is_space c = false) → Py.lstrip_chars l = l.
Proof.
  destruct l as [|a l]; simpl; [done|]. intros H. by rewrite (H a).
Qed.

Lemma lstrip_idem l : Py.lstrip_chars (Py.lstrip_chars l) = Py.lstrip_chars l.
Proof. apply lstrip_fixed, lstrip_head. Qed.

Lemma lstrip_all_space l :
  Forall (λ c, Py.is_space c = true) l → Py.lstrip_chars l = [].
Proof. induction 1 as [|c l Hc _ IH]; simpl; [done | by rewrite Hc]. Qed.

Lemma rstrip_split l :
  ∃ ws, l = Py.rstrip_chars l ++ ws ∧ Forall (λ c, Py.is_space c = true) ws.
Proof.
  destruct (lstrip_split (reverse l)) as (ws & Hl & Hws).
  exists (reverse ws). split.
  - unfold Py.rstrip_chars. rewrite <- reverse_app, <- Hl.
    by rewrite reverse_involutive.
  - by apply Forall_reverse.
Qed.

Lemma rstrip_last l c :
  last (Py.rstrip_chars l) = Some c → Py.is_space c = false.
Proof.
  unfold Py.rstrip_chars. rewrite last_reverse. apply lstrip_head.
Qed.

Lemma rstrip_idem l : Py.rstrip_chars (Py.rstrip_chars l) = Py.rstrip_chars l.
Proof.
  unfold Py.rstrip_chars. by rewrite reverse_involutive, lstrip_idem.
Qed.

(** Trimming on the right keeps a trimmed left end. *)
Lemma rstrip_head l c :
  (∀ a, head l = Some a → Py.is_space a = false) →
  head (Py.rstrip_chars l) = Some c → Py.is_space c = false.
Proof.
  intros Hl. destruct (rstrip_split l) as (ws & Hsplit & _).
  destruct (Py.rstrip_chars l) as [|a r] eqn:Hr; simpl; [done|].
  intros [= <-]. apply Hl. by rewrite Hsplit.
Qed.

Lemma strip_head l c :
  head (Py.strip_chars l) = Some c → Py.is_space c = false.
Proof. apply rstrip_head. intros a. apply lstrip_head. Qed.

Lemma strip_last l c :
  last (Py.strip_chars l) = Some c → Py.is_space c = false.
Proof. apply rstrip_last. Qed.

Lemma strip_chars_idem l :
  Py.strip_chars (Py.strip_chars l) = Py.strip_chars l.
Proof.
  unfold Py.strip_chars at 1.
  rewrite (lstrip_fixed (Py.strip_chars l)) by (intros c; apply strip_head).
  apply rstrip_idem.
Qed.

Lemma strip_split l :
  ∃ ws1 ws2, l = ws1 ++ Py.strip_chars l ++ ws2
    ∧ Forall (λ c, Py.is_space c = true) ws1
    ∧ Forall (λ c, Py.is_space c = true) ws2.
Proof.
  destruct (lstrip_split l) as (ws1 & H1 & Hws1).
  destruct (rstrip_split (Py.lstrip_chars l)) as (ws2 & H2 & Hws2).
  exists ws1, ws2. split; [|done].
  unfold Py.strip_chars. by rewrite <- H2.
Qed.

Lemma strip_all_space l :
  Forall (λ c, Py.is_space c = true) l → Py.strip_chars l = [].
Proof.
  intros H. unfold Py.strip_chars. by rewrite (lstrip_all_space l H).
Qed.

(** ** Filename Sanitizer *)

Lemma re_sub_class_chars cls s :
  Py.chars (Py.re_sub_class cls s) = filter (λ c, cls c = false) (Py.chars s).
Proof. apply chars_str. Qed.

Lemma strip_chars_eq s : Py.chars (Py.strip s) = Py.strip_chars (Py.chars s).
Proof. apply chars_str. Qed.

Lemma is_illegal_false c : is_illegal c = false ↔ c ∉ illegal_chars.
Proof. unfold is_illegal. by rewrite bool_decide_eq_false. Qed.

Lemma sanitize_chars s :
  Py.chars (sanitize_filename s)
  = Py.strip_chars (filter (λ c, is_illegal c = false) (Py.chars s)).
Proof.
  unfold sanitize_filename. by rewrite strip_chars_eq, re_sub_class_chars.
Qed.

Lemma sanitize_legal s :
  Forall (λ c, c ∉ illegal_chars) (Py.chars (sanitize_filename s)).
Proof.
  rewrite sanitize_chars.
  set (kept := filter _ (Py.chars s)).
  destruct (strip_split kept) as (ws1 & ws2 & Hsplit & _).
  assert (Hkept : Forall (λ c, c ∉ illegal_chars) kept).
  { apply Forall_forall. intros c [Hc _]%list_elem_of_filter.
    by apply is_illegal_false. }
  rewrite Hsplit in Hkept.
  by apply Forall_app in Hkept as [_ [? _]%Forall_app].
Qed.

Lemma filter_legal_id (l : list ascii) :
  Forall (λ c, c ∉ illegal_chars) l → filter (λ c, is_illegal c = false) l = l.
Proof.
  induction 1 as [|c l Hc _ IH]; [done|].
  rewrite filter_cons_True by by apply is_illegal_false.
  by rewrite IH.
Qed.

Lemma sanitize_filename_idem s :
  sanitize_filename (sanitize_filename s) = sanitize_filename s.
Proof.
  apply chars_inj.
  rewrite (sanitize_chars (sanitize_filename s)).
  rewrite filter_legal_id by apply sanitize_legal.
  rewrite sanitize_chars. apply strip_chars_idem.
Qed.

(** C8. The sanitizer, a function from strings to strings, (1) leaves none of
    the nine illegal characters in its result, (2) returns a result that
    neither starts nor ends with a whitespace character, (3) deletes nothing
    else: what remains of the input once the illegal characters are deleted
    is the result between two runs of whitespace, (4) is idempotent, and
    (5) maps every input made of whitespace only, the empty string among
    them, to the empty string. *)
Theorem sanitize_filename_spec (s : string) :
  let r := Py.chars (sanitize_filename s) in
  Forall (λ c, c ∉ illegal_chars) r
  ∧ (∀ c, head r = Some c ∨ last r = Some c → Py.is_space c = false)
  ∧ (∃ ws1 ws2,
        filter (λ c, c ∉ illegal_chars) (Py.chars s) = ws1 ++ r ++ ws2
        ∧ Forall (λ c, Py.is_space c = true) ws1
        ∧ Forall (λ c, Py.is_space c = true) ws2)
  ∧ sanitize_filename (sanitize_filename s) = sanitize_filename s
  ∧ (Forall (λ c, Py.is_space c = true) (Py.chars s) →
     sanitize_filename s = "").
Proof.
  cbv zeta. split_and!.
  - apply sanitize_legal.
  - intros c. rewrite sanitize_chars. intros [H|H].
    + by apply strip_head in H.
    + by apply strip_last in H.
  - rewrite sanitize_chars.
    replace (filter (λ c, c ∉ illegal_chars) (Py.chars s))
      with (filter (λ c, is_illegal c = false) (Py.chars s)).
    + apply strip_split.
    + apply list_filter_iff. intros c. apply is_illegal_false.
  - apply sanitize_filename_idem.
  - intros Hs. apply chars_inj. rewrite sanitize_chars. simpl.
    apply strip_all_space. 
    apply Forall_forall. intros c Hc%list_elem_of_filter.
    rewrite Forall_forall in Hs. apply Hs, Hc.
Qed.

Lemma sanitize_filename_spec_witness :
  Py.chars (sanitize_filename " a:b ") = Py.chars "ab"
  ∧ sanitize_filename "   " = "".
Proof.
  split; [reflexivity|].
  apply (sanitize_filename_spec "   ").
  vm_compute. repeat constructor.
Defined.

(** ** The stable sort in descending order *)

Section StableSort.

Context {A : Type}.
Implicit Types (x y : nat * A) (l s : list (nat * A)).

Lemma insert_by_key_Forall (P : nat * A → Prop) x s :
  Forall P (insert_by_key x s) ↔ P x ∧ Forall P s.
Proof.
  induction s as [|y s IH]; simpl.
  - rewrite Forall_singleton. rewrite Forall_nil. tauto.
  - destruct (x.1 <=? y.1).
    + by rewrite Forall_cons.
    + rewrite !Forall_cons, IH. tauto.
Qed.

Lemma stable_sort_Forall (P : nat * A → Prop) l :
  Forall P (stable_sort l) ↔ Forall P l.
Proof.
  induction l as [|x l IH]; simpl; [done|].
  by rewrite insert_by_key_Forall, Forall_cons, IH.
Qed.

Lemma insert_by_key_not_nil x s : insert_by_key x s ≠ [].
Proof. destruct s as [|y s]; simpl; [done|]. by destruct (x.1 <=? y.1). Qed.

(** Where the last item of the sorted list is the greatest, an insertion
    replaces it only by a strictly greater item. *)
Lemma insert_by_key_last x s z :
  last s = Some z →
  Forall (λ y, y.1 ≤ z.1) s →
  last (insert_by_key x s) = Some (if x.1 <=? z.1 then z else x).
Proof.
  induction s as [|y s IH]; [done|].
  intros Hlast [Hy Hs]%Forall_cons.
  destruct s as [|y' s].
  - injection Hlast as <-. simpl. by destruct (x.1 <=? y.1).
  - rewrite last_cons_cons in Hlast. specialize (IH Hlast Hs).
    change (insert_by_key x (y :: y' :: s))
      with (if x.1 <=? y.1 then x :: y :: y' :: s
            else y :: insert_by_key x (y' :: s)).
    destruct (x.1 <=? y.1) eqn:Hxy.
    + apply Nat.leb_le in Hxy.
      assert ((x.1 <=? z.1) = true) as -> by (apply Nat.leb_le; lia).
      by rewrite !last_cons_cons.
    + destruct (insert_by_key x (y' :: s)) as [|w ws] eqn:Hins.
      * by apply insert_by_key_not_nil in Hins.
      * by rewrite last_cons_cons.
Qed.

(** The last item of the ascending stable sort: a greatest item, the last
    one among the greatest. *)
Lemma stable_sort_last l :
  l ≠ [] →
  ∃ a x b, l = a ++ x :: b
    ∧ Forall (λ y, y.1 ≤ x.1) a
    ∧ Forall (λ y, y.1 < x.1) b
    ∧ last (stable_sort l) = Some x.
Proof.
  induction l as [|y l IH]; [done|]. intros _.
  destruct l as [|y' l].
  { exists [], y, []. by repeat split. }
  destruct IH as (a & x & b & Hl & Ha & Hb & Hlast); [done|].
  assert (Hall : Forall (λ w, w.1 ≤ x.1) (y' :: l)).
  { rewrite Hl. apply Forall_app. split; [done|].
    apply Forall_cons. split; [lia|].
    eapply Forall_impl; [exact Hb|]. simpl. lia. }
  change (stable_sort (y :: y' :: l))
    with (insert_by_key y (stable_sort (y' :: l))).
  rewrite (insert_by_key_last y _ x Hlast)
    by by apply stable_sort_Forall.
  destruct (y.1 <=? x.1) eqn:Hyx.
  - apply Nat.leb_le in Hyx.
    exists (y :: a), x, b. rewrite Hl. repeat split; [|done].
    by apply Forall_cons.
  - apply Nat.leb_gt in Hyx.
    exists [], y, (y' :: l). repeat split; [done|].
    eapply Forall_impl; [exact Hall|]. simpl. lia.
Qed.

(** The first item of the descending sort: a greatest item, the first one
    among the greatest. *)
Lemma sorted_reverse_head l :
  l ≠ [] →
  ∃ before x after, l = before ++ x :: after
    ∧ Forall (λ y, y.1 < x.1) before
    ∧ Forall (λ y, y.1 ≤ x.1) after
    ∧ head (sorted_reverse l) = Some x.
Proof.
  intros Hl.
  destruct (stable_sort_last (reverse l)) as (a & x & b & Hr & Ha & Hb & Hlast).
  { intros H. apply Hl. by rewrite <- (reverse_involutive l), H. }
  exists (reverse b), x, (reverse a). split_and!.
  - rewrite <- (reverse_involutive l), Hr.
    by rewrite reverse_app, reverse_cons, <- app_assoc.
  - by apply Forall_reverse.
  - by apply Forall_reverse.
  - unfold sorted_reverse. by rewrite head_reverse.
Qed.

End StableSort.

(** ** Resolver *)

Lemma lower_char_idem c : Py.lower_char (Py.lower_char c) = Py.lower_char c.
Proof. by destruct c as [[] [] [] [] [] [] [] []]; vm_compute. Qed.

Lemma lower_idem s : Py.lower (Py.lower s) = Py.lower s.
Proof.
  unfold Py.lower. rewrite chars_str, <- list_fmap_compose. f_equal.
  apply list_fmap_ext. intros _ c _. apply lower_char_idem.
Qed.

Lemma preferred_types_lower pref : pref ∈ preferred_types → Py.lower pref = pref.
Proof.
  unfold preferred_types. rewrite !elem_of_cons, elem_of_nil.
  intros [->|[->|[->|[]]]]; reflexivity.
Qed.

Lemma is_preferred_true pref p :
  Py.lower pref = pref → is_preferred pref p = true ↔ matches_preferred pref p.
Proof.
  intros Hpref. unfold is_preferred, matches_preferred.
  by rewrite bool_decide_eq_true, Hpref.
Qed.

(** A match of the code's comparison is a match up to case, whatever the
    preferred extension. *)
Lemma is_preferred_matches pref p :
  is_preferred pref p = true → matches_preferred pref p.
Proof.
  unfold is_preferred, matches_preferred. rewrite bool_decide_eq_true.
  intros H. by rewrite <- H, lower_idem.
Qed.

Lemma find_first {A} (f : A → bool) l p :
  List.find f l = Some p →
  ∃ before after, l = before ++ p :: after
    ∧ Forall (λ q, f q = false) before ∧ f p = true.
Proof.
  induction l as [|a l IH]; simpl; [done|].
  destruct (f a) eqn:Ha.
  - intros [= <-]. by exists [], l.
  - intros (before & after & -> & Hb & Hp)%IH.
    exists (a :: before), after. repeat split; [|done]. by constructor.
Qed.

Lemma find_exists {A} (f : A → bool) l :
  Exists (λ q, f q = true) l → is_Some (List.find f l).
Proof.
  induction 1 as [a l Ha|a l _ IH]; simpl.
  - by rewrite Ha.
  - by destruct (f a).
Qed.

Lemma find_none_Forall {A} (f : A → bool) l :
  Forall (λ q, f q = false) l → List.find f l = None.
Proof. induction 1 as [|a l Ha _ IH]; simpl; [done | by rewrite Ha]. Qed.

Lemma st_size_exists fs q : is_Some (fs !! q) → st_size fs q = Ok (size_of fs q).
Proof.
  unfold st_size, size_of. intros [n Hn]. rewrite Hn. by destruct n.
Qed.

Lemma mapR_sizes fs cands :
  Forall (λ q, is_Some (fs !! q)) cands →
  mapR (λ x, n ← st_size fs x; Ok (n, x)) cands
  = Ok ((λ q, (size_of fs q, q)) <$> cands).
Proof.
  induction 1 as [|q l Hq _ IH]; simpl; [done|].
  by rewrite (st_size_exists fs q Hq), IH.
Qed.

(** The fallback branch, for a list of candidates that are all present. *)
Lemma fallback_selection fs (cands : list Path) :
  cands ≠ [] →
  Forall (λ q, is_Some (fs !! q)) cands →
  ∃ before p after, cands = before ++ p :: after
    ∧ Forall (λ q, size_of fs q < size_of fs p) before
    ∧ Forall (λ q, size_of fs q ≤ size_of fs p) after
    ∧ (keyed ← mapR (λ x, n ← st_size fs x; Ok (n, x)) cands;
       match sorted_reverse keyed with
       | (_, p) :: _ => Ok (Some p, Some true)
       | [] => Ok (None, None)
       end) = Ok (Some p, Some true).
Proof.
  intros Hne Hex. rewrite (mapR_sizes fs cands Hex).
  set (f := λ q : Path, (size_of fs q, q)).
  destruct (sorted_reverse_head (f <$> cands))
    as (kb & x & ka & Hsplit & Hkb & Hka & Hhead).
  { by destruct cands. }
  apply fmap_app_inv in Hsplit as (before & rest & -> & Hrest & ->).
  symmetry in Hrest.
  apply fmap_cons_inv in Hrest as (p & after & -> & -> & ->).
  exists before, p, after. split_and!; [done|..].
  - apply Forall_fmap in Hkb. exact Hkb.
  - apply Forall_fmap in Hka. exact Hka.
  - simpl. destruct (sorted_reverse _) as [|[n q] rest]; [done|].
    simpl in Hhead. by injection Hhead as -> ->.
Qed.

(** C5. Given a preferred extension in lower case (as the three the settings
    offer are): if the index has no entry for the lower-cased stem, the
    resolver returns [(None, None)]; if the entry's candidate list has a file
    whose extension equals the preferred one up to case, the resolver
    returns the first such candidate of the list, with the fallback flag
    [False]. *)
Theorem find_image_file_preferred (fs : FS) (idx : Index) (pref stem : string)
    (Hpref : Py.lower pref = pref) :
  (idx !! Py.lower stem = None →
   find_image_file fs idx pref stem = Ok (None, None))
  ∧ (∀ cands, idx !! Py.lower stem = Some cands →
       Exists (matches_preferred pref) cands →
       ∃ before p after, cands = before ++ p :: after
         ∧ Forall (λ q, ¬ matches_preferred pref q) before
         ∧ matches_preferred pref p
         ∧ find_image_file fs idx pref stem = Ok (Some p, Some false)).
Proof.
  unfold find_image_file. split.
  - by intros ->.
  - intros cands -> Hex.
    assert (Hex' : Exists (λ q, is_preferred pref q = true) cands).
    { eapply Exists_impl; [exact Hex|]. intros q. by apply is_preferred_true. }
    destruct (find_exists _ _ Hex') as [p Hp]. rewrite Hp.
    apply find_first in Hp as (before & after & -> & Hb & Hp).
    exists before, p, after. split_and!; [done| |by apply is_preferred_true|done].
    eapply Forall_impl; [exact Hb|]. intros q Hq Hm.
    apply (is_preferred_true pref q Hpref) in Hm. congruence.
Qed.

Lemma find_image_file_preferred_witness :
  find_image_file ∅ {[ "sku" := ["img/sku.png"; "img/SKU.JPG"; "img/sku.jpg"] ]}
    ".jpg" "SKU" = Ok (Some "img/SKU.JPG", Some false)
  ∧ find_image_file ∅ ∅ ".jpg" "SKU" = Ok (None, None).
Proof.
  split; [reflexivity|].
  apply (find_image_file_preferred ∅ ∅ ".jpg" "SKU"); reflexivity.
Defined.

(** C6. For a stem whose entry is a non-empty list of present files none of
    which has the preferred extension (up to case), the resolver returns,
    with the fallback flag [True], a candidate [p] of greatest size: every
    candidate listed before [p] is strictly smaller and none listed after is
    larger, so [p] is the first-listed among those of greatest size. *)
Theorem find_image_file_fallback (fs : FS) (idx : Index) (pref stem : string)
    (cands : list Path)
    (Hentry : idx !! Py.lower stem = Some cands)
    (Hne : cands ≠ [])
    (Hpresent : Forall (λ q, is_Some (fs !! q)) cands)
    (Hnone : Forall (λ q, ¬ matches_preferred pref q) cands) :
  ∃ before p after, cands = before ++ p :: after
    ∧ Forall (λ q, size_of fs q < size_of fs p) before
    ∧ Forall (λ q, size_of fs q ≤ size_of fs p) after
    ∧ find_image_file fs idx pref stem = Ok (Some p, Some true).
Proof.
  unfold find_image_file. rewrite Hentry.
  rewrite find_none_Forall.
  - by apply fallback_selection.
  - eapply Forall_impl; [exact Hnone|]. intros q Hq.
    destruct (is_preferred pref q) eqn:Hp; [|done].
    by apply is_preferred_matches in Hp.
Qed.

Lemma find_image_file_fallback_witness :
  let fs : FS := {[ "img/a.png" := File [Byte.x00; Byte.x01];
                    "img/a.gif" := File [Byte.x00; Byte.x01; Byte.x02];
                    "img/a.bmp" := File [Byte.x07; Byte.x08; Byte.x09] ]} in
  let cands := ["img/a.png"; "img/a.gif"; "img/a.bmp"] in
  ∃ before p after, cands = before ++ p :: after
    ∧ Forall (λ q, size_of fs q < size_of fs p) before
    ∧ Forall (λ q, size_of fs q ≤ size_of fs p) after
    ∧ find_image_file fs {[ "a" := cands ]} ".jpg" "A" = Ok (Some p, Some true).
Proof.
  intros fs cands.
  apply (find_image_file_fallback fs {[ "a" := cands ]} ".jpg" "A" cands).
  - reflexivity.
  - discriminate.
  - repeat constructor; by eexists.
  - repeat constructor; vm_compute; discriminate.
Defined.

(** ** Path Index Builder *)

Lemma is_file_present fs q : is_file fs q = true → is_Some (fs !! q).
Proof. unfold is_file. destruct (fs !! q); [by eexists | done]. Qed.

Lemma index_add_ok fs idx file : index_ok fs idx → index_ok fs (index_add fs idx file).
Proof.
  intros Hok. unfold index_add.
  destruct (is_file fs file) eqn:Hfile; [|done].
  intros stem cands. rewrite lookup_insert.
  case_decide as Hstem; [|by apply Hok].
  intros [= <-]. split.
  - by destruct (default [] _).
  - apply Forall_app. split; [|by repeat constructor].
    destruct (idx !! _) as [old|] eqn:Hold; simpl; [|done].
    by apply (Hok _ _ Hold).
Qed.

Lemma index_add_keys_lower fs idx file :
  (∀ stem, is_Some (idx !! stem) → Py.lower stem = stem) →
  ∀ stem, is_Some (index_add fs idx file !! stem) → Py.lower stem = stem.
Proof.
  intros Hkeys stem. unfold index_add.
  destruct (is_file fs file); [|by apply Hkeys].
  rewrite lookup_insert. case_decide as Hstem; [|by apply Hkeys].
  intros _. subst stem. apply lower_idem.
Qed.

Lemma index_files_invariant fs listing :
  index_ok fs (index_files fs listing)
  ∧ ∀ stem, is_Some (index_files fs listing !! stem) → Py.lower stem = stem.
Proof.
  unfold index_files.
  assert (Hgen : ∀ idx,
    index_ok fs idx → (∀ stem, is_Some (idx !! stem) → Py.lower stem = stem) →
    index_ok fs (foldl (index_add fs) idx listing)
    ∧ ∀ stem, is_Some (foldl (index_add fs) idx listing !! stem) →
        Py.lower stem = stem).
  { induction listing as [|file listing IH]; intros idx Hok Hkeys; simpl.
    - done.
    - apply IH; [by apply index_add_ok | by apply index_add_keys_lower]. }
  apply Hgen.
  - intros stem cands. by rewrite lookup_empty.
  - intros stem. rewrite lookup_empty. by intros [? ?].
Qed.

(** The resolver on an entry of a well-formed index. *)
Lemma find_image_file_present fs idx pref s cands :
  index_ok fs idx → idx !! Py.lower s = Some cands →
  ∃ p b, p ∈ cands ∧ find_image_file fs idx pref s = Ok (Some p, Some b).
Proof.
  intros Hok Hentry. destruct (Hok _ _ Hentry) as [Hne Hfiles].
  unfold find_image_file. rewrite Hentry.
  destruct (List.find _ cands) as [p|] eqn:Hfind.
  - exists p, false. split; [|done].
    apply find_first in Hfind as (before & after & -> & _).
    apply elem_of_app. right. by left.
  - destruct (fallback_selection fs cands Hne)
      as (before & p & after & Hsplit & _ & _ & ->).
    { eapply Forall_impl; [exact Hfiles|]. intros q. apply is_file_present. }
    exists p, true. split; [|done].
    rewrite Hsplit. apply elem_of_app. right. by left.
Qed.

(** C10. In an index the builder produces, every key is a lower-cased stem
    and maps to a non-empty list of regular files; and for such a key the
    resolver, whatever the preferred extension, returns one of the listed
    paths together with a Boolean fallback flag, never [(None, None)]. *)
Theorem index_files_resolves (fs : FS) (listing : list Path) (stem : string)
    (cands : list Path)
    (Hentry : index_files fs listing !! stem = Some cands) :
  cands ≠ []
  ∧ Forall (λ q, is_file fs q = true) cands
  ∧ Py.lower stem = stem
  ∧ ∀ pref s, Py.lower s = stem →
      ∃ p b, p ∈ cands
        ∧ find_image_file fs (index_files fs listing) pref s
          = Ok (Some p, Some b).
Proof.
  destruct (index_files_invariant fs listing) as [Hok Hkeys].
  destruct (Hok _ _ Hentry) as [Hne Hfiles].
  split_and!; [done..| |].
  - apply Hkeys. by rewrite Hentry.
  - intros pref s Hs. apply find_image_file_present; [done|]. by rewrite Hs.
Qed.

Lemma index_files_resolves_witness :
  let fs : FS := {[ "img/Sku123.PNG" := File [Byte.x00]; "img/sub" := Dir 0;
                    "img/sub/sku123.gif" := File [Byte.x00; Byte.x01] ]} in
  let listing := ["img/Sku123.PNG"; "img/sub"; "img/sub/sku123.gif"] in
  index_files fs listing !! "sku123"
    = Some ["img/Sku123.PNG"; "img/sub/sku123.gif"]
  ∧ ∃ p b, find_image_file fs (index_files fs listing) ".jpg" "SKU123"
           = Ok (Some p, Some b).
Proof.
  intros fs listing.
  assert (Hentry : index_files fs listing !! "sku123"
                   = Some ["img/Sku123.PNG"; "img/sub/sku123.gif"])
    by reflexivity.
  split; [exact Hentry|].
  destruct (index_files_resolves fs listing _ _ Hentry) as (_ & _ & _ & Hres).
  destruct (Hres ".jpg" "SKU123") as (p & b & _ & Hp); [reflexivity|].
  by exists p, b.
Defined.

(** ** Paths *)

Lemma split_chars_cons sep l : ∃ w ws, Py.split_chars sep l = w :: ws.
Proof.
  induction l as [|c l (w & ws & IH)]; simpl; [by eexists _, _|].
  destruct (decide (c = sep)); [by eexists _, _|].
  rewrite IH. by eexists _, _.
Qed.

(** Characters that are not the separator stay in front of the first
    piece. *)
Lemma split_chars_app sep A E w ws :
  sep ∉ A → Py.split_chars sep E = w :: ws →
  Py.split_chars sep (A ++ E) = (A ++ w) :: ws.
Proof.
  intros HA HE. induction A as [|c A IH]; simpl; [done|].
  apply not_elem_of_cons in HA as [Hc HA].
  rewrite decide_False by done. by rewrite IH.
Qed.

Lemma split_chars_no_sep sep l : Forall (λ w, sep ∉ w) (Py.split_chars sep l).
Proof.
  induction l as [|c l IH]; simpl.
  - repeat constructor. apply not_elem_of_nil.
  - destruct (decide (c = sep)) as [->|Hc].
    + constructor; [apply not_elem_of_nil | done].
    + destruct (Py.split_chars sep l) as [|w ws].
      * repeat constructor. rewrite list_elem_of_singleton. congruence.
      * apply Forall_cons in IH as [Hw Hws]. constructor; [|done].
        rewrite not_elem_of_cons. split; [congruence | done].
Qed.

Lemma path_parts_components p : Forall is_component (path_parts p).
Proof.
  unfold path_parts. apply Forall_forall. intros w Hw.
  apply list_elem_of_filter in Hw as [[Hnil Hdot] Hin].
  pose proof (split_chars_no_sep "/" (Py.chars p)) as Hsep.
  rewrite Forall_forall in Hsep. split_and!; [done..|]. by apply Hsep.
Qed.

Lemma filter_components ws :
  Forall is_component ws →
  filter (λ w, w ≠ [] ∧ w ≠ ["."%char]) ws = ws.
Proof.
  induction 1 as [|w ws (Hnil & Hdot & _) _ IH]; [done|].
  rewrite filter_cons_True by done. by rewrite IH.
Qed.

Lemma split_chars_join_parts w ws :
  Forall is_component (w :: ws) →
  Py.split_chars "/" (Py.chars (join_parts (Py.str <$> w :: ws))) = w :: ws.
Proof.
  revert w. induction ws as [|w' ws IH]; intros w Hall.
  - apply Forall_cons in Hall as [(_ & _ & Hsep) _]. simpl.
    rewrite chars_str, <- (app_nil_r w) at 1.
    rewrite (split_chars_app "/" w [] [] []); [by rewrite app_nil_r|done..].
  - apply Forall_cons in Hall as [(_ & _ & Hsep) Hall].
    change (join_parts (Py.str <$> w :: w' :: ws))
      with (Py.str w +:+ "/" +:+ join_parts (Py.str <$> w' :: ws)).
    rewrite !chars_app, chars_str.
    rewrite (split_chars_app "/" w _ [] (w' :: ws)); [by rewrite app_nil_r|done|].
    change (Py.chars "/" ++ ?l) with ("/"%char :: l).
    cbn [Py.split_chars]. rewrite decide_True by done. by rewrite IH.
Qed.

Lemma path_root_cases p :
  path_root p = "" ∨ path_root p = "/" ∨ path_root p = "//".
Proof. unfold path_root. repeat case_match; tauto. Qed.

(** A text that does not begin with a slash has no root. *)
Lemma path_root_relative s :
  head (Py.chars s) ≠ Some "/"%char → path_root s = "".
Proof.
  unfold path_root. destruct (Py.chars s) as [|c l]; [done|]. simpl.
  intros Hc. rewrite decide_False; [done|]. congruence.
Qed.

Lemma path_root_absolute s :
  Py.truthy (path_root s) = true → head (Py.chars s) = Some "/"%char.
Proof.
  unfold path_root. destruct (Py.chars s) as [|c l]; [done|]. simpl.
  destruct (decide (c = "/"%char)) as [->|]; done.
Qed.

(** Parsing a rendered path gives back its components. *)
Lemma path_parts_render root ws :
  root = "" ∨ root = "/" ∨ root = "//" →
  Forall is_component ws →
  path_parts (render_path root (Py.str <$> ws)) = ws.
Proof.
  intros Hroot Hws. destruct ws as [|w ws].
  { by destruct Hroot as [-> | [-> | ->]]. }
  unfold path_parts, render_path. rewrite fmap_cons.
  change (match Py.str w :: (Py.str <$> ws) with
          | [] => if Py.truthy root then root else "."
          | _ :: _ => root +:+ join_parts (Py.str w :: (Py.str <$> ws))
          end) with (root +:+ join_parts (Py.str w :: (Py.str <$> ws))).
  rewrite chars_app.
  pose proof (split_chars_join_parts w ws Hws) as Hsplit.
  rewrite fmap_cons in Hsplit.
  set (J := Py.chars (join_parts (Py.str w :: (Py.str <$> ws)))) in *.
  clearbody J.
  destruct Hroot as [-> | [-> | ->]];
    [change (Py.chars "" ++ J) with J
    |change (Py.chars "/" ++ J) with ("/"%char :: J)
    |change (Py.chars "//" ++ J) with ("/"%char :: "/"%char :: J)];
    cbn [Py.split_chars]; rewrite ?decide_True by done; rewrite Hsplit.
  - by apply filter_components.
  - rewrite filter_cons_False by (by intros [? _]).
    by apply filter_components.
  - rewrite !filter_cons_False by (by intros [? _]).
    by apply filter_components.
Qed.

Lemma path_parts_path_join_relative dir name :
  path_root name = "" →
  path_parts (path_join dir name) = path_parts dir ++ path_parts name.
Proof.
  intros Hrel. unfold path_join. rewrite Hrel. simpl.
  apply path_parts_render; [apply path_root_cases|].
  apply Forall_app. split; apply path_parts_components.
Qed.

Lemma path_parts_path_join_absolute dir name :
  Py.truthy (path_root name) = true →
  path_parts (path_join dir name) = path_parts name.
Proof.
  intros Habs. unfold path_join, path_of. rewrite Habs.
  apply path_parts_render; [apply path_root_cases|].
  apply path_parts_components.
Qed.

Lemma pretty_N_go_no_slash x s :
  "/"%char ∉ Py.chars s → "/"%char ∉ Py.chars (pretty_N_go x s).
Proof.
  revert s. induction (N.lt_wf_0 x) as [x _ IH]; intros s Hs.
  assert (x = 0 ∨ 0 < x)%N as [->|Hx] by lia.
  - by rewrite pretty_N_go_0.
  - rewrite pretty_N_go_step by done. apply IH; [by apply N.div_lt|].
    simpl. rewrite not_elem_of_cons. split; [|done].
    unfold pretty_N_char. by repeat case_match.
Qed.

(** A number in decimal has no slash. *)
Lemma pretty_no_slash (k : nat) : "/"%char ∉ Py.chars (pretty k).
Proof.
  unfold pretty, pretty_nat, pretty, pretty_N. case_decide.
  - simpl. rewrite list_elem_of_singleton. done.
  - apply pretty_N_go_no_slash. apply not_elem_of_nil.
Qed.

Example path_of_renders :
  path_of "out//" = "out" ∧ path_of "./img/" = "img" ∧ path_of "" = "."
  ∧ path_of "///srv/a" = "/srv/a" ∧ path_of "//srv/a" = "//srv/a".
Proof. repeat split. Qed.

Example path_join_renders :
  path_join "." "widget.jpg" = "widget.jpg"
  ∧ path_join "/" "widget.jpg" = "/widget.jpg"
  ∧ path_join "out" "" = "out"
  ∧ path_join "out" "/tmp/a.jpg" = "/tmp/a.jpg".
Proof. repeat split. Qed.

(** ** Output Path Allocator *)

Lemma path_exists_true (fs : FS) p : path_exists fs p = true ↔ is_Some (fs !! p).
Proof. unfold path_exists. apply bool_decide_eq_true. Qed.

Lemma path_exists_false (fs : FS) p : path_exists fs p = false ↔ fs !! p = None.
Proof.
  unfold path_exists. rewrite bool_decide_eq_false. symmetry. apply eq_None_not_Some.
Qed.

Lemma sanitize_no_slash base : "/"%char ∉ Py.chars (sanitize_filename base).
Proof.
  intros Hin. pose proof (sanitize_legal base) as Hlegal.
  rewrite Forall_forall in Hlegal. apply (Hlegal _ Hin).
  unfold illegal_chars. set_solver.
Qed.

(** The names the allocator joins to the output folder, parsed: the suffix
    [_k] stays in the first component, and the components after it do not
    depend on [k]. *)
Lemma allocator_name_parts (name ext : string) :
  "/"%char ∉ Py.chars name →
  ∃ w0 rest,
    (∀ k : nat, path_parts (name +:+ "_" +:+ pretty k +:+ ext)
          = (Py.chars name ++ "_"%char :: Py.chars (pretty k) ++ w0) :: rest)
    ∧ (path_parts (name +:+ ext) = rest
       ∨ path_parts (name +:+ ext) = (Py.chars name ++ w0) :: rest).
Proof.
  intros Hname.
  destruct (split_chars_cons "/" (Py.chars ext)) as (w0 & ws & Hext).
  exists w0, (filter (λ w, w ≠ [] ∧ w ≠ ["."%char]) ws). split.
  - intros k. unfold path_parts. rewrite !chars_app.
    change (Py.chars "_" ++ ?l) with ("_"%char :: l).
    replace (Py.chars name ++ "_"%char :: Py.chars (pretty k) ++ Py.chars ext)
      with ((Py.chars name ++ "_"%char :: Py.chars (pretty k)) ++ Py.chars ext)
      by (by rewrite <- app_assoc).
    rewrite (split_chars_app "/" _ _ w0 ws); [| |done].
    + rewrite filter_cons_True.
      * by rewrite <- !app_assoc.
      * rewrite <- !app_assoc. split.
        -- by destruct (Py.chars name).
        -- intros Hdot.
           assert (Hin : "_"%char ∈ ["."%char]).
           { rewrite <- Hdot. apply elem_of_app. right. by left. }
           by apply list_elem_of_singleton in Hin.
    + rewrite not_elem_of_app, not_elem_of_cons.
      split; [done|]. split; [done|]. apply pretty_no_slash.
  - unfold path_parts. rewrite chars_app.
    rewrite (split_chars_app "/" _ _ w0 ws) by done.
    destruct (decide (Py.chars name ++ w0 ≠ []
                      ∧ Py.chars name ++ w0 ≠ ["."%char])).
    + right. by rewrite filter_cons_True.
    + left. by rewrite filter_cons_False.
Qed.

Section Allocator.

Variables (out_dir : Path) (name ext : string).

Hypothesis Hname : "/"%char ∉ Py.chars name.

Let cand := candidate_path out_dir name ext.

Lemma suffixed_name_relative (k : nat) :
  path_root (name +:+ "_" +:+ pretty k +:+ ext) = "".
Proof.
  apply path_root_relative. rewrite chars_app.
  destruct (Py.chars name) as [|c l] eqn:Hchars; simpl; [done|].
  intros [= ->]. apply Hname. by left.
Qed.

(** The names the allocator tries are pairwise distinct. *)
Lemma candidate_path_distinct :
  (∀ i j, cand (S i) = cand (S j) → i = j) ∧ (∀ j, cand 0 ≠ cand (S j)).
Proof.
  destruct (allocator_name_parts name ext Hname) as (w0 & rest & Hk & H0).
  assert (Hparts : ∀ k, path_parts (cand (S k))
    = path_parts out_dir
      ++ (Py.chars name ++ "_"%char :: Py.chars (pretty (S k)) ++ w0) :: rest).
  { intros k. unfold cand, candidate_path.
    rewrite path_parts_path_join_relative by apply suffixed_name_relative.
    by rewrite Hk. }
  split.
  - intros i j Heq. apply (f_equal path_parts) in Heq.
    rewrite !Hparts in Heq. apply app_inv_head in Heq.
    injection Heq as Heq. apply app_inv_head in Heq.
    injection Heq as Heq. apply app_inv_tail, chars_inj in Heq.
    by apply pretty_nat_inj in Heq as [= ->].
  - intros j Heq. apply (f_equal path_parts) in Heq.
    rewrite Hparts in Heq. unfold cand, candidate_path in Heq.
    assert (Hshape : path_parts (path_join out_dir (name +:+ ext))
                     = path_parts (name +:+ ext)
                     ∨ path_parts (path_join out_dir (name +:+ ext))
                       = path_parts out_dir ++ path_parts (name +:+ ext)).
    { destruct (Py.truthy (path_root (name +:+ ext))) eqn:Habs.
      - left. by apply path_parts_path_join_absolute.
      - right. apply path_parts_path_join_relative.
        by destruct (path_root (name +:+ ext)). }
    assert (Hlen : ∀ w, length (Py.chars name ++ w)
      < length (Py.chars name ++ "_"%char :: Py.chars (pretty (S j)) ++ w)).
    { intros w. rewrite !length_app. simpl. rewrite length_app. lia. }
    destruct Hshape as [Hshape|Hshape], H0 as [H0|H0];
      rewrite Hshape, H0 in Heq.
    + apply (f_equal length) in Heq. rewrite length_app in Heq.
      simpl in Heq. lia.
    + destruct (path_parts out_dir) as [|d ds].
      * injection Heq as Heq. specialize (Hlen w0). rewrite Heq in Hlen. lia.
      * apply (f_equal length) in Heq. simpl in Heq.
        rewrite length_app in Heq. simpl in Heq. lia.
    + apply app_inv_head in Heq. apply (f_equal length) in Heq.
      simpl in Heq. lia.
    + apply app_inv_head in Heq. injection Heq as Heq.
      specialize (Hlen w0). rewrite Heq in Hlen. lia.
Qed.

Lemma candidate_path_inj i j : cand (S i) = cand (S j) → i = j.
Proof. apply candidate_path_distinct. Qed.

Lemma candidate_path_suffixed_ne j : cand 0 ≠ cand (S j).
Proof. apply candidate_path_distinct. Qed.

(** The suffixed names that exist are at most as many as the entries of the
    file system. *)
Lemma suffixed_bound (fs : FS) m :
  (∀ j, 1 ≤ j ≤ m → path_exists fs (cand j) = true) → m ≤ size fs.
Proof.
  intros Hall.
  set (l := (λ j, cand (S j)) <$> seq 0 m).
  assert (Hnodup : NoDup l).
  { apply NoDup_fmap_2; [|apply NoDup_seq].
    intros i j. apply candidate_path_inj. }
  assert (Hsub : list_to_set l ⊆ dom fs).
  { intros p Hp. apply elem_of_list_to_set in Hp.
    apply list_elem_of_fmap in Hp as (j & -> & Hj%elem_of_seq).
    apply elem_of_dom, path_exists_true, Hall. lia. }
  apply subseteq_size in Hsub.
  rewrite size_list_to_set, size_dom in Hsub by done.
  unfold l in Hsub. by rewrite length_fmap, length_seq in Hsub.
Qed.

(** With enough iterations left to reach a free suffix, the loop returns
    the first free one. *)
Lemma resolve_output_path_loop_finds (fs : FS) fuel i k :
  1 ≤ i → i ≤ k < i + fuel →
  path_exists fs (cand k) = false →
  ∃ k', i ≤ k' ≤ k
    ∧ resolve_output_path_loop fuel fs out_dir name ext i = Some (cand k')
    ∧ path_exists fs (cand k') = false
    ∧ ∀ j, i ≤ j < k' → path_exists fs (cand j) = true.
Proof.
  revert i. induction fuel as [|fuel IH]; intros i Hi Hk Hfree; [lia|].
  destruct i as [|i']; [lia|].
  cbn [resolve_output_path_loop].
  change (path_join out_dir (name +:+ "_" +:+ pretty (S i') +:+ ext))
    with (cand (S i')).
  remember (S i') as i eqn:Hi'.
  destruct (path_exists fs (cand i)) eqn:Hex; simpl.
  - assert (i ≠ k) by (intros ->; congruence).
    destruct (IH (S i)) as (k' & Hk' & Hloop & Hfree' & Hbelow); [lia..|done|].
    exists k'. split; [lia|]. split_and!; [done..|].
    intros j Hj. destruct (decide (j = i)) as [->|]; [done|].
    apply Hbelow. lia.
  - exists i. split; [lia|]. split_and!; [done..|]. intros j Hj. lia.
Qed.

End Allocator.

Lemma free_suffix (fs : FS) out_dir name ext :
  "/"%char ∉ Py.chars name →
  ∃ k, 1 ≤ k ≤ S (size fs)
    ∧ path_exists fs (candidate_path out_dir name ext k) = false.
Proof.
  intros Hname. set (cand := candidate_path out_dir name ext).
  destruct (decide (Exists (λ j, path_exists fs (cand j) = false)
                      (seq 1 (S (size fs))))) as [Hex|Hall].
  - apply Exists_exists in Hex as (k & Hk%elem_of_seq & Hfree).
    exists k. split; [lia|done].
  - assert (S (size fs) ≤ size fs); [|lia].
    apply (suffixed_bound out_dir name ext Hname). intros j Hj.
    destruct (path_exists fs (candidate_path out_dir name ext j)) eqn:Hp; [done|].
    destruct Hall. apply Exists_exists. exists j. split; [|done].
    apply elem_of_seq. lia.
Qed.

(** The allocator returns the first name in the order [name.ext],
    [name_1.ext], [name_2.ext], ... that does not exist. *)
Lemma resolve_output_path_least (fs : FS) out_dir base ext k :
  let cand := candidate_path out_dir (sanitize_filename base) ext in
  path_exists fs (cand k) = false →
  (∀ j, j < k → path_exists fs (cand j) = true) →
  resolve_output_path fs out_dir base ext = Some (cand k).
Proof.
  intros cand Hfree Hbelow. unfold resolve_output_path. cbv zeta.
  change (path_join out_dir (sanitize_filename base +:+ ext)) with (cand 0).
  destruct k as [|k0].
  - by rewrite Hfree.
  - rewrite (Hbelow 0) by lia. simpl.
    assert (Hk0 : k0 ≤ size fs).
    { apply (suffixed_bound out_dir (sanitize_filename base) ext
               (sanitize_no_slash base)).
      intros j Hj. apply Hbelow. lia. }
    destruct (resolve_output_path_loop_finds out_dir (sanitize_filename base)
                ext fs (S (size fs)) 1 (S k0))
      as (k' & Hk' & Hloop & Hfree' & _); [lia..|done|].
    destruct (decide (k' = S k0)) as [->|Hne]; [done|].
    fold cand in Hfree'. rewrite Hbelow in Hfree' by lia. done.
Qed.

(** Some name of the allocator's order is free, and so there is a first
    free one. *)
Lemma first_free_candidate (fs : FS) out_dir base ext :
  let cand := candidate_path out_dir (sanitize_filename base) ext in
  ∃ k, path_exists fs (cand k) = false
    ∧ ∀ j, j < k → path_exists fs (cand j) = true.
Proof.
  set (name := sanitize_filename base). intros cand. unfold cand.
  destruct (path_exists fs (candidate_path out_dir name ext 0)) eqn:H0.
  - destruct (free_suffix fs out_dir name ext (sanitize_no_slash base))
      as (k & Hk & Hfree).
    destruct (resolve_output_path_loop_finds out_dir name ext fs
                (S (size fs)) 1 k)
      as (k' & Hk' & _ & Hfree' & Hbelow); [lia..|done|].
    exists k'. split; [done|]. intros j Hj.
    destruct j as [|j]; [done|]. apply Hbelow. lia.
  - exists 0. split; [done|]. intros j Hj. lia.
Qed.

Lemma resolve_output_path_total (fs : FS) out_dir base ext :
  is_Some (resolve_output_path fs out_dir base ext).
Proof.
  destruct (first_free_candidate fs out_dir base ext) as (k & Hfree & Hbelow).
  rewrite (resolve_output_path_least fs out_dir base ext k Hfree Hbelow).
  by eexists.
Qed.

(** C7. The allocator always returns, and what it returns is the first of
    the names [name.ext], [name_1.ext], [name_2.ext], ... (for the sanitized
    base name) that does not exist in the file system: the returned path
    does not exist, and every name before it in that order does.  A further
    call returns the same path as long as that path has not been created,
    whatever else has been added to the file system.  If the returned path
    is [name.ext] and [name_1.ext] does not exist, then once a file has been
    written at [name.ext] the next call returns [name_1.ext]. *)
Theorem resolve_output_path_spec (fs : FS) (out_dir : Path) (base ext : string) :
  let cand := candidate_path out_dir (sanitize_filename base) ext in
  ∃ k, resolve_output_path fs out_dir base ext = Some (cand k)
    ∧ path_exists fs (cand k) = false
    ∧ (∀ j, j < k → path_exists fs (cand j) = true)
    ∧ (∀ fs' : FS, fs ⊆ fs' → path_exists fs' (cand k) = false →
         resolve_output_path fs' out_dir base ext = Some (cand k))
    ∧ (∀ content, k = 0 → path_exists fs (cand 1) = false →
         resolve_output_path (<[cand 0 := File content]> fs) out_dir base ext
         = Some (cand 1)).
Proof.
  intros cand.
  destruct (first_free_candidate fs out_dir base ext) as (k & Hfree & Hbelow).
  exists k. split_and!; [|done..| |].
  - by apply resolve_output_path_least.
  - intros fs' Hsub Hfree'. apply resolve_output_path_least; [done|].
    intros j Hj. apply path_exists_true.
    eapply lookup_weaken_is_Some; [|exact Hsub].
    by apply path_exists_true, Hbelow.
  - intros content -> Hfree1. apply resolve_output_path_least.
    + apply path_exists_false. rewrite lookup_insert_ne.
      * by apply path_exists_false.
      * apply candidate_path_suffixed_ne, sanitize_no_slash.
    + intros j Hj. replace j with 0 by lia.
      apply path_exists_true. rewrite lookup_insert_eq. by eexists.
Qed.

Lemma resolve_output_path_spec_witness :
  resolve_output_path sample_fs "img" " wid:get " ".jpg" = Some "img/widget_1.jpg"
  ∧ ∃ k, resolve_output_path sample_fs "img" " wid:get " ".jpg"
         = Some (candidate_path "img" (sanitize_filename " wid:get ") ".jpg" k)
      ∧ path_exists sample_fs
          (candidate_path "img" (sanitize_filename " wid:get ") ".jpg" k) = false.
Proof.
  split; [reflexivity|].
  destruct (resolve_output_path_spec sample_fs "img" " wid:get " ".jpg")
    as (k & Hres & Hfree & _).
  by exists k.
Defined.

(** The allocator in the current folder, in the root folder, and with an
    empty name and extension (whose first candidate is the output folder
    itself). *)
Example resolve_output_path_edge_folders :
  resolve_output_path {[ "widget.jpg" := File [] ]} "." "widget" ".jpg"
  = Some "widget_1.jpg"
  ∧ resolve_output_path ∅ "/" "widget" ".jpg" = Some "/widget.jpg"
  ∧ resolve_output_path {[ "out" := Dir 0 ]} "out" "" "" = Some "out/_1".
Proof. repeat split. Qed.

(** ** Batch Run Engine *)

Lemma copy2_Ok (fs fs' : FS) src dst :
  copy2 fs src dst = Ok fs' →
  ∃ content, fs !! src = Some (File content) ∧ fs' = <[dst := File content]> fs.
Proof.
  unfold copy2. destruct (fs !! src) as [[content|n]|]; [|done..].
  intros [= <-]. by exists content.
Qed.

Lemma resolve_output_path_fresh (fs : FS) out_dir base ext p :
  resolve_output_path fs out_dir base ext = Some p → fs !! p = None.
Proof.
  destruct (first_free_candidate fs out_dir base ext) as (k & Hfree & Hbelow).
  rewrite (resolve_output_path_least fs out_dir base ext k Hfree Hbelow).
  intros [= <-]. by apply path_exists_false.
Qed.

(** What a call of the image library's [save] leaves behind. *)
Lemma image_save_cases pil (fs : FS) dst r :
  match image_save pil fs dst r with
  | (fs', None) => ∃ content, fs' = <[dst := File content]> fs
  | (fs', Some _) => fs' = fs ∨ ∃ partial, fs' = <[dst := File partial]> fs
  end.
Proof.
  destruct r as [bytes| |partial]; simpl.
  - by eexists.
  - by left.
  - destruct (_ && _); [by left|]. right. by eexists.
Qed.

(** A conversion that succeeds has written the destination; one that
    raises has left the files as they were, or a partial destination. *)
Lemma convert_image_cases pil (fs : FS) src dst :
  match convert_image pil fs src dst with
  | (fs', None) => ∃ content, fs' = <[dst := File content]> fs
  | (fs', Some _) => fs' = fs ∨ ∃ partial, fs' = <[dst := File partial]> fs
  end.
Proof.
  unfold convert_image.
  destruct (fs !! src) as [[bytes|]|]; [|by left..].
  destruct (pil_open pil bytes) as [img|]; [|by left].
  destruct (bool_decide (Py.lower (path_suffix dst) ∈ _));
    [|apply image_save_cases].
  destruct (bool_decide (pil_mode pil img ∈ _)); [|apply image_save_cases].
  destruct (pil_convert pil img "RGB"); [apply image_save_cases|by left].
Qed.

Lemma convert_image_writes pil (fs fs' : FS) src dst :
  convert_image pil fs src dst = (fs', None) →
  ∃ content, fs' = <[dst := File content]> fs.
Proof.
  intros H. pose proof (convert_image_cases pil fs src dst) as Hcases.
  by rewrite H in Hcases.
Qed.

Lemma convert_image_keeps_files pil (fs : FS) src dst :
  fs !! dst = None → fs ⊆ (convert_image pil fs src dst).1.
Proof.
  intros Hfresh. pose proof (convert_image_cases pil fs src dst) as Hcases.
  destruct (convert_image pil fs src dst) as [fs' [e|]]; simpl.
  - destruct Hcases as [->|[partial ->]]; [done|]. by apply insert_subseteq.
  - destruct Hcases as [content ->]. by apply insert_subseteq.
Qed.

Lemma same_data_log e st : same_data st (log e st).
Proof. done. Qed.

Lemma same_data_trans st0 st1 st2 :
  same_data st0 st1 → same_data st1 st2 → same_data st0 st2.
Proof.
  unfold same_data. intros (-> & -> & -> & ->) (-> & -> & -> & ->). done.
Qed.

Lemma same_data_quiet st0 st st' :
  same_data st0 st → quiet st st' → quiet st0 st'.
Proof. unfold same_data, quiet. intros (<- & <- & <- & _). done. Qed.

Lemma quiet_calm st st' : quiet st st' → calm st st'.
Proof. unfold quiet, calm. by intros (-> & -> & ->). Qed.

Lemma row_outcome_from pil re skip row st0 st st' :
  same_data st0 st → row_outcome pil re skip row st st' →
  row_outcome pil re skip row st0 st'.
Proof.
  intros (Hfs & Hcnt & Hnf & Hall) Hout.
  assert (copied_original st = copied_original st0
          ∧ copied_renamed st = copied_renamed st0
          ∧ converted_original st = converted_original st0
          ∧ converted_renamed st = converted_renamed st0)
    as (Hco & Hcr & Hvo & Hvr).
  { unfold counters in Hcnt. by injection Hcnt. }
  destruct Hout as [H1 H2 H3|H1 H2|src dst content H1 H2 H3 H4 H5
                   |src dst H1 H2 H3 H4].
  all: [> apply RowNotFound | apply RowSkipped
         | apply (RowCopied _ _ _ _ _ _ src dst content)
         | apply (RowConverted _ _ _ _ _ _ src dst) ].
  all: unfold quiet in *;
    rewrite <- ?Hfs, <- ?Hcnt, <- ?Hco, <- ?Hcr, <- ?Hvo, <- ?Hvr, <- ?Hnf,
      <- ?Hall;
    done.
Qed.

Section EngineFacts.

Variable pil : Pillow.
Variable ask : nat → Path → Path → option Z.
Variable cfg : config.
Variable image_index : Index.
Variable out_dir : Path.

Let re := rename_enabled_of (newname_col cfg).

Lemma output_stem_of_Ok (row : Row) stem :
  (rename_enabled_of (newname_col cfg) = true →
   is_Some (row !! newname_col cfg)) →
  ∃ out, output_stem_of cfg row stem = Ok out.
Proof.
  intros Hcol. unfold output_stem_of, row_get.
  destruct (rename_enabled_of (newname_col cfg)); [|by eexists].
  destruct Hcol as [c ->]; [done|]. simpl.
  destruct (rename_supplied c); by eexists.
Qed.

Lemma conversion_dialog_cases i src dst st :
  match conversion_dialog ask cfg i src dst st with
  | Proceed st1 =>
      fs st1 = fs st ∧ counters st1 = counters st
      ∧ not_found_rows st1 = not_found_rows st
      ∧ (convert_all_mode st = true → convert_all_mode st1 = true)
  | SkipRow st1 | CancelAll st1 =>
      quiet st st1 ∧ convert_all_mode st = false
      ∧ convert_all_mode st1 = false ∧ preview_on cfg = true
  end.
Proof.
  unfold conversion_dialog, preview_on, quiet.
  destruct (bool_decide (fallback_mode cfg ∈ ["convert"; "copy"])); [|done].
  destruct (bool_decide (fallback_mode cfg = "convert")); [|done].
  destruct (convert_all_mode st) eqn:Hall; [done|].
  destruct (bool_decide (preview_toggle cfg = _)); [|done]. simpl.
  destruct (ask i src dst) as [z|]; [|done].
  repeat case_match; simplify_eq; simpl; rewrite ?Hall; done.
Qed.

(** What the policy does with a fallback whose destination is free. *)
Lemma fallback_action_cases row filename src dst st :
  fs st !! dst = None →
  match fallback_action pil cfg row filename src dst st with
  | Next st' =>
      row_outcome pil re false row st st'
      ∧ convert_all_mode st' = convert_all_mode st
  | Raised _ st' => calm st st' ∧ convert_all_mode st' = convert_all_mode st
  | Return _ | Hung _ => False
  end.
Proof.
  intros Hfresh. unfold fallback_action.
  destruct (bool_decide (fallback_mode cfg = "convert")).
  - cbn [fs log].
    pose proof (convert_image_keeps_files pil (fs st) src dst Hfresh) as Hkeep.
    destruct (convert_image pil (fs st) src dst) as [fs' [e|]] eqn:Hconv.
    + done.
    + split; [|done].
      apply (RowConverted _ _ _ _ _ _ src dst); [done..| |done].
      unfold counters. simpl. fold re. by destruct re.
  - destruct (bool_decide (fallback_mode cfg = "copy")).
    + cbn [fs log].
      destruct (copy2 (fs st) src dst) as [fs'|e] eqn:Hcopy.
      * apply copy2_Ok in Hcopy as (content & Hsrc & ->).
        split; [|done].
        apply (RowCopied _ _ _ _ _ _ src dst content); [done..| |done].
        unfold counters. simpl. fold re. by destruct re.
      * done.
    + split; [by apply RowNotFound|done].
Qed.

(** What a step of the loop does, however it ends. *)
Lemma run_row_cases i (row : Row) st :
  match run_row pil ask cfg image_index out_dir i row st with
  | Next st' =>
      row_outcome pil re (preview_on cfg && negb (convert_all_mode st)) row
        st st'
  | Return st' | Hung st' => quiet st st'
  | Raised _ st' => calm st st'
  end
  ∧ (convert_all_mode st = true →
     convert_all_mode
       (flow_state (run_row pil ask cfg image_index out_dir i row st)) = true).
Proof.
  unfold run_row.
  destruct (row_get row (image_col cfg)) as [raw_path|]; [|done].
  destruct (isna raw_path); [by split; [apply RowNotFound|]|].
  destruct (output_stem_of cfg row _) as [output_stem|]; [|done].
  cbn [fs log].
  destruct (find_image_file (fs st) image_index (preferred_ext cfg) _)
    as [[[src_path|] was_fallback]|]; [| |done].
  - destruct (resolve_output_path (fs st) out_dir output_stem _)
      as [dest_path|] eqn:Hdest; [|done].
    apply resolve_output_path_fresh in Hdest.
    destruct (py_not was_fallback).
    + cbn [fs log].
      destruct (copy2 (fs st) src_path dest_path) as [fs'|] eqn:Hcopy; [|done].
      apply copy2_Ok in Hcopy as (content & Hsrc & ->).
      split; [|done].
      apply (RowCopied _ _ _ _ _ _ src_path dest_path content); [done..| |done].
      unfold counters. simpl. fold re. by destruct re.
    + pose proof (conversion_dialog_cases i src_path dest_path
                    (log (LogFallbackFound src_path)
                       (log (CallResolver
                          (Py.lower (path_stem (path_name (cell_str raw_path)))))
                          st))) as Hdialog.
      destruct (conversion_dialog ask cfg i src_path dest_path _)
        as [st1|st1|st1].
      * destruct Hdialog as (Hfs & Hcnt & Hnf & Hall).
        change (fs st1 = fs st) in Hfs.
        change (counters st1 = counters st) in Hcnt.
        change (not_found_rows st1 = not_found_rows st) in Hnf.
        change (convert_all_mode st = true → convert_all_mode st1 = true)
          in Hall.
        pose proof (fallback_action_cases row
                      (path_name (cell_str raw_path)) src_path dest_path st1)
          as Haction.
        rewrite Hfs in Haction. specialize (Haction Hdest).
        destruct (fallback_action pil cfg row _ src_path dest_path st1)
          as [st'|st'|e st'|st']; [| done | | done].
        -- destruct Haction as (Hout & Hall'). split.
           ++ assert (copied_original st1 = copied_original st
                      ∧ copied_renamed st1 = copied_renamed st
                      ∧ converted_original st1 = converted_original st
                      ∧ converted_renamed st1 = converted_renamed st)
                as (Hco & Hcr & Hvo & Hvr).
              { unfold counters in Hcnt. by injection Hcnt. }
              destruct Hout as [H1 H2 H3|H1 H2|s d c H1 H2 H3 H4 H5
                               |s d H1 H2 H3 H4].
              all: [> apply RowNotFound | discriminate
                     | apply (RowCopied _ _ _ _ _ _ s d c)
                     | apply (RowConverted _ _ _ _ _ _ s d) ].
              all: rewrite <- ?Hfs, <- ?Hcnt, <- ?Hco, <- ?Hcr, <- ?Hvo,
                     <- ?Hvr, <- ?Hnf; try done.
           ++ simpl. intros Htrue. rewrite Hall'. by apply Hall.
        -- destruct Haction as (Hq & Hall'). split.
           ++ unfold calm in *. by rewrite <- Hfs, <- Hcnt, <- Hnf.
           ++ simpl. intros Htrue. rewrite Hall'. by apply Hall.
      * destruct Hdialog as (Hq & Hall & _ & Hprev). simpl in Hall.
        split; [|simpl; congruence].
        apply RowSkipped; [done|]. by rewrite Hprev, Hall.
      * destruct Hdialog as (Hq & Hall & _). simpl in Hall.
        split; [done|]. simpl. congruence.
  - by split; [apply RowNotFound|].
Qed.



End EngineFacts.







(** C9.  With the fallback policy "none", a row for which the resolver
    returns a fallback is appended to the not-found rows; the file system
    and the four counters are left as they were. *)
Theorem fallback_none_marks_not_found (pil : Pillow)
    (ask : nat → Path → Path → option Z) (cfg : config) (image_index : Index)
    (out_dir : Path) (i : nat) (row : Row) (st : run_state)
    (raw : string) (src : Path)
    (Hmode : fallback_mode cfg = "none")
    (Hcell : row !! image_col cfg = Some (Val raw))
    (Hrename : rename_enabled_of (newname_col cfg) = true →
               is_Some (row !! newname_col cfg))
    (Hres : find_image_file (fs st) image_index (preferred_ext cfg)
              (Py.lower (path_stem (path_name raw)))
            = Ok (Some src, Some true)) :
  ∃ st', run_row pil ask cfg image_index out_dir i row st = Next st'
    ∧ not_found_rows st' = not_found_rows st ++ [row]
    ∧ fs st' = fs st
    ∧ counters st' = counters st.
Proof.
  unfold run_row, row_get. rewrite Hcell. cbn [isna cell_str].
  destruct (output_stem_of_Ok cfg row (Py.lower (path_stem (path_name raw)))
              Hrename) as [output_stem ->].
  cbn [fs log]. rewrite Hres.
  destruct (resolve_output_path_total (fs st) out_dir output_stem
              (preferred_ext cfg)) as [dest_path ->].
  cbn [py_not].
  unfold conversion_dialog, fallback_action. rewrite Hmode. simpl.
  by eexists.
Qed.

Lemma fallback_none_marks_not_found_witness :
  ∃ st', run_row plain_pil no_answer sample_cfg_none sample_index "out" 1
           row_sku (initial_state sample_fs) = Next st'
    ∧ not_found_rows st' = [row_sku]
    ∧ fs st' = sample_fs
    ∧ counters st' = (0, 0, 0, 0).
Proof.
  apply (fallback_none_marks_not_found plain_pil no_answer sample_cfg_none
           sample_index "out" 1 row_sku (initial_state sample_fs)
           "SKU123.tif" "img/sku123.png").
  - reflexivity.
  - reflexivity.
  - intros _. by eexists.
  - reflexivity.
Defined.

(** The code after the loop writes the report and emits the counters
    together, and only when some row went unmatched. *)
Lemma finalize_spec (pd : Pandas) (out_dir : Path)
    (total : nat) (st : run_state) :
  let st' := finalize pd out_dir total st in
  let missing_path := path_join out_dir "not_found_images.xlsx" in
  (not_found_rows st = [] → st' = st)
  ∧ (not_found_rows st ≠ [] →
     fs st'
     = <[missing_path := File (to_excel pd (not_found_rows st))]> (fs st)
     ∧ trace st' = trace st ++
         [WriteReport missing_path (not_found_rows st);
          LogSummary total (copied_original st) (copied_renamed st)
            (converted_original st) (converted_renamed st)
            (length (not_found_rows st));
          ShowCompleted total (copied_original st) (copied_renamed st)
            (converted_original st) (converted_renamed st)
            (length (not_found_rows st)) true]
     ∧ counters st' = counters st
     ∧ not_found_rows st' = not_found_rows st).
Proof.
  unfold finalize. destruct (not_found_rows st) as [|r rs] eqn:Hnf; simpl.
  - split; [done|]. by intros [].
  - split; [done|]. intros _. rewrite Hnf. simpl.
    by rewrite <- !app_assoc.
Qed.

(** C3, at a run in which every row is matched: the run reaches the code
    after the loop with no unmatched row, one file copied and one converted,
    and ends without a report and without any entry or dialog that states
    the counters. *)
Theorem run_all_matched_no_summary :
  ∃ st, run plain_pil no_answer walk no_excel sample_cfg
          (Some [row_widget; row_sku]) sample_fs = Finished st
    ∧ not_found_rows st = []
    ∧ counters st = (0, 1, 0, 1)
    ∧ trace st =
        [LogRunStart 2 ".jpg" true "convert";
         CallResolver "widget";
         LogCopyPreferred "img/widget.jpg" "out/widget.jpg";
         CallResolver "sku123";
         LogFallbackFound "img/sku123.png";
         LogConvertFallback "img/sku123.png" "out/newname.jpg"].
Proof.
  exists {| copied_original := 0; copied_renamed := 1;
            converted_original := 0; converted_renamed := 1;
            not_found_rows := []; convert_all_mode := false;
            fs := <["out/newname.jpg" := File [Byte.x01; Byte.x02]]>
                    (<["out/widget.jpg" := File [Byte.x03]]>
                       (<["out" := Dir 0]> sample_fs));
            trace :=
              [LogRunStart 2 ".jpg" true "convert";
               CallResolver "widget";
               LogCopyPreferred "img/widget.jpg" "out/widget.jpg";
               CallResolver "sku123";
               LogFallbackFound "img/sku123.png";
               LogConvertFallback "img/sku123.png" "out/newname.jpg"] |}.
  split; [vm_compute; reflexivity|]. split_and!; reflexivity.
Qed.

(** The same run with one more row, unmatched: the report is written and
    the counters are emitted. *)
Example run_one_unmatched_summary :
  ∃ st, run plain_pil no_answer walk no_excel sample_cfg
          (Some [row_widget; row_sku; row_missing]) sample_fs = Finished st
    ∧ last (trace st) = Some (ShowCompleted 3 0 1 0 1 1 true).
Proof.
  exists {| copied_original := 0; copied_renamed := 1;
            converted_original := 0; converted_renamed := 1;
            not_found_rows := [row_missing]; convert_all_mode := false;
            fs := <["out/not_found_images.xlsx" := File []]>
                    (<["out/newname.jpg" := File [Byte.x01; Byte.x02]]>
                       (<["out/widget.jpg" := File [Byte.x03]]>
                          (<["out" := Dir 0]> sample_fs)));
            trace :=
              [LogRunStart 3 ".jpg" true "convert";
               CallResolver "widget";
               LogCopyPreferred "img/widget.jpg" "out/widget.jpg";
               CallResolver "sku123";
               LogFallbackFound "img/sku123.png";
               LogConvertFallback "img/sku123.png" "out/newname.jpg";
               LogEmptyPath;
               WriteReport "out/not_found_images.xlsx" [row_missing];
               LogSummary 3 0 1 0 1 1;
               ShowCompleted 3 0 1 0 1 1 true] |}.
  split; [vm_compute; reflexivity | reflexivity].
Qed.

(** ** The update check *)

Lemma check_for_updates_offline : check_for_updates HttpException = None.
Proof. reflexivity. Qed.

Lemma check_for_updates_current text :
  Py.strip text = APP_VERSION → check_for_updates (HttpOk text) = None.
Proof.
  intros H. unfold check_for_updates. rewrite H.
  by rewrite bool_decide_eq_false_2 by (by intros []).
Qed.

(** C4.  Whenever the update check returns [None] (no newer version, or any
    failure of the request), the constructor reaches the comparison of
    [reply] with that variable unbound and raises, instead of completing. *)
Theorem init_update_check_unbound (r : http_response) (answer : button)
    (Hnone : check_for_updates r = None) :
  init_update_check r answer = Raise (UnboundLocalError "reply").
Proof. unfold init_update_check. by rewrite Hnone. Qed.

Lemma init_update_check_unbound_witness :
  check_for_updates HttpException = None
  ∧ init_update_check HttpException Yes = Raise (UnboundLocalError "reply")
  ∧ init_update_check (HttpOk "1.0.0") No = Raise (UnboundLocalError "reply").
Proof.
  split; [reflexivity|]. split.
  - apply (init_update_check_unbound HttpException Yes). reflexivity.
  - apply (init_update_check_unbound (HttpOk "1.0.0") No). reflexivity.
Defined.

(** When a newer version is announced the constructor completes. *)
Example init_update_check_newer :
  init_update_check (HttpOk "1.1.0") Yes = Ok true.
Proof. reflexivity. Qed.

(** * Further properties *)

(** ** Path Index Builder and Resolver *)

Lemma index_add_lookup fs (idx : Index) file k :
  index_add fs idx file !! k
  = if decide (is_file fs file = true ∧ Py.lower (path_stem file) = k)
    then Some (default [] (idx !! k) ++ [file]) else idx !! k.
Proof.
  unfold index_add. destruct (is_file fs file) eqn:Hfile.
  - rewrite lookup_insert. case_decide as Hk.
    + subst k. by rewrite decide_True.
    + rewrite decide_False; [done|]. by intros [_ ?].
  - rewrite decide_False; [done|]. by intros [? _].
Qed.

Lemma foldl_index_add_lookup fs listing (idx : Index) k :
  foldl (index_add fs) idx listing !! k
  = match filter (λ f, is_file fs f = true ∧ Py.lower (path_stem f) = k)
            listing with
    | [] => idx !! k
    | f :: more => Some (default [] (idx !! k) ++ f :: more)
    end.
Proof.
  revert idx. induction listing as [|file listing IH]; intros idx; [done|].
  cbn [foldl]. rewrite IH, index_add_lookup.
  destruct (decide (is_file fs file = true ∧ Py.lower (path_stem file) = k))
    as [Hfile|Hfile].
  - rewrite filter_cons_True by done.
    destruct (filter _ listing) as [|f more]; simpl; [done|].
    by rewrite <- app_assoc.
  - by rewrite filter_cons_False by done.
Qed.

(** X1. The index groups the regular files of the walk by lower-cased
    stem: the entry of a key is the list of the regular files with that
    stem, in the order of the walk, and a key without such a file has no
    entry. *)
Theorem index_files_groups (fs : FS) (listing : list Path) (k : string) :
  index_files fs listing !! k
  = match filter (λ f, is_file fs f = true ∧ Py.lower (path_stem f) = k)
            listing with
    | [] => None
    | f :: more => Some (f :: more)
    end.
Proof.
  unfold index_files. rewrite foldl_index_add_lookup, lookup_empty.
  by destruct (filter _ listing).
Qed.

Lemma index_files_no_entry fs listing k :
  index_files fs listing !! k = None →
  filter (λ f, is_file fs f = true ∧ Py.lower (path_stem f) = k) listing = [].
Proof.
  unfold index_files. rewrite foldl_index_add_lookup, lookup_empty.
  by destruct (filter _ listing).
Qed.

Lemma index_files_entry fs listing k cands :
  index_files fs listing !! k = Some cands →
  cands = filter (λ f, is_file fs f = true ∧ Py.lower (path_stem f) = k) listing.
Proof.
  unfold index_files. rewrite foldl_index_add_lookup, lookup_empty.
  destruct (filter _ listing); [done|]. by intros [= <-].
Qed.

Lemma sorted_reverse_elem_of {A} (l : list (nat * A)) x :
  x ∈ sorted_reverse l → x ∈ l.
Proof.
  unfold sorted_reverse. rewrite elem_of_reverse. intros Hx.
  assert (Hall : Forall (λ y, y ∈ l) (stable_sort (reverse l))).
  { apply stable_sort_Forall, Forall_forall. intros y. by rewrite elem_of_reverse. }
  rewrite Forall_forall in Hall. by apply Hall.
Qed.

Lemma mapR_sizes_snd fs cands keyed :
  mapR (λ x, n ← st_size fs x; Ok (n, x)) cands = Ok keyed →
  snd <$> keyed = cands.
Proof.
  revert keyed. induction cands as [|q cands IH]; intros keyed; simpl.
  - by intros [= <-].
  - destruct (st_size fs q) as [n|]; [|done]. simpl.
    destruct (mapR _ cands) as [rest|]; [|done]. simpl.
    intros [= <-]. rewrite fmap_cons. simpl. f_equal. by apply IH.
Qed.

(** What a path returned by the resolver is, on any index. *)
Lemma find_image_file_Some fs (idx : Index) pref s p b :
  find_image_file fs idx pref s = Ok (Some p, b) →
  ∃ cands, idx !! Py.lower s = Some cands ∧ p ∈ cands
    ∧ b = Some (negb (is_preferred pref p)).
Proof.
  unfold find_image_file.
  destruct (idx !! Py.lower s) as [cands|]; [|done].
  intros H. exists cands. split; [done|].
  destruct (List.find _ cands) as [p'|] eqn:Hfind.
  - injection H as <- <-.
    apply find_first in Hfind as (before & after & -> & _ & ->).
    split; [|done]. apply elem_of_app. right. by left.
  - destruct (mapR _ cands) as [keyed|] eqn:Hkeyed; [|done]. simpl in H.
    destruct (sorted_reverse keyed) as [|[n q] rest] eqn:Hsorted; [done|].
    injection H as -> <-.
    assert (Hq : (n, p) ∈ keyed).
    { apply sorted_reverse_elem_of. rewrite Hsorted. by left. }
    assert (Hp : p ∈ cands).
    { rewrite <- (mapR_sizes_snd _ _ _ Hkeyed).
      apply list_elem_of_fmap. by exists (n, p). }
    split; [done|].
    rewrite (find_none _ _ Hfind p); [done|]. by apply list_elem_of_In.
Qed.

(** X2. On the index built from a walk, a path the resolver returns is a
    regular file of that walk whose stem is the requested one up to case,
    and the fallback flag tells exactly that its extension is not the
    preferred one. *)
Theorem find_image_file_sound (fs : FS) (listing : list Path)
    (pref s : string) (p : Path) (b : option bool)
    (Hres : find_image_file fs (index_files fs listing) pref s
            = Ok (Some p, b)) :
  p ∈ listing
  ∧ is_file fs p = true
  ∧ Py.lower (path_stem p) = Py.lower s
  ∧ b = Some (negb (is_preferred pref p)).
Proof.
  apply find_image_file_Some in Hres as (cands & Hentry & Hp & Hb).
  apply index_files_entry in Hentry. subst cands.
  apply list_elem_of_filter in Hp as [[Hfile Hstem] Hin]. done.
Qed.

Lemma find_image_file_sound_witness :
  "img/sku123.png" ∈ walk sample_fs "img"
  ∧ is_file sample_fs "img/sku123.png" = true
  ∧ Py.lower (path_stem "img/sku123.png") = Py.lower "SKU123"
  ∧ Some true = Some (negb (is_preferred ".jpg" "img/sku123.png")).
Proof.
  apply (find_image_file_sound sample_fs (walk sample_fs "img") ".jpg" "SKU123").
  vm_compute. reflexivity.
Defined.

(** X3. On the index built from a walk of the same file system the resolver
    does not raise, and it answers [(None, None)] exactly when the walk has
    no regular file with the requested stem, up to case. *)
Theorem find_image_file_not_found_iff (fs : FS) (listing : list Path)
    (pref s : string) :
  (∃ r, find_image_file fs (index_files fs listing) pref s = Ok r)
  ∧ (find_image_file fs (index_files fs listing) pref s = Ok (None, None)
     ↔ ∀ f, f ∈ listing → is_file fs f = true →
         Py.lower (path_stem f) ≠ Py.lower s).
Proof.
  destruct (index_files fs listing !! Py.lower s) as [cands|] eqn:Hentry.
  - destruct (find_image_file_present fs (index_files fs listing) pref s cands)
      as (p & b & Hp & Hres); [apply index_files_invariant|done|].
    split; [by eexists|]. rewrite Hres. split; [done|].
    intros Hnone. exfalso.
    apply index_files_entry in Hentry. subst cands.
    apply list_elem_of_filter in Hp as [[Hfile Hstem] Hin].
    by apply (Hnone p).
  - assert (Hres : find_image_file fs (index_files fs listing) pref s
                   = Ok (None, None)).
    { unfold find_image_file. by rewrite Hentry. }
    split; [by eexists|]. split; [|done].
    intros _ f Hf Hfile Hstem.
    apply index_files_no_entry in Hentry.
    assert (Hin : f ∈ filter (λ f, is_file fs f = true
                                   ∧ Py.lower (path_stem f) = Py.lower s) listing)
      by by apply list_elem_of_filter.
    rewrite Hentry in Hin. by apply elem_of_nil in Hin.
Qed.

Lemma mapR_sizes_vanished fs before after q :
  Forall (λ c, is_Some (fs !! c)) before → fs !! q = None →
  mapR (λ x, n ← st_size fs x; Ok (n, x)) (before ++ q :: after)
  = Raise (FileNotFoundError q).
Proof.
  intros Hbefore Hgone. induction Hbefore as [|c before Hc _ IH]; simpl.
  - unfold st_size. by rewrite Hgone.
  - by rewrite (st_size_exists fs c Hc), IH.
Qed.

(** X4. When no candidate has the preferred extension and one of them is no
    longer in the file system, the resolver raises [FileNotFoundError] for
    the first such candidate of the list. *)
Theorem find_image_file_vanished (fs : FS) (idx : Index) (pref s : string)
    (before after : list Path) (q : Path)
    (Hentry : idx !! Py.lower s = Some (before ++ q :: after))
    (Hnone : Forall (λ c, is_preferred pref c = false) (before ++ q :: after))
    (Hbefore : Forall (λ c, is_Some (fs !! c)) before)
    (Hgone : fs !! q = None) :
  find_image_file fs idx pref s = Raise (FileNotFoundError q).
Proof.
  unfold find_image_file. rewrite Hentry, (find_none_Forall _ _ Hnone).
  by rewrite (mapR_sizes_vanished fs before after q Hbefore Hgone).
Qed.

Lemma find_image_file_vanished_witness :
  find_image_file sample_fs {[ "a" := ["img/sku123.png"; "img/gone.gif"] ]}
    ".jpg" "A" = Raise (FileNotFoundError "img/gone.gif").
Proof.
  apply (find_image_file_vanished sample_fs _ ".jpg" "A"
           ["img/sku123.png"] [] "img/gone.gif").
  - reflexivity.
  - repeat constructor.
  - repeat constructor. by eexists.
  - reflexivity.
Defined.

(** ** [get_safe_dest_path] *)

Lemma string_app_assoc s t u : (s +:+ t) +:+ u = s +:+ t +:+ u.
Proof. apply chars_inj. by rewrite !chars_app, app_assoc. Qed.

(** The last component of a rendered path follows a prefix that depends on
    the other components only. *)
Lemma render_path_snoc root cs :
  ∃ pre, ∀ name, render_path root (cs ++ [name]) = pre +:+ name.
Proof.
  assert (Hjoin : ∃ pre, ∀ name, join_parts (cs ++ [name]) = pre +:+ name).
  { induction cs as [|c cs [pre IH]].
    - by exists "".
    - exists (c +:+ "/" +:+ pre). intros name.
      rewrite !string_app_assoc, <- IH. simpl. by destruct (cs ++ [name]) eqn:E;
        [destruct cs; discriminate|]. }
  destruct Hjoin as [pre Hpre].
  exists (root +:+ pre). intros name.
  unfold render_path. rewrite string_app_assoc, <- Hpre.
  by destruct (cs ++ [name]) eqn:E; [destruct cs; discriminate|].
Qed.

Section SafeDest.

Variable dest_path : Path.

Let cand := safe_candidate dest_path.

Lemma safe_candidate_inj i j : cand (S i) = cand (S j) → i = j.
Proof.
  unfold cand, safe_candidate, sibling_path.
  destruct (render_path_snoc (path_root dest_path)
              (removelast (Py.str <$> path_parts dest_path))) as [pre Hpre].
  rewrite !Hpre. intros H. do 3 apply String.app_inj in H.
  apply string_app_inv_tail in H. by apply pretty_nat_inj in H as [= ->].
Qed.

Lemma safe_candidate_bound (fs : FS) m :
  (∀ j, 1 ≤ j ≤ m → path_exists fs (cand j) = true) → m ≤ size fs.
Proof.
  intros Hall.
  set (l := (λ j, cand (S j)) <$> seq 0 m).
  assert (Hnodup : NoDup l).
  { apply NoDup_fmap_2; [|apply NoDup_seq].
    intros i j. apply safe_candidate_inj. }
  assert (Hsub : list_to_set l ⊆ dom fs).
  { intros p Hp. apply elem_of_list_to_set in Hp.
    apply list_elem_of_fmap in Hp as (j & -> & Hj%elem_of_seq).
    apply elem_of_dom, path_exists_true, Hall. lia. }
  apply subseteq_size in Hsub.
  rewrite size_list_to_set, size_dom in Hsub by done.
  unfold l in Hsub. by rewrite length_fmap, length_seq in Hsub.
Qed.

Lemma get_safe_dest_path_loop_finds (fs : FS) fuel i k :
  1 ≤ i → i ≤ k < i + fuel →
  path_exists fs (cand k) = false →
  ∃ k', i ≤ k' ≤ k
    ∧ get_safe_dest_path_loop fuel fs dest_path i = Some (cand k')
    ∧ path_exists fs (cand k') = false
    ∧ ∀ j, i ≤ j < k' → path_exists fs (cand j) = true.
Proof.
  revert i. induction fuel as [|fuel IH]; intros i Hi Hk Hfree; [lia|].
  destruct i as [|i']; [lia|].
  cbn [get_safe_dest_path_loop].
  change (sibling_path dest_path
            (path_stem dest_path +:+ "_" +:+ pretty (S i')
             +:+ path_suffix dest_path))
    with (cand (S i')).
  remember (S i') as i eqn:Hi'.
  destruct (path_exists fs (cand i)) eqn:Hex; simpl.
  - assert (i ≠ k) by (intros ->; congruence).
    destruct (IH (S i)) as (k' & Hk' & Hloop & Hfree' & Hbelow); [lia..|done|].
    exists k'. split; [lia|]. split_and!; [done..|].
    intros j Hj. destruct (decide (j = i)) as [->|]; [done|].
    apply Hbelow. lia.
  - exists i. split; [lia|]. split_and!; [done..|]. intros j Hj. lia.
Qed.

Lemma safe_candidate_free (fs : FS) :
  ∃ k, 1 ≤ k ≤ S (size fs) ∧ path_exists fs (cand k) = false.
Proof.
  destruct (decide (Exists (λ j, path_exists fs (cand j) = false)
                      (seq 1 (S (size fs))))) as [Hex|Hall].
  - apply Exists_exists in Hex as (k & Hk%elem_of_seq & Hfree).
    exists k. split; [lia|done].
  - assert (S (size fs) ≤ size fs); [|lia].
    apply safe_candidate_bound. intros j Hj.
    destruct (path_exists fs (cand j)) eqn:Hp; [done|].
    destruct Hall. apply Exists_exists. exists j. split; [|done].
    apply elem_of_seq. lia.
Qed.

End SafeDest.

(** X5. [get_safe_dest_path] always returns, and it returns the first of
    [dest_path], its sibling [stem_1.suffix], [stem_2.suffix], ... that does
    not exist: the returned path does not exist and every earlier one of
    that order does; a free [dest_path] is returned as it is. *)
Theorem get_safe_dest_path_spec (fs : FS) (dest_path : Path) :
  ∃ k, get_safe_dest_path fs dest_path = Some (safe_candidate dest_path k)
    ∧ path_exists fs (safe_candidate dest_path k) = false
    ∧ (∀ j, j < k → path_exists fs (safe_candidate dest_path j) = true)
    ∧ (k = 0 ↔ path_exists fs dest_path = false).
Proof.
  unfold get_safe_dest_path.
  destruct (path_exists fs dest_path) eqn:H0; simpl.
  - destruct (safe_candidate_free dest_path fs) as (k & Hk & Hfree).
    destruct (get_safe_dest_path_loop_finds dest_path fs (S (size fs)) 1 k)
      as (k' & Hk' & Hloop & Hfree' & Hbelow); [lia..|done|].
    exists k'. split_and!; [done..| |].
    + intros j Hj. destruct j as [|j]; [done|]. apply Hbelow. lia.
    + split; [lia|done].
  - exists 0. split_and!; [done..| |done]. intros j Hj. lia.
Qed.

Example get_safe_dest_path_taken :
  get_safe_dest_path sample_fs "img/widget.jpg" = Some "img/widget_1.jpg".
Proof. reflexivity. Qed.

Example get_safe_dest_path_bare_name :
  get_safe_dest_path {[ "widget.jpg" := File [] ]} "widget.jpg"
  = Some "widget_1.jpg".
Proof. reflexivity. Qed.

Example get_safe_dest_path_double_slash_root :
  get_safe_dest_path {[ "//srv/a.b" := File [] ]} "//srv/a.b"
  = Some "//srv/a_1.b".
Proof. reflexivity. Qed.

(** ** Output Path Allocator: the names it tries *)

(** X29. The names the allocator tries for a sanitized base name,
    [name.ext], [name_1.ext], [name_2.ext], ..., are pairwise different
    paths, whatever the output folder and the extension: no name is tried
    twice, which is why a finite file system cannot hold them all and the
    search ends. *)
Theorem allocator_names_distinct (out_dir : Path) (base ext : string)
    (i j : nat) :
  candidate_path out_dir (sanitize_filename base) ext i
  = candidate_path out_dir (sanitize_filename base) ext j
  ↔ i = j.
Proof.
  split; [|by intros ->].
  destruct (candidate_path_distinct out_dir (sanitize_filename base) ext
              (sanitize_no_slash base)) as [Hinj Hne].
  destruct i as [|i], j as [|j]; intros Heq.
  - done.
  - by apply Hne in Heq.
  - symmetry in Heq. by apply Hne in Heq.
  - f_equal. by apply Hinj.
Qed.

Example allocator_names_in_current_folder :
  candidate_path "." (sanitize_filename " wid:get ") ".jpg" <$> [0; 1; 2]
  = ["widget.jpg"; "widget_1.jpg"; "widget_2.jpg"].
Proof. reflexivity. Qed.
(** ** The row loop *)


Section LoopInvariants.

Variable pil : Pillow.
Variable ask : nat → Path → Path → option Z.
Variable cfg : config.
Variable image_index : Index.
Variable out_dir : Path.

Let re := rename_enabled_of (newname_col cfg).
Let step := run_row pil ask cfg image_index out_dir.
Let steps := run_rows pil ask cfg image_index out_dir.

Lemma row_outcome_keeps_files skip (row : Row) st st' :
  row_outcome pil re skip row st st' → fs st ⊆ fs st'.
Proof.
  intros [H1 _ _|[H1 _] _|src dst content _ Hfresh -> _ _|src dst Hfresh Hconv _ _].
  - by rewrite H1.
  - by rewrite H1.
  - by apply insert_subseteq.
  - apply convert_image_writes in Hconv as [content ->].
    by apply insert_subseteq.
Qed.

Lemma run_row_keeps_files i (row : Row) st :
  fs st ⊆ fs (flow_state (step i row st)).
Proof.
  destruct (run_row_cases pil ask cfg image_index out_dir i row st) as [H _].
  fold step in H. destruct (step i row st); simpl.
  - by eapply row_outcome_keeps_files.
  - destruct H as [-> _]. done.
  - apply H.
  - destruct H as [-> _]. done.
Qed.

Lemma run_rows_cons i (row : Row) rest st :
  steps i (row :: rest) st
  = match step i row st with
    | Next st' => steps (S i) rest st'
    | other => other
    end.
Proof. done. Qed.

Lemma run_rows_keeps_files_all i (rows : list Row) st :
  fs st ⊆ fs (flow_state (steps i rows st)).
Proof.
  revert i st. induction rows as [|row rest IH]; intros i st; [done|].
  rewrite run_rows_cons.
  pose proof (run_row_keeps_files i row st) as Hrow.
  destruct (step i row st) as [st1| | |]; [|done..].
  etrans; [exact Hrow|]. apply IH.
Qed.

Lemma row_outcome_not_found skip (row : Row) st st' :
  row_outcome pil re skip row st st' →
  not_found_rows st' = not_found_rows st
  ∨ not_found_rows st' = not_found_rows st ++ [row].
Proof.
  intros [_ _ H|(_ & _ & H) _|src dst content _ _ _ _ H|src dst _ _ _ H];
    first [by right | by left].
Qed.

Lemma run_rows_not_found_all i (rows : list Row) st :
  ∃ rs, not_found_rows (flow_state (steps i rows st)) = not_found_rows st ++ rs
    ∧ rs `sublist_of` rows.
Proof.
  revert i st. induction rows as [|row rest IH]; intros i st.
  { exists []. by rewrite app_nil_r. }
  rewrite run_rows_cons.
  destruct (run_row_cases pil ask cfg image_index out_dir i row st) as [H _].
  fold step in H. destruct (step i row st) as [st1|st1|e st1|st1];
    cbv beta iota.
  - destruct (IH (S i) st1) as (rs & Hrs & Hsub). fold steps.
    apply row_outcome_not_found in H as [H|H].
    + exists rs. split; [by rewrite Hrs, H|]. by apply sublist_cons.
    + exists (row :: rs). split; [by rewrite Hrs, H, <- app_assoc|].
      by apply sublist_skip.
  - exists []. simpl. destruct H as (_ & _ & ->).
    split; [by rewrite app_nil_r|]. apply sublist_nil_l.
  - exists []. simpl. destruct H as (_ & _ & ->).
    split; [by rewrite app_nil_r|]. apply sublist_nil_l.
  - exists []. simpl. destruct H as (_ & _ & ->).
    split; [by rewrite app_nil_r|]. apply sublist_nil_l.
Qed.

Lemma row_outcome_accounted skip (row : Row) st st' :
  row_outcome pil re skip row st st' →
  accounted st' = accounted st + 1
  ∨ (accounted st' = accounted st ∧ skip = true).
Proof.
  unfold accounted.
  intros [_ Hcnt Hnf|(_ & Hcnt & Hnf) Hskip|src dst content _ _ _ Hcnt Hnf
         |src dst _ _ Hcnt Hnf];
    unfold counters in Hcnt; injection Hcnt as -> -> -> ->; rewrite Hnf.
  - left. rewrite length_app. simpl. lia.
  - by right.
  - left. destruct re; lia.
  - left. destruct re; lia.
Qed.

Lemma run_rows_accounted_all i (rows : list Row) st st' :
  steps i rows st = Next st' →
  accounted st' ≤ accounted st + length rows
  ∧ (preview_on cfg = false → accounted st' = accounted st + length rows).
Proof.
  revert i st. induction rows as [|row rest IH]; intros i st.
  { intros [= <-]. simpl. split; [lia|]. intros _. lia. }
  rewrite run_rows_cons.
  destruct (run_row_cases pil ask cfg image_index out_dir i row st) as [H _].
  fold step in H. destruct (step i row st) as [st1| | |]; [|done..].
  intros Hrest. destruct (IH _ _ Hrest) as [Hle Heq].
  apply row_outcome_accounted in H. simpl. split.
  - destruct H as [H|[H _]]; lia.
  - intros Hprev. specialize (Heq Hprev). rewrite Hprev in H.
    destruct H as [H|[_ ?]]; [lia|done].
Qed.

Lemma row_outcome_buckets skip (row : Row) st st' :
  row_outcome pil re skip row st st' →
  if re
  then copied_original st' = copied_original st
       ∧ converted_original st' = converted_original st
  else copied_renamed st' = copied_renamed st
       ∧ converted_renamed st' = converted_renamed st.
Proof.
  intros [_ Hcnt _|(_ & Hcnt & _) _|src dst content _ _ _ Hcnt _
         |src dst _ _ Hcnt _];
    unfold counters in Hcnt; injection Hcnt as -> -> -> ->;
    by destruct re.
Qed.

Lemma calm_buckets st st' :
  calm st st' →
  if re
  then copied_original st' = copied_original st
       ∧ converted_original st' = converted_original st
  else copied_renamed st' = copied_renamed st
       ∧ converted_renamed st' = converted_renamed st.
Proof.
  intros (_ & Hcnt & _). unfold counters in Hcnt.
  injection Hcnt as -> -> -> ->. by destruct re.
Qed.

Lemma run_rows_buckets_all i (rows : list Row) st :
  let st' := flow_state (steps i rows st) in
  if re
  then copied_original st' = copied_original st
       ∧ converted_original st' = converted_original st
  else copied_renamed st' = copied_renamed st
       ∧ converted_renamed st' = converted_renamed st.
Proof.
  revert i st. induction rows as [|row rest IH]; intros i st; simpl.
  { by destruct re. }
  fold steps. fold step.
  destruct (run_row_cases pil ask cfg image_index out_dir i row st) as [H _].
  fold step in H. destruct (step i row st) as [st1|st1|e st1|st1]; simpl.
  - apply row_outcome_buckets in H. specialize (IH (S i) st1). simpl in IH.
    destruct re; destruct H as [H1 H2]; destruct IH as [IH1 IH2];
      split; congruence.
  - by apply calm_buckets, quiet_calm.
  - by apply calm_buckets.
  - by apply calm_buckets, quiet_calm.
Qed.

End LoopInvariants.

(** X6. The loop over the rows never removes or overwrites a file or a
    folder: however the loop ends, every path that existed before it still
    holds what it held.  The process log of the output folder, to which the
    loop appends and which is kept apart from the file system here, is the
    one path set aside. *)
Theorem run_rows_keeps_files (pil : Pillow)
    (ask : nat → Path → Path → option Z) (cfg : config) (image_index : Index)
    (out_dir : Path) (i : nat) (rows : list Row) (st : run_state)
    (p : Path) (n : node) (Hp : fs st !! p = Some n)
    (Hlog : p ≠ path_join out_dir "process_log.txt") :
  fs (flow_state (run_rows pil ask cfg image_index out_dir i rows st)) !! p
  = Some n.
Proof.
  eapply lookup_weaken; [exact Hp|]. apply run_rows_keeps_files_all.
Qed.

Lemma run_rows_keeps_files_witness :
  fs (flow_state (run_rows plain_pil no_answer sample_cfg sample_index "out" 1
                    [row_widget; row_sku] (initial_state sample_fs)))
    !! "img/widget.jpg" = Some (File [Byte.x03]).
Proof.
  apply (run_rows_keeps_files plain_pil no_answer sample_cfg sample_index
           "out" 1 [row_widget; row_sku] (initial_state sample_fs)).
  - reflexivity.
  - discriminate.
Defined.

(** X7. However the loop ends, the rows it has added to the not-found rows
    are rows of its input, in the order of the input, each input row added
    at most once. *)
Theorem run_rows_not_found_sublist (pil : Pillow)
    (ask : nat → Path → Path → option Z) (cfg : config) (image_index : Index)
    (out_dir : Path) (i : nat) (rows : list Row) (st : run_state) :
  ∃ rs,
    not_found_rows
      (flow_state (run_rows pil ask cfg image_index out_dir i rows st))
    = not_found_rows st ++ rs
    ∧ rs `sublist_of` rows.
Proof. apply run_rows_not_found_all. Qed.

(** X8. When the loop completes, the files copied and converted and the
    rows recorded as not found have grown by at most the number of rows; and
    by exactly that number in a run that cannot show the conversion dialog
    (fallback policy other than convert, or preview off), so that every row
    is then accounted for. *)
Theorem run_rows_accounted (pil : Pillow)
    (ask : nat → Path → Path → option Z) (cfg : config) (image_index : Index)
    (out_dir : Path) (i : nat) (rows : list Row) (st st' : run_state)
    (Hrun : run_rows pil ask cfg image_index out_dir i rows st = Next st') :
  accounted st' ≤ accounted st + length rows
  ∧ (preview_on cfg = false → accounted st' = accounted st + length rows).
Proof. by eapply run_rows_accounted_all. Qed.

Lemma run_rows_accounted_witness :
  ∃ st', run_rows plain_pil no_answer sample_cfg sample_index "out" 1
           [row_widget; row_missing] (initial_state sample_fs) = Next st'
    ∧ accounted st' = 2.
Proof.
  eexists. split; [reflexivity|].
  eapply (run_rows_accounted plain_pil no_answer sample_cfg sample_index
            "out" 1 [row_widget; row_missing] (initial_state sample_fs));
    reflexivity.
Defined.

(** X9. Over a whole run only one pair of buckets moves: with a rename
    column selected the two "original" counters stay as they were, and with
    none selected the two "renamed" counters do, however the loop ends. *)
Theorem run_rows_buckets (pil : Pillow)
    (ask : nat → Path → Path → option Z) (cfg : config) (image_index : Index)
    (out_dir : Path) (i : nat) (rows : list Row) (st : run_state) :
  let st' := flow_state (run_rows pil ask cfg image_index out_dir i rows st) in
  if rename_enabled_of (newname_col cfg)
  then copied_original st' = copied_original st
       ∧ converted_original st' = converted_original st
  else copied_renamed st' = copied_renamed st
       ∧ converted_renamed st' = converted_renamed st.
Proof. apply run_rows_buckets_all. Qed.

(** ** The steps of a row that has a source file *)

Section RowSteps.

Variable pil : Pillow.
Variable ask : nat → Path → Path → option Z.
Variable cfg : config.
Variable image_index : Index.
Variable out_dir : Path.

Let re := rename_enabled_of (newname_col cfg).

(** The step of a row whose path cell is present and for which the resolver
    returns a file: the destination is the first free name of the
    allocator's order, and the step goes on from there. *)
Lemma run_row_resolved i (row : Row) st raw src was_fallback :
  row !! image_col cfg = Some (Val raw) →
  (re = true → is_Some (row !! newname_col cfg)) →
  find_image_file (fs st) image_index (preferred_ext cfg)
    (Py.lower (path_stem (path_name raw))) = Ok (Some src, was_fallback) →
  ∃ output_stem k,
    output_stem_of cfg row (Py.lower (path_stem (path_name raw)))
    = Ok output_stem
    ∧ fs st !! candidate_path out_dir (sanitize_filename output_stem)
                 (preferred_ext cfg) k = None
    ∧ (∀ j, j < k →
         path_exists (fs st)
           (candidate_path out_dir (sanitize_filename output_stem)
              (preferred_ext cfg) j) = true)
    ∧ run_row pil ask cfg image_index out_dir i row st
      = let dest_path :=
          candidate_path out_dir (sanitize_filename output_stem)
            (preferred_ext cfg) k in
        let st1 :=
          log (CallResolver (Py.lower (path_stem (path_name raw)))) st in
        if py_not was_fallback then
          let st2 := log (LogCopyPreferred src dest_path) st1 in
          match copy2 (fs st) src dest_path with
          | Ok fs' => Next (count_copied re (set_fs fs' st2))
          | Raise e => Raised e st2
          end
        else
          match conversion_dialog ask cfg i src dest_path
                  (log (LogFallbackFound src) st1) with
          | CancelAll st2 => Return st2
          | SkipRow st2 => Next st2
          | Proceed st2 =>
              fallback_action pil cfg row (path_name raw) src dest_path st2
          end.
Proof.
  intros Hcell Hrename Hres.
  destruct (output_stem_of_Ok cfg row (Py.lower (path_stem (path_name raw)))
              Hrename) as [output_stem Hstem].
  destruct (first_free_candidate (fs st) out_dir output_stem
              (preferred_ext cfg)) as (k & Hfree & Hbelow).
  exists output_stem, k. split_and!; [done|by apply path_exists_false|done|].
  unfold run_row, row_get. rewrite Hcell. cbn [isna cell_str].
  rewrite Hstem. cbn [fs log]. rewrite Hres.
  by rewrite (resolve_output_path_least (fs st) out_dir output_stem
                (preferred_ext cfg) k Hfree Hbelow).
Qed.

Lemma conversion_dialog_shown i src dst st :
  fallback_mode cfg = "convert" →
  preview_toggle cfg = "Show preview before overwriting" →
  convert_all_mode st = false →
  conversion_dialog ask cfg i src dst st
  = let st1 := log (ShowConversionDialog src dst re) st in
    match ask i src dst with
    | Some (-1)%Z => CancelAll (log LogCancelled st1)
    | Some 0%Z => SkipRow (log LogSkipped st1)
    | Some 2%Z => Proceed (set_convert_all (log LogConvertAll st1))
    | _ => Proceed st1
    end.
Proof.
  intros Hmode Hprev Hall. unfold conversion_dialog.
  by rewrite Hmode, Hprev, Hall.
Qed.

Lemma conversion_dialog_not_shown i src dst st :
  preview_on cfg = false ∨ convert_all_mode st = true →
  conversion_dialog ask cfg i src dst st = Proceed st.
Proof.
  unfold conversion_dialog, preview_on.
  destruct (bool_decide (fallback_mode cfg ∈ _)); [|done].
  destruct (bool_decide (fallback_mode cfg = "convert")); [|done].
  destruct (convert_all_mode st); [done|].
  destruct (bool_decide (preview_toggle cfg = _)); [|done].
  by intros [?|?].
Qed.

End RowSteps.

(** X10. Cancel All: when the conversion dialog is shown for a row and the
    user presses Cancel All, the run returns at once: apart from the log
    entry, the files, the counters and the not-found rows stay as they
    were, and the rows after it are not processed. *)
Theorem run_rows_cancel (pil : Pillow)
    (ask : nat → Path → Path → option Z) (cfg : config) (image_index : Index)
    (out_dir : Path) (i : nat) (row : Row) (rest : list Row)
    (st : run_state) (raw : string) (src : Path)
    (Hmode : fallback_mode cfg = "convert")
    (Hprev : preview_toggle cfg = "Show preview before overwriting")
    (Hall : convert_all_mode st = false)
    (Hcell : row !! image_col cfg = Some (Val raw))
    (Hrename : rename_enabled_of (newname_col cfg) = true →
               is_Some (row !! newname_col cfg))
    (Hres : find_image_file (fs st) image_index (preferred_ext cfg)
              (Py.lower (path_stem (path_name raw)))
            = Ok (Some src, Some true))
    (Hask : ∀ dst, ask i src dst = dialog_exec (Some CancelButton)) :
  ∃ st', run_rows pil ask cfg image_index out_dir i (row :: rest) st
         = Return st'
    ∧ quiet st st'.
Proof.
  destruct (run_row_resolved pil ask cfg image_index out_dir i row st raw src
              (Some true) Hcell Hrename Hres)
    as (output_stem & k & _ & _ & _ & Hrun).
  cbn [run_rows]. rewrite Hrun. cbn zeta. cbn [py_not].
  rewrite conversion_dialog_shown by done. cbn zeta. rewrite Hask. simpl.
  by eexists.
Qed.

(** X11. Skip: when the user presses Skip in the conversion dialog of a
    row, the loop goes on to the next row and the skipped row leaves no
    mark but a log entry: no file is written, no counter moves, and the row
    is not recorded as not found. *)
Theorem run_row_skip (pil : Pillow)
    (ask : nat → Path → Path → option Z) (cfg : config) (image_index : Index)
    (out_dir : Path) (i : nat) (row : Row)
    (st : run_state) (raw : string) (src : Path)
    (Hmode : fallback_mode cfg = "convert")
    (Hprev : preview_toggle cfg = "Show preview before overwriting")
    (Hall : convert_all_mode st = false)
    (Hcell : row !! image_col cfg = Some (Val raw))
    (Hrename : rename_enabled_of (newname_col cfg) = true →
               is_Some (row !! newname_col cfg))
    (Hres : find_image_file (fs st) image_index (preferred_ext cfg)
              (Py.lower (path_stem (path_name raw)))
            = Ok (Some src, Some true))
    (Hask : ∀ dst, ask i src dst = dialog_exec (Some SkipButton)) :
  ∃ st', run_row pil ask cfg image_index out_dir i row st = Next st'
    ∧ quiet st st'.
Proof.
  destruct (run_row_resolved pil ask cfg image_index out_dir i row st raw src
              (Some true) Hcell Hrename Hres)
    as (output_stem & k & _ & _ & _ & Hrun).
  rewrite Hrun. cbn zeta. cbn [py_not].
  rewrite conversion_dialog_shown by done. cbn zeta. rewrite Hask. simpl.
  by eexists.
Qed.

Lemma run_rows_cancel_witness :
  ∃ st', run_rows plain_pil (always_press CancelButton) sample_cfg_preview
           sample_index "out" 1 [row_sku; row_widget] (initial_state sample_fs)
         = Return st'
    ∧ quiet (initial_state sample_fs) st'.
Proof.
  apply (run_rows_cancel plain_pil (always_press CancelButton)
           sample_cfg_preview sample_index "out" 1 row_sku [row_widget]
           (initial_state sample_fs) "SKU123.tif" "img/sku123.png");
    try reflexivity.
  intros _. by eexists.
Defined.

Lemma run_row_skip_witness :
  ∃ st', run_row plain_pil (always_press SkipButton) sample_cfg_preview
           sample_index "out" 1 row_sku (initial_state sample_fs)
         = Next st'
    ∧ quiet (initial_state sample_fs) st'.
Proof.
  apply (run_row_skip plain_pil (always_press SkipButton)
           sample_cfg_preview sample_index "out" 1 row_sku
           (initial_state sample_fs) "SKU123.tif" "img/sku123.png");
    try reflexivity.
  intros _. by eexists.
Defined.

Section DialogFacts.

Variable pil : Pillow.
Variable cfg : config.
Variable image_index : Index.
Variable out_dir : Path.

Lemma run_row_dialog_not_shown ask ask' i (row : Row) st :
  preview_on cfg = false ∨ convert_all_mode st = true →
  run_row pil ask cfg image_index out_dir i row st
  = run_row pil ask' cfg image_index out_dir i row st.
Proof.
  intros Hoff. unfold run_row.
  destruct (row_get row (image_col cfg)) as [raw_path|]; [|done].
  destruct (isna raw_path); [done|].
  destruct (output_stem_of cfg row _) as [output_stem|]; [|done].
  destruct (find_image_file _ image_index (preferred_ext cfg) _)
    as [[[src_path|] was_fallback]|]; [|done..].
  destruct (resolve_output_path _ out_dir output_stem _) as [dest_path|];
    [|done].
  destruct (py_not was_fallback); [done|].
  cbn zeta. by rewrite !conversion_dialog_not_shown.
Qed.

Lemma run_rows_dialog_not_shown ask ask' i (rows : list Row) st :
  preview_on cfg = false ∨ convert_all_mode st = true →
  run_rows pil ask cfg image_index out_dir i rows st
  = run_rows pil ask' cfg image_index out_dir i rows st.
Proof.
  revert i st. induction rows as [|row rest IH]; intros i st Hoff; [done|].
  cbn [run_rows]. rewrite (run_row_dialog_not_shown ask ask' i row st Hoff).
  destruct (run_row_cases pil ask' cfg image_index out_dir i row st)
    as [_ Hmono].
  destruct (run_row pil ask' cfg image_index out_dir i row st) as [st1| | |];
    [|done..].
  apply IH. destruct Hoff as [?|Hall]; [by left|]. right. by apply Hmono.
Qed.

Lemma run_row_closed_is_convert ask ask' i (row : Row) st :
  (∀ src dst, ask i src dst = dialog_exec None) →
  (∀ src dst, ask' i src dst = dialog_exec (Some ConvertButton)) →
  run_row pil ask cfg image_index out_dir i row st
  = run_row pil ask' cfg image_index out_dir i row st.
Proof.
  intros Hask Hask'. unfold run_row.
  destruct (row_get row (image_col cfg)) as [raw_path|]; [|done].
  destruct (isna raw_path); [done|].
  destruct (output_stem_of cfg row _) as [output_stem|]; [|done].
  destruct (find_image_file _ image_index (preferred_ext cfg) _)
    as [[[src_path|] was_fallback]|]; [|done..].
  destruct (resolve_output_path _ out_dir output_stem _) as [dest_path|];
    [|done].
  destruct (py_not was_fallback); [done|].
  cbn zeta. unfold conversion_dialog. by rewrite Hask, Hask'.
Qed.

End DialogFacts.

(** X12. The user is consulted only where the dialog can be shown: in a
    run with the preview off or a fallback policy other than convert, and
    from the moment "convert all" is in force, the loop processes the rows
    in the same way whatever the answers would be. *)
Theorem run_rows_answers_irrelevant (pil : Pillow)
    (ask ask' : nat → Path → Path → option Z) (cfg : config)
    (image_index : Index) (out_dir : Path) (i : nat) (rows : list Row)
    (st : run_state)
    (Hoff : preview_on cfg = false ∨ convert_all_mode st = true) :
  run_rows pil ask cfg image_index out_dir i rows st
  = run_rows pil ask' cfg image_index out_dir i rows st.
Proof. by apply run_rows_dialog_not_shown. Qed.

Lemma run_rows_answers_irrelevant_witness :
  run_rows plain_pil (always_press CancelButton) sample_cfg sample_index "out"
    1 [row_sku; row_widget] (initial_state sample_fs)
  = run_rows plain_pil no_answer sample_cfg sample_index "out"
      1 [row_sku; row_widget] (initial_state sample_fs).
Proof.
  apply (run_rows_answers_irrelevant plain_pil (always_press CancelButton)
           no_answer sample_cfg sample_index "out" 1 [row_sku; row_widget]
           (initial_state sample_fs)).
  left. reflexivity.
Defined.

(** X13. A conversion dialog that is closed without a button counts as
    approval: the row is processed exactly as if Convert had been
    pressed. *)
Theorem run_row_closed_dialog_converts (pil : Pillow)
    (ask ask' : nat → Path → Path → option Z) (cfg : config)
    (image_index : Index) (out_dir : Path) (i : nat) (row : Row)
    (st : run_state)
    (Hask : ∀ src dst, ask i src dst = dialog_exec None)
    (Hask' : ∀ src dst, ask' i src dst = dialog_exec (Some ConvertButton)) :
  run_row pil ask cfg image_index out_dir i row st
  = run_row pil ask' cfg image_index out_dir i row st.
Proof. by apply run_row_closed_is_convert. Qed.

Lemma run_row_closed_dialog_converts_witness :
  run_row plain_pil no_answer sample_cfg_preview sample_index "out" 1 row_sku
    (initial_state sample_fs)
  = run_row plain_pil (always_press ConvertButton) sample_cfg_preview
      sample_index "out" 1 row_sku (initial_state sample_fs)
  ∧ ∃ st', run_row plain_pil no_answer sample_cfg_preview sample_index "out"
             1 row_sku (initial_state sample_fs) = Next st'
      ∧ counters st' = (0, 0, 0, 1).
Proof.
  split.
  - apply (run_row_closed_dialog_converts plain_pil no_answer
             (always_press ConvertButton) sample_cfg_preview sample_index
             "out" 1 row_sku (initial_state sample_fs)); reflexivity.
  - eexists. split; reflexivity.
Defined.

(** X14. Whenever the engine copies (the resolver returns a file of the
    preferred extension, or a fallback under the policy "copy"), the
    destination is the first free name of the allocator's order for the
    output stem and the preferred extension, it did not exist before, and
    it receives exactly the bytes of the source, whatever the extension of
    the source.  Exactly one counter goes up, by one: "copied renamed" when
    a rename column is selected for the run, "copied original" when none
    is; the other counters and the not-found rows stay as they were. *)
Theorem run_row_copies (pil : Pillow)
    (ask : nat → Path → Path → option Z) (cfg : config) (image_index : Index)
    (out_dir : Path) (i : nat) (row : Row) (st : run_state)
    (raw : string) (src : Path) (was_fallback : option bool)
    (content : list Byte.byte)
    (Hcell : row !! image_col cfg = Some (Val raw))
    (Hrename : rename_enabled_of (newname_col cfg) = true →
               is_Some (row !! newname_col cfg))
    (Hres : find_image_file (fs st) image_index (preferred_ext cfg)
              (Py.lower (path_stem (path_name raw)))
            = Ok (Some src, was_fallback))
    (Hcopy : was_fallback = Some false
             ∨ (was_fallback = Some true ∧ fallback_mode cfg = "copy"))
    (Hsrc : fs st !! src = Some (File content)) :
  ∃ output_stem k st',
    let dest_path :=
      candidate_path out_dir (sanitize_filename output_stem)
        (preferred_ext cfg) k in
    output_stem_of cfg row (Py.lower (path_stem (path_name raw)))
    = Ok output_stem
    ∧ fs st !! dest_path = None
    ∧ (∀ j, j < k →
         path_exists (fs st)
           (candidate_path out_dir (sanitize_filename output_stem)
              (preferred_ext cfg) j) = true)
    ∧ run_row pil ask cfg image_index out_dir i row st = Next st'
    ∧ fs st' = <[dest_path := File content]> (fs st)
    ∧ counters st'
      = (if rename_enabled_of (newname_col cfg)
         then copied_original st else copied_original st + 1,
         if rename_enabled_of (newname_col cfg)
         then copied_renamed st + 1 else copied_renamed st,
         converted_original st, converted_renamed st)
    ∧ not_found_rows st' = not_found_rows st.
Proof.
  destruct (run_row_resolved pil ask cfg image_index out_dir i row st raw src
              was_fallback Hcell Hrename Hres)
    as (output_stem & k & Hstem & Hfree & Hbelow & Hrun).
  exists output_stem, k. rewrite Hrun. cbn zeta.
  destruct Hcopy as [->|[-> Hmode]]; cbn [py_not].
  - unfold copy2. rewrite Hsrc. eexists. split_and!; done.
  - unfold conversion_dialog, fallback_action. rewrite Hmode. simpl.
    unfold copy2. rewrite Hsrc. eexists. split_and!; done.
Qed.

Lemma run_row_copies_witness :
  ∃ st', run_row plain_pil no_answer sample_cfg_copy sample_index "." 1
           (row_vendor "x/SKU123.tif" "Acme")
           (initial_state (<["sku123.jpg" := File []]> sample_fs))
         = Next st'
    ∧ fs st' = <["sku123_1.jpg" := File [Byte.x01; Byte.x02]]>
                 (<["sku123.jpg" := File []]> sample_fs)
    ∧ counters st' = (1, 0, 0, 0).
Proof.
  destruct (run_row_copies plain_pil no_answer sample_cfg_copy sample_index
              "." 1 (row_vendor "x/SKU123.tif" "Acme")
              (initial_state (<["sku123.jpg" := File []]> sample_fs))
              "x/SKU123.tif" "img/sku123.png"
              (Some true) [Byte.x01; Byte.x02])
    as (output_stem & k & st' & _ & _ & _ & Hrun & _).
  - reflexivity.
  - intros H. discriminate H.
  - reflexivity.
  - right. split; reflexivity.
  - reflexivity.
  - vm_compute in Hrun. injection Hrun as <-.
    eexists. split; [reflexivity|]. split; reflexivity.
Defined.

(** X15. Under the policy "convert", where the dialog is not shown, a
    fallback is converted to the first free name of the allocator's order.
    If the conversion succeeds, the destination is written and exactly one
    counter goes up, by one: "converted renamed" when a rename column is
    selected for the run, "converted original" when none is.  If the image
    library raises (a source it cannot read, a mode the format cannot
    hold), the run ends with that exception and the rows after it are not
    processed; the counters and the not-found rows stay as they were, and
    so do the files but for the destination, which a failed save may leave
    behind partially written. *)
Theorem run_rows_converts_or_aborts (pil : Pillow)
    (ask : nat → Path → Path → option Z) (cfg : config) (image_index : Index)
    (out_dir : Path) (i : nat) (row : Row) (rest : list Row)
    (st : run_state) (raw : string) (src : Path)
    (Hmode : fallback_mode cfg = "convert")
    (Hoff : preview_on cfg = false ∨ convert_all_mode st = true)
    (Hcell : row !! image_col cfg = Some (Val raw))
    (Hrename : rename_enabled_of (newname_col cfg) = true →
               is_Some (row !! newname_col cfg))
    (Hres : find_image_file (fs st) image_index (preferred_ext cfg)
              (Py.lower (path_stem (path_name raw)))
            = Ok (Some src, Some true)) :
  ∃ output_stem k,
    let dest_path :=
      candidate_path out_dir (sanitize_filename output_stem)
        (preferred_ext cfg) k in
    output_stem_of cfg row (Py.lower (path_stem (path_name raw)))
    = Ok output_stem
    ∧ fs st !! dest_path = None
    ∧ (∀ j, j < k →
         path_exists (fs st)
           (candidate_path out_dir (sanitize_filename output_stem)
              (preferred_ext cfg) j) = true)
    ∧ match convert_image pil (fs st) src dest_path with
      | (fs', None) =>
          ∃ st' content,
            run_row pil ask cfg image_index out_dir i row st = Next st'
            ∧ fs st' = fs'
            ∧ fs' = <[dest_path := File content]> (fs st)
            ∧ counters st'
              = (copied_original st, copied_renamed st,
                 if rename_enabled_of (newname_col cfg)
                 then converted_original st else converted_original st + 1,
                 if rename_enabled_of (newname_col cfg)
                 then converted_renamed st + 1 else converted_renamed st)
            ∧ not_found_rows st' = not_found_rows st
      | (fs', Some e) =>
          ∃ st', run_rows pil ask cfg image_index out_dir i (row :: rest) st
                 = Raised e st'
            ∧ fs st' = fs'
            ∧ (fs' = fs st
               ∨ ∃ partial, fs' = <[dest_path := File partial]> (fs st))
            ∧ counters st' = counters st
            ∧ not_found_rows st' = not_found_rows st
      end.
Proof.
  destruct (run_row_resolved pil ask cfg image_index out_dir i row st raw src
              (Some true) Hcell Hrename Hres)
    as (output_stem & k & Hstem & Hfree & Hbelow & Hrun).
  exists output_stem, k. cbn zeta. split_and!; [done..|].
  cbn [run_rows]. rewrite Hrun. cbn zeta. cbn [py_not].
  rewrite conversion_dialog_not_shown by done.
  unfold fallback_action. rewrite Hmode. simpl.
  pose proof (convert_image_cases pil (fs st) src
                (candidate_path out_dir (sanitize_filename output_stem)
                   (preferred_ext cfg) k)) as Hcases.
  destruct (convert_image pil (fs st) src _) as [fs' [e|]].
  - eexists. split_and!; done.
  - destruct Hcases as [content Hfs]. eexists _, content.
    split_and!; done.
Qed.

Lemma run_rows_converts_or_aborts_witness :
  ∃ st', run_rows blind_pil no_answer sample_cfg sample_index "out" 1
           [row_sku; row_widget] (initial_state sample_fs)
         = Raised (ConversionError "img/sku123.png") st'
    ∧ fs st' = sample_fs
    ∧ counters st' = (0, 0, 0, 0).
Proof.
  destruct (run_rows_converts_or_aborts blind_pil no_answer sample_cfg
              sample_index "out" 1 row_sku [row_widget]
              (initial_state sample_fs) "SKU123.tif" "img/sku123.png")
    as (output_stem & k & Hstem & _ & _ & Hstep).
  - reflexivity.
  - left. reflexivity.
  - reflexivity.
  - intros _. by eexists.
  - reflexivity.
  - cbn zeta in Hstep.
    assert (Hfail : ∀ dst,
      convert_image blind_pil (fs (initial_state sample_fs))
        "img/sku123.png" dst
      = (sample_fs, Some (ConversionError "img/sku123.png")))
      by (intros dst; reflexivity).
    rewrite Hfail in Hstep.
    destruct Hstep as (st' & Hrun & Hfs & _ & Hcnt & _).
    by exists st'.
Defined.

(** An image of mode LA, which is not flattened and cannot be written as
    JPEG: the run ends with the exception of the image library, and with a
    library that does not clean up, the destination is left behind
    empty. *)
Example run_rows_save_fails :
  run_rows grey_pil no_answer sample_cfg sample_index "out" 1
    [row_sku; row_widget] (initial_state sample_fs)
  = Raised (ConversionError "out/newname.jpg")
      {| copied_original := 0; copied_renamed := 0;
         converted_original := 0; converted_renamed := 0;
         not_found_rows := []; convert_all_mode := false;
         fs := <["out/newname.jpg" := File []]> sample_fs;
         trace := [CallResolver "sku123";
                   LogFallbackFound "img/sku123.png";
                   LogConvertFallback "img/sku123.png" "out/newname.jpg"] |}.
Proof. vm_compute. reflexivity. Qed.

(** ** The output stem *)

Lemma illegal_not_space c : c ∈ illegal_chars → Py.is_space c = false.
Proof.
  unfold illegal_chars. rewrite !elem_of_cons, elem_of_nil.
  intros H. repeat (destruct H as [->|H]; [reflexivity|]). done.
Qed.

Lemma rstrip_fixed l :
  (∀ c, last l = Some c → Py.is_space c = false) → Py.rstrip_chars l = l.
Proof.
  intros H. unfold Py.rstrip_chars.
  rewrite lstrip_fixed; [apply reverse_involutive|].
  intros c. rewrite head_reverse. apply H.
Qed.

Lemma strip_fixed l :
  (∀ c, head l = Some c ∨ last l = Some c → Py.is_space c = false) →
  Py.strip_chars l = l.
Proof.
  intros H. unfold Py.strip_chars.
  rewrite (lstrip_fixed l) by (intros c Hc; apply H; by left).
  apply rstrip_fixed. intros c Hc. apply H. by right.
Qed.

Lemma filter_illegal_nil (l : list ascii) :
  Forall (λ c, c ∈ illegal_chars) l → filter (λ c, is_illegal c = false) l = [].
Proof.
  induction 1 as [|c l Hc _ IH]; [done|].
  rewrite filter_cons_False; [done|].
  rewrite is_illegal_false. by intros Hlegal.
Qed.

(** X16. The rename value is tested for blankness before it is sanitized:
    with a rename column selected, a value made only of illegal characters
    is taken as supplied and gives the empty output stem, not the original
    stem. *)
Theorem output_stem_all_illegal (cfg : config) (row : Row)
    (original_stem v : string)
    (Henabled : rename_enabled_of (newname_col cfg) = true)
    (Hcell : row !! newname_col cfg = Some (Val v))
    (Hne : v ≠ "")
    (Hillegal : Forall (λ c, c ∈ illegal_chars) (Py.chars v)) :
  rename_supplied (Val v) = true
  ∧ output_stem_of cfg row original_stem = Ok "".
Proof.
  assert (Hstrip : Py.strip v = v).
  { apply chars_inj. rewrite strip_chars_eq. apply strip_fixed.
    intros c Hc. apply illegal_not_space.
    rewrite Forall_forall in Hillegal. apply Hillegal.
    destruct Hc as [Hc|Hc].
    - by apply head_Some_elem_of.
    - by apply last_Some_elem_of. }
  assert (Hsupplied : rename_supplied (Val v) = true).
  { unfold rename_supplied. simpl. rewrite Hstrip. by destruct v. }
  split; [done|].
  unfold output_stem_of, row_get. rewrite Henabled, Hcell. simpl.
  rewrite Hsupplied. simpl. rewrite Hstrip. f_equal.
  apply chars_inj. rewrite sanitize_chars.
  by rewrite (filter_illegal_nil _ Hillegal).
Qed.

Lemma output_stem_all_illegal_witness :
  output_stem_of sample_cfg {[ "NewName" := Val "??*" ]} "widget" = Ok "".
Proof.
  apply (output_stem_all_illegal sample_cfg {[ "NewName" := Val "??*" ]}
           "widget" "??*").
  - reflexivity.
  - reflexivity.
  - discriminate.
  - repeat constructor.
Defined.

(** ** Sanitizer *)

(** X17. The names the sanitizer leaves as they are are exactly those
    without an illegal character and without whitespace at either end. *)
Theorem sanitize_filename_fixed_iff (s : string) :
  sanitize_filename s = s
  ↔ Forall (λ c, c ∉ illegal_chars) (Py.chars s)
    ∧ ∀ c, head (Py.chars s) = Some c ∨ last (Py.chars s) = Some c →
           Py.is_space c = false.
Proof.
  split.
  - intros Hfix. rewrite <- Hfix. split; [apply sanitize_legal|].
    intros c. rewrite sanitize_chars. intros [H|H].
    + by apply strip_head in H.
    + by apply strip_last in H.
  - intros [Hlegal Hends]. apply chars_inj.
    rewrite sanitize_chars, filter_legal_id by done.
    by apply strip_fixed.
Qed.

(** ** The vendor box and the vendor filter *)

Lemma vendor_select_filter pd cfg (rows : list Row) :
  Forall (λ row : Row, is_Some (row !! vendor_col cfg)) rows →
  vendor_select pd cfg rows
  = Ok (filter (λ row, vendor_matches pd cfg row = true) rows).
Proof.
  induction 1 as [|row rows [c Hc] _ IH]; [done|].
  cbn [vendor_select]. unfold row_get. rewrite Hc, IH. simpl.
  destruct (vendor_equal pd cfg c) eqn:Hm.
  - rewrite filter_cons_True; [done|]. unfold vendor_matches. by rewrite Hc.
  - rewrite filter_cons_False; [done|]. unfold vendor_matches.
    rewrite Hc, Hm. done.
Qed.

Lemma vendor_select_missing pd cfg (before after : list Row) (row : Row) :
  Forall (λ row : Row, is_Some (row !! vendor_col cfg)) before →
  row !! vendor_col cfg = None →
  vendor_select pd cfg (before ++ row :: after)
  = Raise (KeyError (vendor_col cfg)).
Proof.
  intros Hbefore Hrow. induction Hbefore as [|r before [c Hc] _ IH]; simpl.
  - unfold row_get. by rewrite Hrow.
  - unfold row_get at 1. rewrite Hc. simpl. by rewrite IH.
Qed.

Lemma vendor_filter_active pd cfg (rows : list Row) :
  vendor_col cfg ≠ "" → vendor_value cfg ≠ "All Vendors" →
  vendor_filter pd cfg rows = vendor_select pd cfg rows.
Proof.
  intros Hcol Hval. unfold vendor_filter.
  assert (Py.truthy (vendor_col cfg) = true) as ->
    by (by destruct (vendor_col cfg)).
  by rewrite bool_decide_eq_true_2 by done.
Qed.

Lemma vendor_matches_value pd cfg (row : Row) s :
  row !! vendor_col cfg = Some (Val s) →
  vendor_matches pd cfg row = true ↔ Py.strip s = vendor_value cfg.
Proof.
  intros Hc. unfold vendor_matches, vendor_equal. rewrite Hc. simpl.
  apply bool_decide_eq_true.
Qed.

(** X19. The vendor filter: without a vendor column, or with "All Vendors"
    selected, every row is kept; otherwise exactly the rows are kept, in
    order, whose vendor cell, rendered as a string by [astype(str)] and
    stripped, equals the selection, and the filter raises [KeyError] if a
    row lacks the column.  A cell with a value is rendered as that value.
    A missing cell is rendered as the spreadsheet library does, which the
    program leaves open: where the cell stays missing the row is never
    kept, and where it becomes a text the row is kept exactly when that
    text, stripped, is the selection. *)
Theorem vendor_filter_spec (pd : Pandas) (cfg : config) (rows : list Row) :
  (vendor_col cfg = "" ∨ vendor_value cfg = "All Vendors" →
   vendor_filter pd cfg rows = Ok rows)
  ∧ (vendor_col cfg ≠ "" → vendor_value cfg ≠ "All Vendors" →
     (Forall (λ row : Row, is_Some (row !! vendor_col cfg)) rows →
      vendor_filter pd cfg rows
      = Ok (filter (λ row, vendor_matches pd cfg row = true) rows))
     ∧ (∀ before row after,
          rows = before ++ row :: after →
          Forall (λ row : Row, is_Some (row !! vendor_col cfg)) before →
          row !! vendor_col cfg = None →
          vendor_filter pd cfg rows = Raise (KeyError (vendor_col cfg))))
  ∧ (∀ (row : Row) s, row !! vendor_col cfg = Some (Val s) →
       vendor_matches pd cfg row = true ↔ Py.strip s = vendor_value cfg)
  ∧ (∀ row : Row, row !! vendor_col cfg = Some NaN →
       vendor_matches pd cfg row = true
       ↔ ∃ s, astype_str_na pd = Some s ∧ Py.strip s = vendor_value cfg).
Proof.
  unfold vendor_filter. split_and!.
  - intros [Hcol|Hval].
    + by rewrite Hcol.
    + rewrite Hval. rewrite (bool_decide_eq_false_2 (_ ≠ _)) by (by intros []).
      by rewrite andb_false_r.
  - intros Hcol Hval. fold (vendor_filter pd cfg rows).
    rewrite vendor_filter_active by done. split.
    + apply vendor_select_filter.
    + intros before row after -> Hbefore Hrow.
      by apply vendor_select_missing.
  - intros row s. apply vendor_matches_value.
  - intros row Hc. unfold vendor_matches, vendor_equal. rewrite Hc. simpl.
    destruct (astype_str_na pd) as [s|].
    + rewrite bool_decide_eq_true. split.
      * intros Hs. by exists s.
      * by intros (s' & [= <-] & Hs).
    + split; [done|]. by intros (s & ? & _).
Qed.

(** A missing vendor cell and the selection "nan": the row is kept by a
    library that renders the cell as that text, and dropped by one that
    leaves the cell missing. *)
Example vendor_filter_missing_cell :
  let cfg :=
    {| image_col := "Image"; newname_col := ""; vendor_col := "Vendor";
       vendor_value := "nan"; base_edit := "img"; out_edit := "out";
       preferred_ext := ".jpg"; fallback_mode := "copy";
       preview_toggle := "" |} in
  let row : Row := {[ "Image" := Val "a.jpg"; "Vendor" := NaN ]} in
  vendor_filter no_excel cfg [row] = Ok [row]
  ∧ vendor_filter tally_excel cfg [row] = Ok [].
Proof. split; reflexivity. Qed.

Lemma unique_from_elem_of seen l x :
  x ∈ unique_from seen l ↔ x ∈ l ∧ x ∉ seen.
Proof.
  revert seen. induction l as [|y l IH]; intros seen; simpl.
  - rewrite elem_of_nil. tauto.
  - case_bool_decide as Hy.
    + rewrite IH, elem_of_cons. split; [tauto|].
      intros [[->|Hx] Hseen]; [done|tauto].
    + rewrite elem_of_cons, IH, !elem_of_cons. split.
      * intros [->|[Hx Hseen]]; [tauto|]. split; [tauto|]. tauto.
      * intros [[->|Hx] Hseen]; [tauto|].
        destruct (decide (x = y)) as [->|Hne]; [tauto|]. right. tauto.
Qed.

Lemma unique_from_NoDup seen l : NoDup (unique_from seen l).
Proof.
  revert seen. induction l as [|y l IH]; intros seen; simpl; [constructor|].
  case_bool_decide as Hy; [apply IH|].
  constructor; [|apply IH].
  rewrite unique_from_elem_of, elem_of_cons. tauto.
Qed.

Lemma column_values_elem_of (rows : list Row) col vs v :
  column_values rows col = Ok vs →
  Forall (λ row : Row, is_Some (row !! col)) rows
  ∧ (v ∈ vs ↔ ∃ (row : Row) s,
       row ∈ rows ∧ row !! col = Some (Val s) ∧ Py.strip s = v).
Proof.
  revert vs. induction rows as [|row rows IH]; intros vs; simpl.
  - intros [= <-]. split; [constructor|]. rewrite elem_of_nil.
    split; [done|]. intros (row & s & Hrow%elem_of_nil & _). done.
  - unfold row_get. destruct (row !! col) as [c|] eqn:Hc; [|done]. simpl.
    destruct (column_values rows col) as [vs'|]; [|done]. simpl.
    intros [= <-]. destruct (IH vs' eq_refl) as [Hall Hiff].
    split; [constructor; [by eexists|done]|].
    destruct c as [|s]; simpl.
    + rewrite Hiff. split.
      * intros (r & s & Hr & Hs & Hv). exists r, s. split; [by right|done].
      * intros (r & s & Hr & Hs & Hv).
        apply elem_of_cons in Hr as [->|Hr]; [congruence|].
        by exists r, s.
    + rewrite elem_of_cons, Hiff. split.
      * intros [->|(r & s' & Hr & Hs & Hv)].
        -- exists row, s. split; [by left|done].
        -- exists r, s'. split; [by right|done].
      * intros (r & s' & Hr & Hs & Hv).
        apply elem_of_cons in Hr as [->|Hr].
        -- left. congruence.
        -- right. by exists r, s'.
Qed.

Lemma update_vendor_list_items (rows : list Row) col en items :
  col ≠ "" →
  update_vendor_list (Some rows) col = Ok (en, items) →
  ∃ vendors, column_values rows col = Ok vendors
    ∧ en = true
    ∧ items = "All Vendors" :: sorted_strings (unique vendors).
Proof.
  intros Hcol. unfold update_vendor_list.
  assert (Py.truthy col = true) as -> by (by destruct col). simpl.
  destruct (column_values rows col) as [vendors|]; [|done]. simpl.
  intros [= <- <-]. by exists vendors.
Qed.

(** X20. The vendor box, for a loaded sheet and a selected vendor column:
    it is enabled; its first item is "All Vendors"; the items after it are
    in ascending order, without repetition, and are exactly the stripped
    string values of the vendor cells that are not missing. *)
Theorem update_vendor_list_spec (rows : list Row) (col : string) (en : bool)
    (items : list string)
    (Hcol : col ≠ "")
    (Hlist : update_vendor_list (Some rows) col = Ok (en, items)) :
  ∃ vs, items = "All Vendors" :: vs
    ∧ en = true
    ∧ StronglySorted String.le vs
    ∧ NoDup vs
    ∧ ∀ v, v ∈ vs ↔ ∃ (row : Row) s,
        row ∈ rows ∧ row !! col = Some (Val s) ∧ Py.strip s = v.
Proof.
  destruct (update_vendor_list_items rows col en items Hcol Hlist)
    as (vendors & Hvendors & -> & ->).
  exists (sorted_strings (unique vendors)). unfold sorted_strings.
  split_and!; [done..| | |].
  - apply (StronglySorted_merge_sort String.le).
  - rewrite (merge_sort_Permutation String.le). apply unique_from_NoDup.
  - intros v. rewrite (merge_sort_Permutation String.le).
    unfold unique. rewrite unique_from_elem_of.
    destruct (column_values_elem_of rows col vendors v Hvendors) as [_ <-].
    rewrite elem_of_nil. tauto.
Qed.

Lemma update_vendor_list_spec_witness :
  update_vendor_list
    (Some [row_vendor "a.jpg" " Zeta "; row_vendor "b.jpg" "Acme";
           {[ "Image" := Val "c.jpg"; "Vendor" := NaN ]};
           row_vendor "d.jpg" "Zeta"]) "Vendor"
  = Ok (true, ["All Vendors"; "Acme"; "Zeta"])
  ∧ ∃ vs, ["All Vendors"; "Acme"; "Zeta"] = "All Vendors" :: vs
      ∧ NoDup vs.
Proof.
  assert (Hlist : update_vendor_list
    (Some [row_vendor "a.jpg" " Zeta "; row_vendor "b.jpg" "Acme";
           {[ "Image" := Val "c.jpg"; "Vendor" := NaN ]};
           row_vendor "d.jpg" "Zeta"]) "Vendor"
    = Ok (true, ["All Vendors"; "Acme"; "Zeta"])) by reflexivity.
  split; [exact Hlist|].
  destruct (update_vendor_list_spec _ "Vendor" _ _ ltac:(discriminate) Hlist)
    as (vs & Hitems & _ & _ & Hnodup & _).
  by exists vs.
Defined.

(** X21. Every vendor the box offers selects something: with a listed
    vendor other than "All Vendors" chosen, the filter succeeds and keeps
    at least one row, and every row it keeps has that vendor. *)
Theorem vendor_choice_selects_rows (pd : Pandas) (cfg : config)
    (rows : list Row)
    (en : bool) (items : list string) (v : string)
    (Hcol : vendor_col cfg ≠ "")
    (Hlist : update_vendor_list (Some rows) (vendor_col cfg) = Ok (en, items))
    (Hv : v ∈ items)
    (Hother : v ≠ "All Vendors")
    (Hchosen : vendor_value cfg = v) :
  ∃ kept, vendor_filter pd cfg rows = Ok kept
    ∧ kept ≠ []
    ∧ Forall (λ row, vendor_matches pd cfg row = true) kept.
Proof.
  destruct (update_vendor_list_items rows _ en items Hcol Hlist)
    as (vendors & Hvendors & -> & ->).
  apply elem_of_cons in Hv as [->|Hv]; [done|].
  unfold sorted_strings in Hv.
  rewrite (merge_sort_Permutation String.le) in Hv.
  unfold unique in Hv. apply unique_from_elem_of in Hv as [Hv _].
  destruct (column_values_elem_of rows _ vendors v Hvendors) as [Hall Hiff].
  apply Hiff in Hv as (row & s & Hrow & Hs & Hstrip).
  rewrite vendor_filter_active, (vendor_select_filter pd cfg rows Hall)
    by congruence.
  eexists. split; [done|]. split.
  - assert (Hin : row ∈ filter (λ row, vendor_matches pd cfg row = true) rows).
    { apply list_elem_of_filter. split; [|done].
      apply (vendor_matches_value pd cfg row s Hs). congruence. }
    intros Hnil. rewrite Hnil in Hin. by apply elem_of_nil in Hin.
  - apply Forall_forall. intros r Hr.
    by apply list_elem_of_filter in Hr as [? _].
Qed.

Lemma vendor_choice_selects_rows_witness :
  ∃ kept, vendor_filter tally_excel sample_cfg_copy
            [row_vendor "a.jpg" " Zeta "; row_vendor "b.jpg" "Acme"] = Ok kept
    ∧ kept ≠ []
    ∧ Forall (λ row, vendor_matches tally_excel sample_cfg_copy row = true)
        kept.
Proof.
  apply (vendor_choice_selects_rows tally_excel sample_cfg_copy
           [row_vendor "a.jpg" " Zeta "; row_vendor "b.jpg" "Acme"]
           true ["All Vendors"; "Acme"; "Zeta"] "Acme").
  - discriminate.
  - reflexivity.
  - right. by left.
  - discriminate.
  - reflexivity.
Defined.

(** A vendor that is itself called "All Vendors" cannot be selected: the
    choice switches the filter off. *)
Example vendor_named_all_vendors :
  update_vendor_list
    (Some [row_vendor "a.jpg" "All Vendors"; row_vendor "b.jpg" "Acme"])
    "Vendor" = Ok (true, ["All Vendors"; "Acme"; "All Vendors"]).
Proof. reflexivity. Qed.

(** ** The fallback box *)

(** X22. The fallback box and the stored policy agree: for each of the
    three policies, the item [load_settings] selects is mapped back to that
    policy by [update_fallback_mode]; any other stored value selects the
    item of "convert"; and [update_fallback_mode] yields one of the three
    policies for every text. *)
Theorem update_fallback_mode_round_trip (mode text : string) :
  (mode ∈ fallback_modes →
   update_fallback_mode <$> (fallback_items !! fallback_box_index mode)
   = Some mode)
  ∧ (mode ∉ fallback_modes →
     update_fallback_mode <$> (fallback_items !! fallback_box_index mode)
     = Some "convert")
  ∧ update_fallback_mode text ∈ fallback_modes.
Proof.
  unfold fallback_modes. split_and!.
  - rewrite !elem_of_cons, elem_of_nil.
    intros [->|[->|[->|[]]]]; reflexivity.
  - rewrite !elem_of_cons, elem_of_nil. intros Hother.
    unfold fallback_box_index.
    rewrite (bool_decide_eq_false_2 (mode = "none")) by tauto.
    rewrite (bool_decide_eq_false_2 (mode = "copy")) by tauto.
    reflexivity.
  - unfold update_fallback_mode.
    destruct (startswith text "Do nothing"); [by left|].
    destruct (startswith text "Copy"); [right; by left|].
    right. right. by left.
Qed.

(** ** The update check *)

(** X23. The constructor gets past the update check exactly when the
    request succeeds with a body that, stripped, is neither empty nor the
    running version; it then opens the browser exactly when the user
    answers Yes.  In every other case it raises. *)
Theorem init_update_check_completes_iff (r : http_response) (answer : button)
    (opened : bool) :
  init_update_check r answer = Ok opened
  ↔ ∃ text, r = HttpOk text
      ∧ Py.strip text ≠ ""
      ∧ Py.strip text ≠ APP_VERSION
      ∧ opened = match answer with Yes => true | No => false end.
Proof.
  unfold init_update_check, check_for_updates, latest_truthy.
  destruct r as [text|].
  - case_bool_decide as Hv.
    + destruct (Py.strip text) as [|c rest] eqn:Hstrip; simpl.
      * split; [done|]. by intros (t & [= <-] & Hne & _).
      * split.
        -- intros [= <-]. exists text. rewrite Hstrip. done.
        -- intros (t & [= <-] & _ & _ & ->). done.
    + split; [done|]. intros (t & [= <-] & _ & Hne & _).
      by destruct Hne.
  - split; [done|]. by intros (t & ? & _).
Qed.

(** ** Validation *)

(** X24. A run is rejected before it starts exactly when an input is
    missing: no sheet is loaded, no image-path column is selected, the
    output folder is blank, the base folder is blank, or the base folder,
    the path its stripped text denotes, does not exist. *)
Theorem run_rejected_iff (pil : Pillow) (ask : nat → Path → Path → option Z)
    (rglob : FS → Path → list Path) (pd : Pandas)
    (cfg : config) (df : option (list Row)) (fs0 : FS) :
  (∃ msg, run pil ask rglob pd cfg df fs0 = Rejected msg)
  ↔ df = None
    ∨ image_col cfg = ""
    ∨ Py.strip (out_edit cfg) = ""
    ∨ Py.strip (base_edit cfg) = ""
    ∨ path_exists fs0 (path_of (Py.strip (base_edit cfg))) = false.
Proof.
  unfold run, build_image_index.
  destruct df as [rows|]; [|split; [by left|by eexists]].
  destruct (image_col cfg) as [|c1 s1] eqn:Himg; simpl;
    [split; [by right; left|by eexists]|].
  destruct (Py.strip (out_edit cfg)) as [|c2 s2] eqn:Hout; simpl;
    [split; [by right; right; left|by eexists]|].
  destruct (Py.strip (base_edit cfg)) as [|c3 s3] eqn:Hbase; simpl;
    [split; [by right; right; right; left|by eexists]|].
  destruct (path_exists fs0 (path_of (String c3 s3))) eqn:Hex; simpl;
    [|split; [by right; right; right; right|by eexists]].
  split.
  - intros [msg Hrun].
    destruct (mkdir fs0 _); [|done].
    destruct (vendor_filter pd cfg rows); [|done].
    by destruct (run_rows _ _ _ _ _ _ _ _).
  - intros [?|[?|[?|[?|?]]]]; done.
Qed.

(** Folders as a user may type them: the base folder [./img/] is the
    folder [img], which exists, and the run is not rejected; the files go
    to the folder [out] and the report to [out/not_found_images.xlsx]. *)
Example run_typed_folders :
  ∃ st, run plain_pil no_answer walk tally_excel sample_cfg_typed
          (Some [row_widget; row_missing]) sample_fs = Finished st
    ∧ not_found_rows st = [row_missing]
    ∧ fs st = <["out/not_found_images.xlsx" := File [Byte.x2a]]>
                (<["out/widget.jpg" := File [Byte.x03]]>
                   (<["out" := Dir 0]> sample_fs)).
Proof.
  exists {| copied_original := 0; copied_renamed := 1;
            converted_original := 0; converted_renamed := 0;
            not_found_rows := [row_missing]; convert_all_mode := false;
            fs := <["out/not_found_images.xlsx" := File [Byte.x2a]]>
                    (<["out/widget.jpg" := File [Byte.x03]]>
                       (<["out" := Dir 0]> sample_fs));
            trace :=
              [LogRunStart 2 ".jpg" true "convert";
               CallResolver "widget";
               LogCopyPreferred "img/widget.jpg" "out/widget.jpg";
               LogEmptyPath;
               WriteReport "out/not_found_images.xlsx" [row_missing];
               LogSummary 2 0 1 0 0 1;
               ShowCompleted 2 0 1 0 0 1 true] |}.
  split; [vm_compute; reflexivity | split; reflexivity].
Qed.

(** ** Rows that share an output name *)

Lemma find_image_file_preferred_any_fs (fs fs' : FS) (idx : Index) pref s p :
  find_image_file fs idx pref s = Ok (Some p, Some false) →
  find_image_file fs' idx pref s = Ok (Some p, Some false).
Proof.
  unfold find_image_file.
  destruct (idx !! Py.lower s) as [cands|]; [|done].
  destruct (List.find _ cands); [done|].
  destruct (mapR _ cands) as [keyed|]; [|done]. simpl.
  by destruct (sorted_reverse keyed) as [|[n q] rest].
Qed.

Lemma run_row_copy_to pil ask cfg (image_index : Index) out_dir i (row : Row)
    st raw src content output_stem k :
  row !! image_col cfg = Some (Val raw) →
  output_stem_of cfg row (Py.lower (path_stem (path_name raw)))
  = Ok output_stem →
  find_image_file (fs st) image_index (preferred_ext cfg)
    (Py.lower (path_stem (path_name raw))) = Ok (Some src, Some false) →
  fs st !! src = Some (File content) →
  fs st !! candidate_path out_dir (sanitize_filename output_stem)
             (preferred_ext cfg) k = None →
  (∀ j, j < k →
     is_Some (fs st !! candidate_path out_dir (sanitize_filename output_stem)
                         (preferred_ext cfg) j)) →
  ∃ st', run_row pil ask cfg image_index out_dir i row st = Next st'
    ∧ fs st'
      = <[candidate_path out_dir (sanitize_filename output_stem)
            (preferred_ext cfg) k := File content]> (fs st).
Proof.
  intros Hcell Hstem Hres Hsrc Hfree Hbelow.
  unfold run_row, row_get. rewrite Hcell. cbn [isna cell_str].
  rewrite Hstem. cbn [fs log]. rewrite Hres.
  rewrite (resolve_output_path_least (fs st) out_dir output_stem
             (preferred_ext cfg) k).
  - cbn [py_not fs log]. unfold copy2. rewrite Hsrc. by eexists.
  - by apply path_exists_false.
  - intros j Hj. by apply path_exists_true, Hbelow.
Qed.

(** X25. Two consecutive rows that both have a file of the preferred
    extension and lead to the same sanitized output stem do not overwrite
    one another: with [name.ext] and [name_1.ext] free, the first is copied
    to [name.ext] and the second to [name_1.ext]. *)
Theorem run_rows_same_stem (pil : Pillow)
    (ask : nat → Path → Path → option Z) (cfg : config) (image_index : Index)
    (out_dir : Path) (i : nat) (row1 row2 : Row) (st : run_state)
    (raw1 raw2 : string) (src1 src2 : Path) (content1 content2 : list Byte.byte)
    (stem1 stem2 : string)
    (Hcell1 : row1 !! image_col cfg = Some (Val raw1))
    (Hcell2 : row2 !! image_col cfg = Some (Val raw2))
    (Hstem1 : output_stem_of cfg row1 (Py.lower (path_stem (path_name raw1)))
              = Ok stem1)
    (Hstem2 : output_stem_of cfg row2 (Py.lower (path_stem (path_name raw2)))
              = Ok stem2)
    (Hsame : sanitize_filename stem1 = sanitize_filename stem2)
    (Hres1 : find_image_file (fs st) image_index (preferred_ext cfg)
               (Py.lower (path_stem (path_name raw1)))
             = Ok (Some src1, Some false))
    (Hres2 : find_image_file (fs st) image_index (preferred_ext cfg)
               (Py.lower (path_stem (path_name raw2)))
             = Ok (Some src2, Some false))
    (Hsrc1 : fs st !! src1 = Some (File content1))
    (Hsrc2 : fs st !! src2 = Some (File content2))
    (Hfree0 : fs st !! candidate_path out_dir (sanitize_filename stem1)
                         (preferred_ext cfg) 0 = None)
    (Hfree1 : fs st !! candidate_path out_dir (sanitize_filename stem1)
                         (preferred_ext cfg) 1 = None) :
  ∃ st', run_rows pil ask cfg image_index out_dir i [row1; row2] st = Next st'
    ∧ fs st'
      = <[candidate_path out_dir (sanitize_filename stem1)
            (preferred_ext cfg) 1 := File content2]>
          (<[candidate_path out_dir (sanitize_filename stem1)
               (preferred_ext cfg) 0 := File content1]> (fs st)).
Proof.
  set (cand := candidate_path out_dir (sanitize_filename stem1)
                 (preferred_ext cfg)) in *.
  destruct (run_row_copy_to pil ask cfg image_index out_dir i row1 st raw1
              src1 content1 stem1 0) as (st1 & Hrun1 & Hfs1); [done..| |].
  { intros j Hj. lia. }
  fold cand in Hfs1.
  assert (Hne : cand 0 ≠ cand 1)
    by apply candidate_path_suffixed_ne, sanitize_no_slash.
  destruct (run_row_copy_to pil ask cfg image_index out_dir (S i) row2 st1 raw2
              src2 content2 stem2 1) as (st2 & Hrun2 & Hfs2); [done..| | | | |].
  - by apply (find_image_file_preferred_any_fs (fs st)).
  - rewrite Hfs1, lookup_insert_ne; [done|]. congruence.
  - rewrite <- Hsame. fold cand. rewrite Hfs1, lookup_insert_ne; done.
  - intros j Hj. replace j with 0 by lia. rewrite <- Hsame. fold cand.
    rewrite Hfs1, lookup_insert_eq. by eexists.
  - exists st2. cbn [run_rows]. rewrite Hrun1, Hrun2. split; [done|].
    rewrite Hfs2, Hfs1, <- Hsame. done.
Qed.

Lemma run_rows_same_stem_witness :
  ∃ st', run_rows plain_pil no_answer sample_cfg sample_index "." 1
           [row_widget; {[ "Image" := Val "x/Widget.PNG"; "NewName" := NaN ]}]
           (initial_state sample_fs) = Next st'
    ∧ fs st'
      = <["widget_1.jpg" := File [Byte.x03]]>
          (<["widget.jpg" := File [Byte.x03]]> sample_fs).
Proof.
  apply (run_rows_same_stem plain_pil no_answer sample_cfg sample_index "."
           1 row_widget {[ "Image" := Val "x/Widget.PNG"; "NewName" := NaN ]}
           (initial_state sample_fs) "C:/photos/widget.jpg" "x/Widget.PNG"
           "img/widget.jpg" "img/widget.jpg" [Byte.x03] [Byte.x03]
           "widget" "widget"); reflexivity.
Defined.

(** ** The whole run *)

Lemma mkdir_keeps_files (fs fs' : FS) p :
  mkdir fs p = Ok fs' → fs ⊆ fs'.
Proof.
  unfold mkdir. destruct (fs !! p) as [[|]|] eqn:Hp; [done| |].
  - by intros [= <-].
  - intros [= <-]. by apply insert_subseteq.
Qed.

Lemma finalize_fs_other pd out_dir total st p :
  p ≠ path_join out_dir "not_found_images.xlsx" →
  fs (finalize pd out_dir total st) !! p = fs st !! p.
Proof.
  intros Hp. unfold finalize.
  destruct (not_found_rows st); [done|]. simpl.
  by rewrite lookup_insert_ne.
Qed.

(** X26. A whole run, however it ends, leaves every file and folder it
    found in place and unchanged, except two files of the output folder
    (the folder the text of the output field denotes): the report
    [not_found_images.xlsx], which it writes anew when rows went unmatched,
    and the process log, which every run starts afresh and which is kept
    apart from the file system here. *)
Theorem run_keeps_files (pil : Pillow) (ask : nat → Path → Path → option Z)
    (rglob : FS → Path → list Path) (pd : Pandas)
    (cfg : config) (df : option (list Row)) (fs0 : FS) (st : run_state)
    (p : Path) (n : node)
    (Hrun : outcome_state (run pil ask rglob pd cfg df fs0) = Some st)
    (Hp : fs0 !! p = Some n)
    (Hreport : p ≠ path_join (path_of (out_edit cfg)) "not_found_images.xlsx")
    (Hlog : p ≠ path_join (path_of (out_edit cfg)) "process_log.txt") :
  fs st !! p = Some n.
Proof.
  unfold run in Hrun.
  destruct df as [rows|]; [|done].
  destruct (negb (Py.truthy (image_col cfg))); [done|].
  destruct (negb (Py.truthy (Py.strip (out_edit cfg)))); [done|].
  destruct (build_image_index rglob cfg fs0) as [msg|image_index]; [done|].
  cbv zeta in Hrun. set (out_dir := path_of (out_edit cfg)) in *.
  destruct (mkdir fs0 out_dir) as [fs1|e] eqn:Hmkdir.
  2:{ injection Hrun as <-. done. }
  apply mkdir_keeps_files in Hmkdir.
  assert (Hp1 : fs1 !! p = Some n) by (by eapply lookup_weaken).
  destruct (vendor_filter pd cfg rows) as [kept|e].
  2:{ injection Hrun as <-. done. }
  set (st1 := log _ (initial_state fs1)) in Hrun.
  pose proof (run_rows_keeps_files_all pil ask cfg image_index out_dir
                1 kept st1) as Hloop.
  assert (Hend : fs (flow_state (run_rows pil ask cfg image_index
                                   out_dir 1 kept st1)) !! p = Some n)
    by (by eapply lookup_weaken).
  destruct (run_rows pil ask cfg image_index out_dir 1 kept st1)
    as [st2|st2|e st2|st2]; simpl in Hend; injection Hrun as <-; [|done..].
  by rewrite finalize_fs_other.
Qed.

Lemma run_keeps_files_witness :
  ∃ st, outcome_state
          (run plain_pil no_answer walk tally_excel sample_cfg_typed
             (Some [row_widget; row_missing])
             (<["out/not_found_images.xlsx" := File []]> sample_fs)) = Some st
    ∧ fs st !! "img/widget.jpg" = Some (File [Byte.x03])
    ∧ fs st !! "out/not_found_images.xlsx" = Some (File [Byte.x2a]).
Proof.
  assert (Hrun : ∃ st, outcome_state
            (run plain_pil no_answer walk tally_excel sample_cfg_typed
               (Some [row_widget; row_missing])
               (<["out/not_found_images.xlsx" := File []]> sample_fs))
            = Some st
            ∧ fs st !! "out/not_found_images.xlsx" = Some (File [Byte.x2a])).
  { vm_compute. by eexists. }
  destruct Hrun as (st & Hrun & Hreport). exists st.
  split; [exact Hrun|]. split; [|exact Hreport].
  apply (run_keeps_files plain_pil no_answer walk tally_excel sample_cfg_typed
           (Some [row_widget; row_missing])
           (<["out/not_found_images.xlsx" := File []]> sample_fs) st);
    [exact Hrun | reflexivity | discriminate | discriminate].
Defined.

Lemma vendor_select_sublist pd cfg (rows kept : list Row) :
  vendor_select pd cfg rows = Ok kept → kept `sublist_of` rows.
Proof.
  revert kept. induction rows as [|row rows IH]; intros kept; simpl.
  - by intros [= <-].
  - destruct (row_get row (vendor_col cfg)) as [c|]; [|done]. simpl.
    destruct (vendor_select pd cfg rows) as [rest|]; [|done]. simpl.
    intros [= <-]. destruct (vendor_equal pd cfg c).
    + by apply sublist_skip, IH.
    + by apply sublist_cons, IH.
Qed.

Lemma vendor_filter_sublist pd cfg (rows kept : list Row) :
  vendor_filter pd cfg rows = Ok kept → kept `sublist_of` rows.
Proof.
  unfold vendor_filter. destruct (_ && _).
  - apply vendor_select_sublist.
  - by intros [= <-].
Qed.

(** How a run that finishes has gone. *)
Lemma run_Finished_inv pil ask rglob pd cfg df fs0 st :
  run pil ask rglob pd cfg df fs0 = Finished st →
  ∃ rows kept image_index fs1 st2,
    df = Some rows
    ∧ vendor_filter pd cfg rows = Ok kept
    ∧ run_rows pil ask cfg image_index (path_of (out_edit cfg)) 1 kept
        (log (LogRunStart (length kept) (preferred_ext cfg)
                (rename_enabled_of (newname_col cfg)) (fallback_mode cfg))
           (initial_state fs1)) = Next st2
    ∧ st = finalize pd (path_of (out_edit cfg)) (length kept) st2.
Proof.
  unfold run. destruct df as [rows|]; [|done].
  destruct (negb (Py.truthy (image_col cfg))); [done|].
  destruct (negb (Py.truthy (Py.strip (out_edit cfg)))); [done|].
  destruct (build_image_index rglob cfg fs0) as [msg|image_index]; [done|].
  cbv zeta.
  destruct (mkdir fs0 _) as [fs1|e]; [|done].
  destruct (vendor_filter pd cfg rows) as [kept|e] eqn:Hkept; [|done].
  destruct (run_rows _ _ _ _ _ _ _ _) as [st2| | |] eqn:Hloop; [|done..].
  intros [= <-]. by exists rows, kept, image_index, fs1, st2.
Qed.

Lemma finalize_keeps_tally pd out_dir total st :
  counters (finalize pd out_dir total st) = counters st
  ∧ not_found_rows (finalize pd out_dir total st) = not_found_rows st.
Proof.
  destruct (finalize_spec pd out_dir total st) as [Hnone Hsome].
  destruct (decide (not_found_rows st = [])) as [Hnf|Hnf].
  - by rewrite (Hnone Hnf).
  - by destruct (Hsome Hnf) as (_ & _ & ? & ?).
Qed.

(** X27. In a run that finishes, the files copied and converted and the
    rows reported as not found are together at most the rows of the sheet;
    and they are exactly as many when no row is filtered out by vendor and
    the conversion dialog cannot be shown, so that no row goes
    unaccounted. *)
Theorem run_accounts_for_rows (pil : Pillow)
    (ask : nat → Path → Path → option Z)
    (rglob : FS → Path → list Path) (pd : Pandas)
    (cfg : config) (rows : list Row) (fs0 : FS) (st : run_state)
    (Hrun : run pil ask rglob pd cfg (Some rows) fs0 = Finished st) :
  accounted st ≤ length rows
  ∧ (preview_on cfg = false →
     vendor_col cfg = "" ∨ vendor_value cfg = "All Vendors" →
     accounted st = length rows).
Proof.
  apply run_Finished_inv in Hrun
    as (rows' & kept & image_index & fs1 & st2 & [= <-] & Hkept & Hloop & ->).
  set (out_dir := path_of (out_edit cfg)) in *.
  destruct (finalize_keeps_tally pd out_dir (length kept) st2) as [Hcnt Hnf].
  assert (Hacc : accounted (finalize pd out_dir (length kept) st2)
                 = accounted st2).
  { unfold accounted. unfold counters in Hcnt. injection Hcnt as -> -> -> ->.
    by rewrite Hnf. }
  rewrite Hacc.
  destruct (run_rows_accounted_all pil ask cfg image_index out_dir 1
              kept _ st2 Hloop) as [Hle Heq].
  change (accounted (log _ (initial_state fs1))) with 0 in Hle, Heq.
  split.
  - apply (vendor_filter_sublist pd cfg), sublist_length in Hkept. lia.
  - intros Hprev Hall. rewrite (Heq Hprev).
    unfold vendor_filter in Hkept.
    destruct Hall as [Hcol|Hval].
    + rewrite Hcol in Hkept. simpl in Hkept. by injection Hkept as <-.
    + rewrite Hval in Hkept.
      rewrite (bool_decide_eq_false_2 (_ ≠ _)) in Hkept by (by intros []).
      rewrite andb_false_r in Hkept. by injection Hkept as <-.
Qed.

Lemma run_accounts_for_rows_witness :
  ∃ st, run plain_pil no_answer walk no_excel sample_cfg
          (Some [row_widget; row_missing]) sample_fs = Finished st
    ∧ accounted st = 2.
Proof.
  assert (Hrun : ∃ st, run plain_pil no_answer walk no_excel sample_cfg
                         (Some [row_widget; row_missing]) sample_fs
                       = Finished st).
  { vm_compute. by eexists. }
  destruct Hrun as [st Hrun]. exists st. split; [exact Hrun|].
  apply (run_accounts_for_rows plain_pil no_answer walk no_excel sample_cfg
           [row_widget; row_missing] sample_fs st Hrun).
  - reflexivity.
  - left. reflexivity.
Defined.

(** X28. In a run that finishes, the rows reported as not found are rows
    of the sheet, in the order of the sheet; and when there are any, the
    report [not_found_images.xlsx] of the output folder (the folder the
    text of the output field denotes) holds exactly these rows, with all
    their fields, as the spreadsheet writer renders them. *)
Theorem run_report (pil : Pillow) (ask : nat → Path → Path → option Z)
    (rglob : FS → Path → list Path) (pd : Pandas)
    (cfg : config) (rows : list Row) (fs0 : FS) (st : run_state)
    (Hrun : run pil ask rglob pd cfg (Some rows) fs0 = Finished st) :
  not_found_rows st `sublist_of` rows
  ∧ (not_found_rows st ≠ [] →
     fs st !! path_join (path_of (out_edit cfg)) "not_found_images.xlsx"
     = Some (File (to_excel pd (not_found_rows st)))).
Proof.
  apply run_Finished_inv in Hrun
    as (rows' & kept & image_index & fs1 & st2 & [= <-] & Hkept & Hloop & ->).
  set (out_dir := path_of (out_edit cfg)) in *.
  destruct (finalize_keeps_tally pd out_dir (length kept) st2) as [_ Hnf].
  rewrite Hnf. split.
  - destruct (run_rows_not_found_all pil ask cfg image_index out_dir 1
                kept (log (LogRunStart (length kept) (preferred_ext cfg)
                             (rename_enabled_of (newname_col cfg))
                             (fallback_mode cfg)) (initial_state fs1)))
      as (rs & Hrs & Hsub).
    rewrite Hloop in Hrs. simpl in Hrs. rewrite Hrs.
    etrans; [exact Hsub|]. by apply (vendor_filter_sublist pd cfg).
  - intros Hne.
    destruct (finalize_spec pd out_dir (length kept) st2) as [_ Hwritten].
    destruct (Hwritten Hne) as (-> & _). by rewrite lookup_insert_eq.
Qed.

Lemma run_report_witness :
  ∃ st, run plain_pil no_answer walk tally_excel sample_cfg_typed
          (Some [row_widget; row_missing]) sample_fs = Finished st
    ∧ not_found_rows st `sublist_of` [row_widget; row_missing]
    ∧ fs st !! "out/not_found_images.xlsx" = Some (File [Byte.x2a]).
Proof.
  destruct run_typed_folders as (st & Hrun & Hnf & _). exists st.
  split; [exact Hrun|].
  destruct (run_report plain_pil no_answer walk tally_excel sample_cfg_typed
              [row_widget; row_missing] sample_fs st Hrun)
    as [Hsub Hreport].
  split; [exact Hsub|].
  rewrite Hnf in Hreport. apply Hreport. discriminate.
Defined.

(** ** Convert All *)

Lemma run_row_ask_ext pil ask ask' cfg (image_index : Index) out_dir i
    (row : Row) st :
  (∀ src dst, ask' i src dst = ask i src dst) →
  run_row pil ask' cfg image_index out_dir i row st
  = run_row pil ask cfg image_index out_dir i row st.
Proof.
  intros Hsame. unfold run_row.
  destruct (row_get row (image_col cfg)) as [raw_path|]; [|done].
  destruct (isna raw_path); [done|].
  destruct (output_stem_of cfg row _) as [output_stem|]; [|done].
  destruct (find_image_file _ image_index (preferred_ext cfg) _)
    as [[[src_path|] was_fallback]|]; [|done..].
  destruct (resolve_output_path _ out_dir output_stem _) as [dest_path|];
    [|done].
  destruct (py_not was_fallback); [done|].
  cbn zeta. unfold conversion_dialog. by rewrite Hsame.
Qed.

(** X18. Convert All holds for the rest of the run: once the user has
    pressed it in the dialog of a row, the rows after that one are
    processed without consulting the user, whatever the answers would have
    been. *)
Theorem run_rows_convert_all (pil : Pillow)
    (ask ask' : nat → Path → Path → option Z) (cfg : config)
    (image_index : Index) (out_dir : Path) (i : nat) (row : Row)
    (rest : list Row) (st : run_state) (raw : string) (src : Path)
    (Hmode : fallback_mode cfg = "convert")
    (Hprev : preview_toggle cfg = "Show preview before overwriting")
    (Hcell : row !! image_col cfg = Some (Val raw))
    (Hrename : rename_enabled_of (newname_col cfg) = true →
               is_Some (row !! newname_col cfg))
    (Hres : find_image_file (fs st) image_index (preferred_ext cfg)
              (Py.lower (path_stem (path_name raw)))
            = Ok (Some src, Some true))
    (Hask : ∀ dst, ask i src dst = dialog_exec (Some ConvertAllButton))
    (Hsame : ∀ s d, ask' i s d = ask i s d) :
  run_rows pil ask' cfg image_index out_dir i (row :: rest) st
  = run_rows pil ask cfg image_index out_dir i (row :: rest) st.
Proof.
  cbn [run_rows]. rewrite (run_row_ask_ext pil ask ask') by done.
  destruct (run_row pil ask cfg image_index out_dir i row st) as [st1| | |]
    eqn:Hrow; [|done..].
  apply run_rows_dialog_not_shown. right.
  destruct (run_row_resolved pil ask cfg image_index out_dir i row st raw src
              (Some true) Hcell Hrename Hres)
    as (output_stem & k & _ & Hfree & _ & Hrun).
  rewrite Hrun in Hrow. cbn zeta in Hrow. cbn [py_not] in Hrow.
  destruct (convert_all_mode st) eqn:Hall.
  - rewrite conversion_dialog_not_shown in Hrow by (by right).
    match type of Hrow with
    | fallback_action _ _ _ _ _ ?d ?s = _ =>
        pose proof (fallback_action_cases pil cfg row (path_name raw) src d s
                      Hfree) as Haction
    end.
    rewrite Hrow in Haction. destruct Haction as [_ ->]. done.
  - rewrite conversion_dialog_shown in Hrow by done.
    cbn zeta in Hrow. rewrite Hask in Hrow. simpl in Hrow.
    match type of Hrow with
    | fallback_action _ _ _ _ _ ?d ?s = _ =>
        pose proof (fallback_action_cases pil cfg row (path_name raw) src d s
                      Hfree) as Haction
    end.
    rewrite Hrow in Haction. destruct Haction as [_ ->]. done.
Qed.

Lemma run_rows_convert_all_witness :
  run_rows plain_pil
    (λ i _ _, if decide (i = 1) then dialog_exec (Some ConvertAllButton)
              else dialog_exec (Some CancelButton))
    sample_cfg_preview sample_index "out" 1
    [row_sku; row_sku] (initial_state sample_fs)
  = run_rows plain_pil (always_press ConvertAllButton)
      sample_cfg_preview sample_index "out" 1
      [row_sku; row_sku] (initial_state sample_fs).
Proof.
  apply (run_rows_convert_all plain_pil (always_press ConvertAllButton) _
           sample_cfg_preview sample_index "out" 1 row_sku [row_sku]
           (initial_state sample_fs) "SKU123.tif" "img/sku123.png");
    try reflexivity.
  intros _. by eexists.
Defined.
